(** * Currency converter: conversion engine, rate cache and history log

    A shallow embedding of [script.js].  The script keeps three globals
    ([exchangeRates], [currencies], [conversionHistory]) and an [appState]
    record, talks to a rate provider through [fetch], and shows its results
    in a handful of DOM elements.  Here the globals, the persisted slot
    [window.conversionHistoryData] and the DOM elements the script writes to
    form an explicit [state]; each function of the script is a computation
    in a state-and-exception monad over that state.

    What the script takes from its host (the JavaScript engine, the clock,
    the network) is modelled as follows:
    - numbers are IEEE 754 binary64 values, computed with the Standard
      Library's executable specification ([SpecFloat]);
    - JSON text is identified with the value [JSON.parse] reads from it;
    - ISO 8601 instants are printed and read back by the functions of
      section "Dates";
    - the numeric reading of text, the text of an array or object, the
      reading of date strings in other formats, the clock and the replies of
      the network are the fields of the [Host] record, over which every
      function of the script and every theorem is parameterized.

    An async function is followed from its call to its end: what it awaits
    settles, and no other handler runs in between.  Where a property
    depends on what happens during a wait, the function is split at its
    [await] and the state it resumes from is arbitrary. *)

From Stdlib Require Import ZArith List String Ascii Bool Lia.
From Stdlib Require Import Floats.SpecFloat DecimalString.
Import ListNotations.

Set Warnings "-register-all".

Local Open Scope string_scope.
Local Open Scope Z_scope.

(** * Numbers *)

(** A JavaScript number: a binary64 float ([prec = 53], [emax = 1024]). *)
Definition number : Type := spec_float.

Definition prec : Z := 53.
Definition emax : Z := 1024.

(** The members of [number] that are doubles: canonical mantissa and
    exponent in range. *)
Definition is_double (x : number) : bool := valid_binary prec emax x.

Definition num_mul : number -> number -> number := SFmul prec emax.
Definition num_div : number -> number -> number := SFdiv prec emax.
Definition num_ltb : number -> number -> bool := SFltb.
Definition num_leb : number -> number -> bool := SFleb.

(** The double nearest to an integer. *)
Definition num_of_Z (z : Z) : number := binary_normalize prec emax z 0 false.

Definition NaN : number := S754_nan.
Definition zero : number := S754_zero false.
Definition one : number := Eval vm_compute in num_of_Z 1.

Definition is_NaN (x : number) : bool :=
  match x with S754_nan => true | _ => false end.

(** [Number.isFinite]. *)
Definition is_finite (x : number) : bool :=
  match x with S754_zero _ | S754_finite _ _ _ => true | _ => false end.

(** [ToBoolean] on a number: [+0], [-0] and [NaN] are falsy. *)
Definition num_truthy (x : number) : bool :=
  match x with S754_zero _ | S754_nan => false | _ => true end.

(** A strictly positive finite number. *)
Definition num_positive (x : number) : bool :=
  match x with S754_finite false _ _ => true | _ => false end.

(** The integer part of a finite number, towards zero. *)
Definition num_trunc (x : number) : option Z :=
  match x with
  | S754_zero _ => Some 0
  | S754_finite s m e =>
      let a := Z.shiftl (Zpos m) e in Some (if s then - a else a)
  | _ => None
  end.

(** * Dates

    A time value is a whole number of milliseconds since the epoch, within
    8.64e15 of it ([TimeClip]).  The calendar follows the definitions of
    ECMAScript ([DayFromYear], [MonthFromTime], [MakeDay], [MakeTime],
    [MakeDate]), on days instead of milliseconds where that is simpler. *)

Definition msPerDay : Z := 86400000.
Definition max_time : Z := 8640000000000000.
Definition valid_time (t : Z) : bool := (- max_time <=? t) && (t <=? max_time).

Definition DayFromYear (y : Z) : Z :=
  365 * (y - 1970) + (y - 1969) / 4 - (y - 1901) / 100 + (y - 1601) / 400.

Definition InLeapYear (y : Z) : Z :=
  if ((y mod 4 =? 0) && negb (y mod 100 =? 0)) || (y mod 400 =? 0) then 1 else 0.

(** The year a day falls in: the largest [y] whose first day is not after
    [day].  The estimate from the mean year length is off by one at most. *)
Definition YearFromDay (day : Z) : Z :=
  let y0 := 1970 + (400 * day) / 146097 in
  if DayFromYear (y0 + 1) <=? day then y0 + 1
  else if DayFromYear y0 <=? day then y0
  else y0 - 1.

(** First day of month [m] (0 for January) within a year, [L] being 1 in a
    leap year. *)
Definition month_start (m L : Z) : Z :=
  match m with
  | 0 => 0 | 1 => 31 | 2 => 59 + L | 3 => 90 + L | 4 => 120 + L | 5 => 151 + L
  | 6 => 181 + L | 7 => 212 + L | 8 => 243 + L | 9 => 273 + L | 10 => 304 + L
  | _ => 334 + L
  end.

Definition MonthFromDay (d L : Z) : Z :=
  if d <? 31 then 0 else if d <? 59 + L then 1 else if d <? 90 + L then 2
  else if d <? 120 + L then 3 else if d <? 151 + L then 4
  else if d <? 181 + L then 5 else if d <? 212 + L then 6
  else if d <? 243 + L then 7 else if d <? 273 + L then 8
  else if d <? 304 + L then 9 else if d <? 334 + L then 10 else 11.

Definition MakeDay (year month date : Z) : Z :=
  DayFromYear year + month_start month (InLeapYear year) + date - 1.

Definition MakeTime (hour min sec ms : Z) : Z :=
  hour * 3600000 + min * 60000 + sec * 1000 + ms.

Definition MakeDate (day time : Z) : Z := day * msPerDay + time.

(** The calendar fields of an instant, in UTC. *)
Record fields := {
  f_year : Z; f_month : Z; f_date : Z;
  f_hours : Z; f_minutes : Z; f_seconds : Z; f_ms : Z
}.

Definition fields_of_time (t : Z) : fields :=
  let day := t / msPerDay in
  let time := t mod msPerDay in
  let year := YearFromDay day in
  let L := InLeapYear year in
  let dwy := day - DayFromYear year in
  let month := MonthFromDay dwy L in
  {| f_year := year; f_month := month; f_date := dwy - month_start month L + 1;
     f_hours := time / 3600000; f_minutes := (time / 60000) mod 60;
     f_seconds := (time / 1000) mod 60; f_ms := time mod 1000 |}.

Definition time_of_fields (f : fields) : Z :=
  MakeDate (MakeDay (f_year f) (f_month f) (f_date f))
           (MakeTime (f_hours f) (f_minutes f) (f_seconds f) (f_ms f)).

(** Fixed-width decimal fields. *)
Definition digit_char (d : Z) : ascii := ascii_of_nat (48 + Z.to_nat d).

Definition char_digit (c : ascii) : option Z :=
  let n := Z.of_nat (nat_of_ascii c) in
  if (48 <=? n) && (n <=? 57) then Some (n - 48) else None.

Fixpoint digits (k : nat) (n : Z) : list ascii :=
  match k with
  | O => []
  | S k' => digits k' (n / 10) ++ [digit_char (n mod 10)]
  end.

Fixpoint read_digits (acc : Z) (l : list ascii) : option Z :=
  match l with
  | [] => Some acc
  | c :: l' =>
      match char_digit c with
      | Some d => read_digits (10 * acc + d) l'
      | None => None
      end
  end.

Definition take_number (k : nat) (l : list ascii) : option (Z * list ascii) :=
  if Nat.eqb (List.length (firstn k l)) k
  then option_map (fun n => (n, skipn k l)) (read_digits 0 (firstn k l))
  else None.

Definition take_char (c : ascii) (l : list ascii) : option (list ascii) :=
  match l with
  | c' :: l' => if Ascii.eqb c c' then Some l' else None
  | [] => None
  end.

(** [Date.prototype.toISOString]: [YYYY-MM-DDTHH:mm:ss.sssZ], the year
    with a sign and six digits outside 0..9999. *)
Definition year_chars (y : Z) : list ascii :=
  if (0 <=? y) && (y <=? 9999) then digits 4 y
  else (if y <? 0 then "-"%char else "+"%char) :: digits 6 (Z.abs y).

Definition iso_chars (f : fields) : list ascii :=
  year_chars (f_year f) ++ "-"%char :: digits 2 (f_month f + 1) ++
  "-"%char :: digits 2 (f_date f) ++ "T"%char :: digits 2 (f_hours f) ++
  ":"%char :: digits 2 (f_minutes f) ++ ":"%char :: digits 2 (f_seconds f) ++
  "."%char :: digits 3 (f_ms f) ++ ["Z"%char].

Definition toISOString (t : Z) : string :=
  string_of_list_ascii (iso_chars (fields_of_time t)).

(** Reading that format back. *)
Definition obind {A B} (o : option A) (k : A -> option B) : option B :=
  match o with Some a => k a | None => None end.

Definition read_year (l : list ascii) : option (Z * list ascii) :=
  match l with
  | c :: l' =>
      if Ascii.eqb c "+" then take_number 6 l'
      else if Ascii.eqb c "-" then
        obind (take_number 6 l') (fun '(n, r) => Some (- n, r))
      else take_number 4 l
  | [] => None
  end.

Definition read_iso (l : list ascii) : option fields :=
  obind (read_year l) (fun '(year, l) =>
  obind (take_char "-" l) (fun l =>
  obind (take_number 2 l) (fun '(month, l) =>
  obind (take_char "-" l) (fun l =>
  obind (take_number 2 l) (fun '(date, l) =>
  obind (take_char "T" l) (fun l =>
  obind (take_number 2 l) (fun '(hours, l) =>
  obind (take_char ":" l) (fun l =>
  obind (take_number 2 l) (fun '(minutes, l) =>
  obind (take_char ":" l) (fun l =>
  obind (take_number 2 l) (fun '(seconds, l) =>
  obind (take_char "." l) (fun l =>
  obind (take_number 3 l) (fun '(ms, l) =>
  obind (take_char "Z" l) (fun l =>
  match l with
  | [] => Some {| f_year := year; f_month := month - 1; f_date := date;
                  f_hours := hours; f_minutes := minutes;
                  f_seconds := seconds; f_ms := ms |}
  | _ => None
  end)))))))))))))).

(** [Date.parse].  A string that is the ISO rendering of an instant reads as
    that instant.  What any other string reads as (other ISO forms, local
    times, legacy formats, or nothing: [None]) is the engine's choice,
    [other]. *)
Definition Date_parse (other : string -> option Z) (s : string) : option Z :=
  match read_iso (list_ascii_of_string s) with
  | Some f =>
      let t := time_of_fields f in
      if valid_time t && String.eqb (toISOString t) s then Some t else other s
  | None => other s
  end.


(** [TimeClip] of a number. *)
Definition TimeClip (x : number) : option Z :=
  match num_trunc x with
  | Some t => if valid_time t then Some t else None
  | None => None
  end.

(** * Values *)

(** The values the script handles: what [JSON.parse] builds, plus
    [undefined] and [Date] objects.  An object is the list of its own
    enumerable properties, in property order; [VDate None] is the Invalid
    Date. *)
Inductive value : Type :=
| VUndefined
| VNull
| VBool (b : bool)
| VNum (x : number)
| VStr (s : string)
| VDate (t : option Z)
| VArr (items : list value)
| VObj (props : list (string * value)).

Definition properties : Type := list (string * value).

(** [o[k]] on own properties; [undefined] when there is none.  The script's
    reads also see what an object inherits from [Object.prototype]
    ([constructor], [toString], [__proto__], ...): the two agree on every key
    that is not the name of such a member, in particular on the currency
    codes of [CURRENCY_INFO].  The theorems about rates take the codes they
    read supported. *)
Fixpoint lookup (k : string) (o : properties) : value :=
  match o with
  | [] => VUndefined
  | (k', v) :: o' => if String.eqb k k' then v else lookup k o'
  end.

(** [o[k] = v]: in place when [k] is there, a new last property otherwise. *)
Fixpoint assign (k : string) (v : value) (o : properties) : properties :=
  match o with
  | [] => [(k, v)]
  | (k', v') :: o' =>
      if String.eqb k k' then (k, v) :: o' else (k', v') :: assign k v o'
  end.

Definition index_key (i : nat) : string := NilEmpty.string_of_uint (Nat.to_uint i).

Fixpoint indexed (i : nat) (l : list value) : properties :=
  match l with
  | [] => []
  | v :: l' => (index_key i, v) :: indexed (S i) l'
  end.

(** The own enumerable properties of a value: what [Object.keys] lists and
    what [{...v}] copies.  Properties inherited from a prototype ([length],
    [toString], ...) are not modelled: no property name or currency code the
    script uses is one of them. *)
Definition own_properties (v : value) : properties :=
  match v with
  | VObj o => o
  | VArr l => indexed 0 l
  | VStr s => indexed 0 (map (fun c => VStr (String c EmptyString)) (list_ascii_of_string s))
  | _ => []
  end.

(** [ToBoolean] on a string: only the empty string is falsy. *)
Definition str_truthy (s : string) : bool :=
  match s with
  | EmptyString => false
  | String _ _ => true
  end.

(** [ToBoolean]. *)
Definition truthy (v : value) : bool :=
  match v with
  | VUndefined | VNull => false
  | VBool b => b
  | VNum x => num_truthy x
  | VStr s => str_truthy s
  | VDate _ | VArr _ | VObj _ => true
  end.

(** [typeof v === "object"]. *)
Definition typeof_object (v : value) : bool :=
  match v with
  | VNull | VDate _ | VArr _ | VObj _ => true
  | _ => false
  end.

(** * Exceptions and results *)

(** Errors raised by the engine rather than by the script; their message is
    the engine's. *)
Inductive native : Type := TypeError | SyntaxError | RangeError | FetchRejection.

Inductive exn : Type :=
| Error (message : string)
| Native (k : native).

(** The text of a message: a literal of the script or an engine message. *)
Inductive text : Type :=
| Literal (s : string)
| NativeMessage (k : native).

(** [error.message]. *)
Definition message_of (e : exn) : text :=
  match e with
  | Error m => Literal m
  | Native k => NativeMessage k
  end.

Inductive result (A : Type) : Type :=
| Ok (a : A)
| Throw (e : exn).
Arguments Ok {A} a.
Arguments Throw {A} e.

Definition rbind {A B} (r : result A) (k : A -> result B) : result B :=
  match r with
  | Ok a => k a
  | Throw e => Throw e
  end.

Fixpoint map_result {A B} (f : A -> result B) (l : list A) : result (list B) :=
  match l with
  | [] => Ok []
  | a :: l' => rbind (f a) (fun b => rbind (map_result f l') (fun bs => Ok (b :: bs)))
  end.

(** [v[k]]: reading a property of [undefined] or [null] raises. *)
Definition get (v : value) (k : string) : result value :=
  match v with
  | VUndefined | VNull => Throw (Native TypeError)
  | _ => Ok (lookup k (own_properties v))
  end.

(** * The host *)

Record response : Type := {
  ok : bool;
  status : Z;
  (** what [response.json()] resolves to; [None] when the body is not JSON *)
  json : option value
}.

(** What the network does with a request: nothing, a rejection or a
    response, after some milliseconds. *)
Inductive reply : Type :=
| NoReply
| Rejects (after : Z)
| Responds (after : Z) (r : response).

Record Host : Type := {
  (** [ToNumber] on a string *)
  StringToNumber : string -> number;
  (** [ToPrimitive] on an array or object: its text, or [None] when the
      conversion raises (no callable [toString]) *)
  object_text : value -> option string;
  (** [Date.parse] on strings that are not the ISO rendering of an instant *)
  Date_parse_other : string -> option Z;
  (** the time value [new Date()] reads *)
  now : Z;
  network : string -> reply
}.

(** * State *)

(** An entry of [appState.errors]. *)
Record error_entry : Type := {
  e_message : text;
  e_timestamp : Z;
  e_function : string;
  e_currencies : option string
}.

Record app_state : Type := {
  isLoading : bool;
  lastUpdateTime : option Z;
  apiCallCount : Z;
  errors : list error_entry
}.

(** The persisted slot [window.conversionHistoryData], by what the loader
    makes of it: nothing there (or a falsy value), a text [JSON.parse]
    rejects, or a text [JSON.parse] reads as [j]. *)
Inductive stored : Type :=
| Absent
| Unparsable
| Json (j : value).

(** The DOM elements the script writes to, by what they show.  Formatting
    ([Intl]) is not modelled: a field holds the value handed to the
    formatter. *)
Record elements : Type := {
  (** the error banner: [None] when hidden *)
  errorMessage : option text;
  (** whether the result panel is displayed *)
  resultDisplay : bool;
  toAmount : option number;
  (** [None] while the spinner is shown *)
  resultAmount : option (number * string);
  (** [1 from = rate to]; [None] while "Memuat nilai tukar..." is shown *)
  exchangeRate : option (string * value * string);
  (** the conversions rendered in the history list *)
  historyList : list value
}.

Record state : Type := {
  exchangeRates : properties;
  currencies : list string;
  conversionHistory : list value;
  appState : app_state;
  conversionHistoryData : stored;
  dom : elements;
  (** the URLs handed to [fetch] so far, latest first *)
  requests : list string
}.

Definition set_exchangeRates (x : properties) (s : state) : state :=
  {| exchangeRates := x; currencies := currencies s;
     conversionHistory := conversionHistory s; appState := appState s;
     conversionHistoryData := conversionHistoryData s; dom := dom s;
     requests := requests s |}.

Definition set_currencies (x : list string) (s : state) : state :=
  {| exchangeRates := exchangeRates s; currencies := x;
     conversionHistory := conversionHistory s; appState := appState s;
     conversionHistoryData := conversionHistoryData s; dom := dom s;
     requests := requests s |}.

Definition set_conversionHistory (x : list value) (s : state) : state :=
  {| exchangeRates := exchangeRates s; currencies := currencies s;
     conversionHistory := x; appState := appState s;
     conversionHistoryData := conversionHistoryData s; dom := dom s;
     requests := requests s |}.

Definition set_appState (x : app_state) (s : state) : state :=
  {| exchangeRates := exchangeRates s; currencies := currencies s;
     conversionHistory := conversionHistory s; appState := x;
     conversionHistoryData := conversionHistoryData s; dom := dom s;
     requests := requests s |}.

Definition set_conversionHistoryData (x : stored) (s : state) : state :=
  {| exchangeRates := exchangeRates s; currencies := currencies s;
     conversionHistory := conversionHistory s; appState := appState s;
     conversionHistoryData := x; dom := dom s;
     requests := requests s |}.

Definition set_dom (x : elements) (s : state) : state :=
  {| exchangeRates := exchangeRates s; currencies := currencies s;
     conversionHistory := conversionHistory s; appState := appState s;
     conversionHistoryData := conversionHistoryData s; dom := x;
     requests := requests s |}.

Definition set_requests (x : list string) (s : state) : state :=
  {| exchangeRates := exchangeRates s; currencies := currencies s;
     conversionHistory := conversionHistory s; appState := appState s;
     conversionHistoryData := conversionHistoryData s; dom := dom s;
     requests := x |}.

(** The globals as the script declares them, before [initializeApp]. *)
Definition initial_state : state :=
  {| exchangeRates := []; currencies := []; conversionHistory := [];
     appState := {| isLoading := false; lastUpdateTime := None;
                    apiCallCount := 0; errors := [] |};
     conversionHistoryData := Absent;
     dom := {| errorMessage := None; resultDisplay := false; toAmount := None;
               resultAmount := None; exchangeRate := None; historyList := [] |};
     requests := [] |}.

(** * Computations *)

(** A function of the script: it reads and writes the state and returns or
    throws. *)
Definition M (A : Type) : Type := state -> result A * state.

Definition ret {A} (a : A) : M A := fun s => (Ok a, s).

Definition throw {A} (e : exn) : M A := fun s => (Throw e, s).

Definition bind {A B} (c : M A) (k : A -> M B) : M B :=
  fun s =>
    match c s with
    | (Ok a, s') => k a s'
    | (Throw e, s') => (Throw e, s')
    end.

(** [try { c } catch (error) { handler error }]: the writes of [c] stay. *)
Definition try_catch {A} (c : M A) (handler : exn -> M A) : M A :=
  fun s =>
    match c s with
    | (Ok a, s') => (Ok a, s')
    | (Throw e, s') => handler e s'
    end.

Definition lift {A} (r : result A) : M A := fun s => (r, s).

Definition gets {A} (f : state -> A) : M A := fun s => (Ok (f s), s).

Definition modify (f : state -> state) : M unit := fun s => (Ok tt, f s).

Declare Scope js_scope.
Delimit Scope js_scope with js.
Notation "x <- c ;; k" := (bind c (fun x => k))
  (at level 61, c at next level, right associativity) : js_scope.
Notation "c ;; k" := (bind c (fun _ => k))
  (at level 61, right associativity) : js_scope.
Local Open Scope js_scope.

(** * Configuration *)

Definition baseURL : string := "https://api.exchangerate-api.com/v4/latest/".
Definition timeout : Z := 10000.

(** [CURRENCY_INFO]: the supported codes with their names (symbols and flags
    are display data). *)
Definition CURRENCY_INFO : list (string * string) :=
  [ ("USD", "US Dollar"); ("EUR", "Euro"); ("GBP", "British Pound");
    ("JPY", "Japanese Yen"); ("IDR", "Indonesian Rupiah");
    ("CNY", "Chinese Yuan"); ("KRW", "South Korean Won");
    ("SGD", "Singapore Dollar"); ("MYR", "Malaysian Ringgit");
    ("THB", "Thai Baht"); ("AUD", "Australian Dollar");
    ("CAD", "Canadian Dollar"); ("CHF", "Swiss Franc");
    ("INR", "Indian Rupee"); ("HKD", "Hong Kong Dollar");
    ("NZD", "New Zealand Dollar") ].

(** [code] is one of the codes of [CURRENCY_INFO].  For the script's test
    [CURRENCY_INFO[code]] this is the case of an own entry; the test also
    passes on the names of the members of [Object.prototype]. *)
Definition supported (code : string) : bool :=
  existsb (fun entry => String.eqb code (fst entry)) CURRENCY_INFO.

(** The amount bound of [performConversion]. *)
Definition max_amount : number := Eval vm_compute in num_of_Z 1000000000.

Definition string_of_Z (z : Z) : string := NilZero.string_of_int (Z.to_int z).

(** [Array.prototype.sort] on strings, by code units. *)
Fixpoint insert_sorted (x : string) (l : list string) : list string :=
  match l with
  | [] => [x]
  | y :: l' => if String.leb x y then x :: l else y :: insert_sorted x l'
  end.

Definition sort (l : list string) : list string :=
  fold_right insert_sorted [] l.

(** * The script *)

Section Script.

Variable host : Host.

(** ** Conversions of the language *)

(** [ToPrimitive]: arrays and objects become their text. *)
Definition ToPrimitive (v : value) : result value :=
  match v with
  | VArr _ | VObj _ =>
      match object_text host v with
      | Some s => Ok (VStr s)
      | None => Throw (Native TypeError)
      end
  | _ => Ok v
  end.

(** [ToNumber]. *)
Definition ToNumber (v : value) : result number :=
  rbind (ToPrimitive v) (fun p =>
  Ok match p with
     | VNull => zero
     | VBool b => if b then one else zero
     | VNum x => x
     | VStr s => StringToNumber host s
     | VDate (Some t) => num_of_Z t
     | _ => NaN
     end).

(** [a * b] and [a / b]: left operand first. *)
Definition js_mul (a b : value) : result number :=
  rbind (ToNumber a) (fun x => rbind (ToNumber b) (fun y => Ok (num_mul x y))).

Definition js_div (a b : value) : result number :=
  rbind (ToNumber a) (fun x => rbind (ToNumber b) (fun y => Ok (num_div x y))).

(** [new Date(v)]. *)
Definition new_Date (v : value) : result value :=
  match v with
  | VDate t => Ok (VDate t)
  | _ =>
      rbind (ToPrimitive v) (fun p =>
      match p with
      | VStr s => Ok (VDate (Date_parse (Date_parse_other host) s))
      | _ => rbind (ToNumber p) (fun x => Ok (VDate (TimeClip x)))
      end)
  end.

(** [new Date()]. *)
Definition Date_now : value := VDate (Some (now host)).

(** ** [JSON.stringify] *)

(** The value [JSON.parse] reads from the text [JSON.stringify] writes for
    [v]: dates become their ISO string ([toJSON]), numbers that are not
    finite become [null], [-0] becomes [0], [undefined] becomes [null] in an
    array and is left out of an object. *)
Fixpoint to_json (v : value) : value :=
  match v with
  | VUndefined => VNull
  | VNum x =>
      if is_finite x
      then VNum match x with S754_zero _ => zero | _ => x end
      else VNull
  | VDate (Some t) => if valid_time t then VStr (toISOString t) else VNull
  | VDate None => VNull
  | VArr l => VArr (map to_json l)
  | VObj o =>
      VObj ((fix members (o : properties) : properties :=
               match o with
               | [] => []
               | (_, VUndefined) :: o' => members o'
               | (k, v') :: o' => (k, to_json v') :: members o'
               end) o)
  | _ => v
  end.

Definition JSON_stringify (v : value) : stored :=
  match v with
  | VUndefined => Absent
  | _ => Json (to_json v)
  end.

(** ** Display functions *)

Definition with_dom (f : elements -> elements) : M unit :=
  modify (fun s => set_dom (f (dom s)) s).

Definition set_isLoading (b : bool) : M unit :=
  modify (fun s =>
    set_appState {| isLoading := b; lastUpdateTime := lastUpdateTime (appState s);
                    apiCallCount := apiCallCount (appState s);
                    errors := errors (appState s) |} s).

Definition showResult : M unit :=
  with_dom (fun d =>
    {| errorMessage := errorMessage d; resultDisplay := true;
       toAmount := toAmount d; resultAmount := resultAmount d;
       exchangeRate := exchangeRate d; historyList := historyList d |}).

Definition hideResult : M unit :=
  with_dom (fun d =>
    {| errorMessage := errorMessage d; resultDisplay := false;
       toAmount := toAmount d; resultAmount := resultAmount d;
       exchangeRate := exchangeRate d; historyList := historyList d |}).

Definition showError (message : text) : M unit :=
  with_dom (fun d =>
    {| errorMessage := Some message; resultDisplay := resultDisplay d;
       toAmount := toAmount d; resultAmount := resultAmount d;
       exchangeRate := exchangeRate d; historyList := historyList d |}) ;;
  hideResult.

Definition hideError : M unit :=
  with_dom (fun d =>
    {| errorMessage := None; resultDisplay := resultDisplay d;
       toAmount := toAmount d; resultAmount := resultAmount d;
       exchangeRate := exchangeRate d; historyList := historyList d |}).

Definition showLoading (show : bool) : M unit :=
  if show then
    set_isLoading true ;;
    with_dom (fun d =>
      {| errorMessage := errorMessage d; resultDisplay := resultDisplay d;
         toAmount := toAmount d; resultAmount := None;
         exchangeRate := None; historyList := historyList d |}) ;;
    showResult
  else set_isLoading false.

(** ** API functions *)

(** [fetch] raced against the abort timer: whichever comes first. *)
Definition fetchWithTimeout (url : string) (timeout : Z) : M response :=
  modify (fun s => set_requests (url :: requests s) s) ;;
  match network host url with
  | Responds after r =>
      if after <? timeout then ret r
      else throw (Error "Request timeout - server tidak merespons")
  | Rejects after =>
      if after <? timeout then throw (Native FetchRejection)
      else throw (Error "Request timeout - server tidak merespons")
  | NoReply => throw (Error "Request timeout - server tidak merespons")
  end.

(** [await response.json()], for a body that arrives: the abort timer is
    cleared once the headers are in, so the script puts no bound on this
    wait. *)
Definition response_json (r : response) : M value :=
  match json r with
  | Some data => ret data
  | None => throw (Native SyntaxError)
  end.

Definition count_apiCall : M unit :=
  modify (fun s =>
    set_appState {| isLoading := isLoading (appState s);
                    lastUpdateTime := lastUpdateTime (appState s);
                    apiCallCount := apiCallCount (appState s) + 1;
                    errors := errors (appState s) |} s).

Definition set_lastUpdateTime (t : Z) : M unit :=
  modify (fun s =>
    set_appState {| isLoading := isLoading (appState s);
                    lastUpdateTime := Some t;
                    apiCallCount := apiCallCount (appState s);
                    errors := errors (appState s) |} s).

(** [appState.errors.push(entry)]. *)
Definition push_error (entry : error_entry) : M unit :=
  modify (fun s =>
    set_appState {| isLoading := isLoading (appState s);
                    lastUpdateTime := lastUpdateTime (appState s);
                    apiCallCount := apiCallCount (appState s);
                    errors := (errors (appState s) ++ [entry])%list |} s).

Definition loadCurrencies : M unit :=
  try_catch
    (response <- fetchWithTimeout (baseURL ++ "USD") timeout ;;
     if negb (ok response)
     then throw (Error ("HTTP error! status: " ++ string_of_Z (status response)))
     else
       data <- response_json response ;;
       rates <- lift (get data "rates") ;;
       if negb (truthy rates) || negb (typeof_object rates)
       then throw (Error "Invalid API response format")
       else
         modify (set_exchangeRates (own_properties rates)) ;;
         modify (set_currencies (sort (map fst (own_properties rates)))) ;;
         listed <- gets currencies ;;
         (if existsb (String.eqb "USD") listed then ret tt
          else
            modify (set_currencies ("USD" :: listed)) ;;
            modify (fun s => set_exchangeRates
                               (assign "USD" (VNum one) (exchangeRates s)) s)) ;;
         modify (fun s => set_currencies (filter supported (currencies s)) s) ;;
         set_lastUpdateTime (now host) ;;
         count_apiCall ;;
         hideError)
    (fun error =>
       push_error {| e_message := message_of error; e_timestamp := now host;
                     e_function := "loadCurrencies"; e_currencies := None |} ;;
       throw (Error "Gagal memuat data mata uang dari server")).

Definition getExchangeRate (fromCurrency toCurrency : string) : M value :=
  try_catch
    (if String.eqb fromCurrency toCurrency then ret (VNum one)
     else
       rates <- gets exchangeRates ;;
       if truthy (lookup fromCurrency rates) && truthy (lookup toCurrency rates)
       then
         rate <- lift (js_div (lookup toCurrency rates) (lookup fromCurrency rates)) ;;
         ret (VNum rate)
       else
         response <- fetchWithTimeout (baseURL ++ fromCurrency) timeout ;;
         if negb (ok response)
         then throw (Error ("HTTP error! status: " ++ string_of_Z (status response)))
         else
           data <- response_json response ;;
           rates <- lift (get data "rates") ;;
           if negb (truthy rates) || negb (truthy (lookup toCurrency (own_properties rates)))
           then throw (Error ("Exchange rate not available for " ++ toCurrency))
           else
             count_apiCall ;;
             ret (lookup toCurrency (own_properties rates)))
    (fun error =>
       push_error {| e_message := message_of error; e_timestamp := now host;
                     e_function := "getExchangeRate";
                     e_currencies := Some (fromCurrency ++ "→" ++ toCurrency) |} ;;
       throw (Error "Gagal mendapatkan nilai tukar mata uang")).

(** ** Formatting

    The formatters return text that is not modelled; what is kept is the
    conversions they apply to their arguments, which may raise, and the
    [RangeError] of [Intl.DateTimeFormat] on an Invalid Date. *)

Definition formatNumber (number : value) : result unit :=
  rbind (ToNumber number) (fun _ => Ok tt).

Definition formatCurrency (amount currency : value) : result unit :=
  rbind (ToNumber amount) (fun x =>
  if is_NaN x then Ok tt
  else rbind (ToPrimitive currency) (fun _ => Ok tt)).

Definition formatDateTime (date : value) : result unit :=
  match date with
  | VDate None => Throw (Native RangeError)
  | _ => Ok tt
  end.

(** ** History management *)

(** The object literal [performConversion] hands to [addToHistory]. *)
Definition conversion_record (fromAmount : number) (fromCurrency : string)
    (convertedAmount : number) (toCurrency : string) (rate timestamp : value) : value :=
  VObj [ ("from", VObj [("amount", VNum fromAmount); ("currency", VStr fromCurrency)]);
         ("to", VObj [("amount", VNum convertedAmount); ("currency", VStr toCurrency)]);
         ("rate", rate);
         ("timestamp", timestamp) ].

(** One item of the history list, as [updateHistoryDisplay] renders it. *)
Definition history_item (conversion : value) : result unit :=
  rbind (get conversion "from") (fun from =>
  rbind (get from "currency") (fun fromCurrency =>
  rbind (ToPrimitive fromCurrency) (fun _ =>
  rbind (get conversion "to") (fun to =>
  rbind (get to "currency") (fun toCurrency =>
  rbind (ToPrimitive toCurrency) (fun _ =>
  rbind (get from "amount") (fun fromAmount =>
  rbind (formatCurrency fromAmount fromCurrency) (fun _ =>
  rbind (get to "amount") (fun toAmount =>
  rbind (formatCurrency toAmount toCurrency) (fun _ =>
  rbind (get conversion "timestamp") (fun timestamp =>
  rbind (formatDateTime timestamp) (fun _ =>
  rbind (get conversion "rate") (fun rate =>
  formatNumber rate))))))))))))).

Definition set_historyList (l : list value) : M unit :=
  with_dom (fun d =>
    {| errorMessage := errorMessage d; resultDisplay := resultDisplay d;
       toAmount := toAmount d; resultAmount := resultAmount d;
       exchangeRate := exchangeRate d; historyList := l |}).

Definition updateHistoryDisplay : M unit :=
  history <- gets conversionHistory ;;
  match history with
  | [] => set_historyList []
  | _ =>
      _ <- lift (map_result history_item history) ;;
      set_historyList history
  end.

Definition saveHistoryToStorage : M unit :=
  try_catch
    (history <- gets conversionHistory ;;
     modify (set_conversionHistoryData (JSON_stringify (VArr history))))
    (fun _ => ret tt).

(** The message [addToHistory] logs: it reads [conversion.from.amount],
    [conversion.from.currency], [conversion.to.amount.toFixed(4)] and
    [conversion.to.currency]. *)
Definition added_message (conversion : value) : result unit :=
  rbind (get conversion "from") (fun from =>
  rbind (get from "amount") (fun fromAmount =>
  rbind (ToPrimitive fromAmount) (fun _ =>
  rbind (get from "currency") (fun fromCurrency =>
  rbind (ToPrimitive fromCurrency) (fun _ =>
  rbind (get conversion "to") (fun to =>
  rbind (get to "amount") (fun toAmount =>
  match toAmount with
  | VNum _ =>
      rbind (get to "currency") (fun toCurrency =>
      rbind (ToPrimitive toCurrency) (fun _ => Ok tt))
  | _ => Throw (Native TypeError)
  end))))))).

Definition addToHistory (conversion : value) : M unit :=
  modify (fun s => set_conversionHistory (conversion :: conversionHistory s) s) ;;
  history <- gets conversionHistory ;;
  (if (50 <? List.length history)%nat
   then modify (set_conversionHistory (firstn 50 history))
   else ret tt) ;;
  saveHistoryToStorage ;;
  updateHistoryDisplay ;;
  lift (added_message conversion).

(** [{ ...item, timestamp: new Date(item.timestamp) }]. *)
Definition revive (item : value) : result value :=
  rbind (get item "timestamp") (fun timestamp =>
  rbind (new_Date timestamp) (fun date =>
  Ok (VObj (assign "timestamp" date (own_properties item))))).

(** [parsed.map(f)]: only an array has a [map] to call. *)
Definition array_map (f : value -> result value) (parsed : value) : result (list value) :=
  match parsed with
  | VArr items => map_result f items
  | _ => Throw (Native TypeError)
  end.

Definition loadHistoryFromStorage : M unit :=
  try_catch
    (savedHistory <- gets conversionHistoryData ;;
     match savedHistory with
     | Absent => ret tt
     | Unparsable => throw (Native SyntaxError)
     | Json parsed =>
         history <- lift (array_map revive parsed) ;;
         modify (set_conversionHistory history)
     end ;;
     updateHistoryDisplay)
    (fun _ => modify (set_conversionHistory [])).

(** ** Conversion *)

(** [performConversion], on the number [parseFloat] reads from the amount
    field and the values of the two selects, followed from the call to its
    end with nothing else running while the rate is awaited.
    [performConversion_resumes], below, is the part after the [await], from
    whatever state the page is in by then. *)
Definition performConversion (fromAmount : number) (fromCurrency toCurrency : string) : M unit :=
  if negb (num_truthy fromAmount) || negb (str_truthy fromCurrency)
     || negb (str_truthy toCurrency)
  then hideResult
  else if num_leb fromAmount zero
  then showError (Literal "Jumlah harus lebih besar dari 0")
  else if num_ltb max_amount fromAmount
  then showError (Literal "Jumlah terlalu besar. Maksimal 1 miliar")
  else
    try_catch
      (showLoading true ;;
       hideError ;;
       rate <- getExchangeRate fromCurrency toCurrency ;;
       convertedAmount <- lift (js_mul (VNum fromAmount) rate) ;;
       with_dom (fun d =>
         {| errorMessage := errorMessage d; resultDisplay := resultDisplay d;
            toAmount := Some convertedAmount;
            resultAmount := Some (convertedAmount, toCurrency);
            exchangeRate := Some (fromCurrency, rate, toCurrency);
            historyList := historyList d |}) ;;
       showResult ;;
       addToHistory (conversion_record fromAmount fromCurrency convertedAmount
                       toCurrency rate Date_now) ;;
       showLoading false)
      (fun error =>
         showError (match message_of error with
                    | Literal EmptyString => Literal "Gagal melakukan konversi mata uang"
                    | message => message
                    end) ;;
         showLoading false).

(** ** Predicates on the history log *)

(** A log every item of which [updateHistoryDisplay] can render. *)
Definition renderable (history : list value) : Prop :=
  exists rendered, map_result history_item history = Ok rendered.

(** Appending a sequence of records, oldest first. *)
Definition append_all (records : list value) (s : state) : state :=
  fold_left (fun s record => snd (addToHistory record s)) records s.

Definition missing (v : value) : Prop := v = VUndefined \/ v = VNull.

(** A timestamp [new Date] does not turn into a valid date. *)
Definition invalid_timestamp (timestamp : value) : Prop :=
  new_Date timestamp = Ok (VDate None) \/
  exists e, new_Date timestamp = Throw e.

(** An element of the stored array that cannot be shown: it is [null], it
    has no [from] or no [to], or its timestamp is invalid. *)
Definition unusable (item : value) : Prop :=
  missing item \/
  missing (lookup "from" (own_properties item)) \/
  missing (lookup "to" (own_properties item)) \/
  invalid_timestamp (lookup "timestamp" (own_properties item)).

End Script.

(** * Notions used by the claims *)

(** An amount the input rules accept: a double, strictly positive, at most
    one billion (hence finite). *)
Definition valid_amount (a : number) : Prop :=
  is_double a = true /\ num_ltb zero a = true /\ num_leb a max_amount = true.

(** A well-formed record: positive finite amounts and rate, supported
    currencies, a valid instant. *)
Definition well_formed_record (r : value) : Prop :=
  exists fromAmount fromCurrency toAmount toCurrency rate t,
    r = conversion_record fromAmount fromCurrency toAmount toCurrency
          (VNum rate) (VDate (Some t)) /\
    num_positive fromAmount = true /\ supported fromCurrency = true /\
    num_positive toAmount = true /\ supported toCurrency = true /\
    num_positive rate = true /\ valid_time t = true.

(** [Object.keys(table).includes("USD")]. *)
Definition lists_USD (table : value) : bool :=
  existsb (String.eqb "USD") (map fst (own_properties table)).

(** What a conversion shows and what a history update must not touch. *)
Definition conversion_view (s : state) :=
  (toAmount (dom s), resultAmount (dom s), exchangeRate (dom s),
   requests s, exchangeRates s, currencies s).

(** The banner and the panel. *)
Definition display_view (s : state) :=
  (errorMessage (dom s), resultDisplay (dom s), appState s).

(** The state in which the rate is asked for: the spinner is on and the
    banner is hidden. *)
Definition entering (s : state) : state := snd ((showLoading true ;; hideError) s).


(** * Reasoning about computations *)

(** [wp c Q s]: run from [s], [c] ends with a result and a state that
    satisfy [Q]. *)
Definition wp {A} (c : M A) (Q : result A -> state -> Prop) (s : state) : Prop :=
  Q (fst (c s)) (snd (c s)).

(** [keeps f c]: whatever [c] does, it leaves the component [f] of the state
    as it found it. *)
Definition keeps {A B} (f : state -> B) (c : M A) : Prop :=
  forall s, f (snd (c s)) = f s.


(** * The page: form controls, timers and event handlers

    The functions below are those of the script that read or write the
    converter form.  What they take from the browser is the [Browser]
    record.  An event handler runs to its end before the next event is
    looked at: a call whose promise the script drops ([spawn]) is followed
    to its end, and its outcome is dropped. *)

(** The controls of the form, by what the script reads from them and writes
    to them.  A select is the list of the values of its options, in order,
    and its [value]. *)
Record controls : Type := {
  fromAmount_value : string;
  fromCurrency_value : string;
  fromCurrency_options : list string;
  toCurrency_value : string;
  toCurrency_options : list string;
  clearHistoryBtn_text : string;
  clearHistoryBtn_disabled : bool;
  (** the callbacks [clearHistory] has handed to [setTimeout] and that have
      not run yet, oldest first, each by the label it restores *)
  pending_restores : list string
}.

Record Browser : Type := {
  parseFloat : string -> number;
  (** [ToString] on a value that is not a string *)
  ToString_other : value -> result string;
  (** what the amount field holds after text has been assigned to its
      [value] (the value sanitization of its input type) *)
  sanitize : string -> string;
  (** the answer to a [confirm] dialog *)
  confirm : string -> bool;
  document_hidden : bool;
  navigator_onLine : bool
}.

Record KeyboardEvent : Type := {
  ctrlKey : bool;
  metaKey : bool;
  key : string
}.

Record page : Type := {
  script : state;
  form : controls
}.

Definition set_fromAmount_value (x : string) (f : controls) : controls :=
  {| fromAmount_value := x; fromCurrency_value := fromCurrency_value f;
     fromCurrency_options := fromCurrency_options f;
     toCurrency_value := toCurrency_value f;
     toCurrency_options := toCurrency_options f;
     clearHistoryBtn_text := clearHistoryBtn_text f;
     clearHistoryBtn_disabled := clearHistoryBtn_disabled f;
     pending_restores := pending_restores f |}.

(** [select.value]: the value of the selected option, the empty string when
    none is selected.  Assigning [v] selects the first option whose value is
    [v]; when there is none, no option is selected. *)
Definition select_value (options : list string) (v : string) : string :=
  if existsb (String.eqb v) options then v else EmptyString.

Definition set_fromCurrency_value (x : string) (f : controls) : controls :=
  {| fromAmount_value := fromAmount_value f;
     fromCurrency_value := select_value (fromCurrency_options f) x;
     fromCurrency_options := fromCurrency_options f;
     toCurrency_value := toCurrency_value f;
     toCurrency_options := toCurrency_options f;
     clearHistoryBtn_text := clearHistoryBtn_text f;
     clearHistoryBtn_disabled := clearHistoryBtn_disabled f;
     pending_restores := pending_restores f |}.

Definition set_toCurrency_value (x : string) (f : controls) : controls :=
  {| fromAmount_value := fromAmount_value f;
     fromCurrency_value := fromCurrency_value f;
     fromCurrency_options := fromCurrency_options f;
     toCurrency_value := select_value (toCurrency_options f) x;
     toCurrency_options := toCurrency_options f;
     clearHistoryBtn_text := clearHistoryBtn_text f;
     clearHistoryBtn_disabled := clearHistoryBtn_disabled f;
     pending_restores := pending_restores f |}.

(** [select.innerHTML = ...] followed by [appendChild]: the options are
    replaced, and the first of them, the placeholder, is the selected one. *)
Definition set_options (options : list string) (f : controls) : controls :=
  {| fromAmount_value := fromAmount_value f;
     fromCurrency_value := EmptyString;
     fromCurrency_options := options;
     toCurrency_value := EmptyString;
     toCurrency_options := options;
     clearHistoryBtn_text := clearHistoryBtn_text f;
     clearHistoryBtn_disabled := clearHistoryBtn_disabled f;
     pending_restores := pending_restores f |}.

Definition set_clearHistoryBtn (label : string) (disabled : bool) (f : controls) : controls :=
  {| fromAmount_value := fromAmount_value f;
     fromCurrency_value := fromCurrency_value f;
     fromCurrency_options := fromCurrency_options f;
     toCurrency_value := toCurrency_value f;
     toCurrency_options := toCurrency_options f;
     clearHistoryBtn_text := label;
     clearHistoryBtn_disabled := disabled;
     pending_restores := pending_restores f |}.

Definition set_pending_restores (x : list string) (f : controls) : controls :=
  {| fromAmount_value := fromAmount_value f;
     fromCurrency_value := fromCurrency_value f;
     fromCurrency_options := fromCurrency_options f;
     toCurrency_value := toCurrency_value f;
     toCurrency_options := toCurrency_options f;
     clearHistoryBtn_text := clearHistoryBtn_text f;
     clearHistoryBtn_disabled := clearHistoryBtn_disabled f;
     pending_restores := x |}.

(** Computations on the page. *)
Definition P (A : Type) : Type := page -> result A * page.

Definition pret {A} (a : A) : P A := fun p => (Ok a, p).

Definition pbind {A B} (c : P A) (k : A -> P B) : P B :=
  fun p =>
    match c p with
    | (Ok a, p') => k a p'
    | (Throw e, p') => (Throw e, p')
    end.

Definition ptry_catch {A} (c : P A) (handler : exn -> P A) : P A :=
  fun p =>
    match c p with
    | (Ok a, p') => (Ok a, p')
    | (Throw e, p') => handler e p'
    end.

(** A function of the script that does not touch the form. *)
Definition run {A} (c : M A) : P A :=
  fun p => (fst (c (script p)), {| script := snd (c (script p)); form := form p |}).

Definition plift {A} (r : result A) : P A := fun p => (r, p).

Definition reads {A} (f : controls -> A) : P A := fun p => (Ok (f (form p)), p).

Definition with_form (f : controls -> controls) : P unit :=
  fun p => (Ok tt, {| script := script p; form := f (form p) |}).

(** A call to an async function whose promise is dropped. *)
Definition spawn {A} (c : P A) : P unit := fun p => (Ok tt, snd (c p)).

Declare Scope page_scope.
Delimit Scope page_scope with page.
Notation "x <- c ;; k" := (pbind c (fun x => k))
  (at level 61, c at next level, right associativity) : page_scope.
Notation "c ;; k" := (pbind c (fun _ => k))
  (at level 61, right associativity) : page_scope.

(** ** A conversion and what happens while it waits *)

Section Resumption.

Variable host : Host.

(** [performConversion] from the point where [await getExchangeRate(...)]
    settles with [outcome], a rate or an error. *)
Definition performConversion_resumes (fromAmount : number) (fromCurrency toCurrency : string)
    (outcome : result value) : M unit :=
  try_catch
    (rate <- lift outcome ;;
     convertedAmount <- lift (js_mul host (VNum fromAmount) rate) ;;
     with_dom (fun d =>
       {| errorMessage := errorMessage d; resultDisplay := resultDisplay d;
          toAmount := Some convertedAmount;
          resultAmount := Some (convertedAmount, toCurrency);
          exchangeRate := Some (fromCurrency, rate, toCurrency);
          historyList := historyList d |}) ;;
     showResult ;;
     addToHistory host (conversion_record fromAmount fromCurrency convertedAmount
                          toCurrency rate (Date_now host)) ;;
     showLoading false)
    (fun error =>
       showError (match message_of error with
                  | Literal EmptyString => Literal "Gagal melakukan konversi mata uang"
                  | message => message
                  end) ;;
       showLoading false).

End Resumption.

Section Page.

Variable host : Host.
Variable browser : Browser.

Local Open Scope page_scope.

(** The entry [loadCurrencies] logs when it fails because of [cause]. *)
Definition load_failure (cause : text) : error_entry :=
  {| e_message := cause; e_timestamp := now host;
     e_function := "loadCurrencies"; e_currencies := None |}.

(** The entry [getExchangeRate] logs when it fails because of [cause]. *)
Definition rate_failure (fromCurrency toCurrency : string) (cause : text) : error_entry :=
  {| e_message := cause; e_timestamp := now host;
     e_function := "getExchangeRate";
     e_currencies := Some (fromCurrency ++ "→" ++ toCurrency)%string |}.

(** The provider does not settle the request before the abort timer. *)
Definition times_out (url : string) : Prop :=
  match network host url with
  | NoReply => True
  | Rejects after | Responds after _ => timeout <= after
  end.

(** [ToString], which the [value] setter of a select applies to what is
    assigned. *)
Definition ToString (v : value) : result string :=
  match v with
  | VStr s => Ok s
  | _ => ToString_other browser v
  end.

(** The [value] setter of an input: [null] is the empty text. *)
Definition field_text (v : value) : result string :=
  match v with
  | VNull => Ok EmptyString
  | _ => ToString v
  end.

(** ** The form *)

Definition populateCurrencySelects : P unit :=
  listed <- run (gets currencies) ;;
  with_form (set_options (EmptyString :: filter supported listed)).

Definition setDefaultCurrencies : P unit :=
  with_form (set_fromCurrency_value "USD") ;;
  with_form (set_toCurrency_value "IDR").

(** [performConversion] as the script has it: on what the form holds. *)
Definition performConversion_form : P unit :=
  amount <- reads fromAmount_value ;;
  fromCurrency <- reads fromCurrency_value ;;
  toCurrency <- reads toCurrency_value ;;
  run (performConversion host (parseFloat browser amount) fromCurrency toCurrency).

Definition swapCurrencies : P unit :=
  fromCurrency <- reads fromCurrency_value ;;
  toCurrency <- reads toCurrency_value ;;
  if str_truthy fromCurrency && str_truthy toCurrency
  then
    with_form (set_fromCurrency_value toCurrency) ;;
    with_form (set_toCurrency_value fromCurrency) ;;
    amount <- reads fromAmount_value ;;
    if str_truthy amount then spawn performConversion_form else pret tt
  else pret tt.

(** ** History *)

Definition useHistoryItem (index : nat) : P unit :=
  history <- run (gets conversionHistory) ;;
  match nth_error history index with
  | None => pret tt
  | Some conversion =>
      if negb (truthy conversion) then pret tt
      else
        from <- plift (get conversion "from") ;;
        amount <- plift (get from "amount") ;;
        amount <- plift (field_text amount) ;;
        with_form (set_fromAmount_value (sanitize browser amount)) ;;
        from <- plift (get conversion "from") ;;
        currency <- plift (get from "currency") ;;
        currency <- plift (ToString currency) ;;
        with_form (set_fromCurrency_value currency) ;;
        to <- plift (get conversion "to") ;;
        currency <- plift (get to "currency") ;;
        currency <- plift (ToString currency) ;;
        with_form (set_toCurrency_value currency)
  end.

(** The callback [clearHistory] hands to [setTimeout]. *)
Definition restore_clearHistoryBtn (originalText : string) : P unit :=
  with_form (set_clearHistoryBtn originalText false).

Definition setTimeout_restore (originalText : string) : P unit :=
  with_form (fun f => set_pending_restores (pending_restores f ++ [originalText]) f).

(** The oldest pending callback runs. *)
Definition timer_fires : P unit :=
  pending <- reads pending_restores ;;
  match pending with
  | [] => pret tt
  | originalText :: rest =>
      with_form (set_pending_restores rest) ;;
      restore_clearHistoryBtn originalText
  end.

Definition clearHistory : P unit :=
  history <- run (gets conversionHistory) ;;
  match history with
  | [] => run (showError (Literal "Tidak ada riwayat untuk dihapus"))
  | _ =>
      if confirm browser "Apakah Anda yakin ingin menghapus semua riwayat konversi?"
      then
        run (modify (set_conversionHistory [])) ;;
        run saveHistoryToStorage ;;
        run (updateHistoryDisplay host) ;;
        originalText <- reads clearHistoryBtn_text ;;
        with_form (set_clearHistoryBtn "✅ Terhapus" true) ;;
        setTimeout_restore originalText
      else pret tt
  end.

(** ** Maintenance *)

Definition refreshExchangeRates : P unit :=
  ptry_catch
    (run (loadCurrencies host) ;;
     amount <- reads fromAmount_value ;;
     fromCurrency <- reads fromCurrency_value ;;
     toCurrency <- reads toCurrency_value ;;
     if str_truthy amount && str_truthy fromCurrency && str_truthy toCurrency
     then performConversion_form
     else pret tt)
    (fun _ => run (showError (Literal "Gagal memperbarui nilai tukar"))).

(** The callback of [startAutoRefresh], every five minutes. *)
Definition startAutoRefresh_tick : P unit :=
  ptry_catch
    (if negb (document_hidden browser) && navigator_onLine browser
     then run (loadCurrencies host)
     else pret tt)
    (fun _ => pret tt).

(** ** Events *)

(** [setupEventListeners] registers the handlers below; it changes nothing
    the page holds. *)
Definition setupEventListeners : P unit := pret tt.

Definition handleKeyboardShortcuts (e : KeyboardEvent) : P unit :=
  if (ctrlKey e || metaKey e) && String.eqb (key e) "s" then swapCurrencies
  else if (ctrlKey e || metaKey e) && String.eqb (key e) "r"
  then spawn refreshExchangeRates
  else if String.eqb (key e) "Escape"
  then
    with_form (set_fromAmount_value (sanitize browser EmptyString)) ;;
    run (with_dom (fun d =>
           {| errorMessage := errorMessage d; resultDisplay := resultDisplay d;
              toAmount := None; resultAmount := resultAmount d;
              exchangeRate := exchangeRate d; historyList := historyList d |})) ;;
    run hideResult ;;
    run hideError
  else pret tt.

Definition handleVisibilityChange : P unit :=
  lastUpdateTime <- run (gets (fun s => lastUpdateTime (appState s))) ;;
  match lastUpdateTime with
  | Some t =>
      if negb (document_hidden browser) && (5 * 60 * 1000 <? now host - t)
      then spawn refreshExchangeRates
      else pret tt
  | None => pret tt
  end.

Definition handleOnlineStatus : P unit :=
  run hideError ;;
  lastUpdateTime <- run (gets (fun s => lastUpdateTime (appState s))) ;;
  match lastUpdateTime with
  | Some t =>
      if 60000 <? now host - t then spawn refreshExchangeRates else pret tt
  | None => spawn refreshExchangeRates
  end.

Definition handleOfflineStatus : P unit :=
  run (showError (Literal
    "Koneksi internet terputus. Menggunakan nilai tukar terakhir yang tersimpan.")).

(** ** Initialization *)

Definition initializeApp : P unit :=
  ptry_catch
    (run (showLoading true) ;;
     run (loadCurrencies host) ;;
     populateCurrencySelects ;;
     setDefaultCurrencies ;;
     run (loadHistoryFromStorage host) ;;
     setupEventListeners ;;
     run (showLoading false))
    (fun _ =>
       run (showError (Literal "Gagal memuat aplikasi. Silakan refresh halaman.")) ;;
       run (showLoading false)).

End Page.

(** What [getExchangeRate] leaves alone: the display, the history and its
    slot, the table and the list. *)
Definition outside_rates (s : state) :=
  (dom s, conversionHistory s, conversionHistoryData s, exchangeRates s, currencies s,
   isLoading (appState s)).

(** What only a conversion may touch. *)
Definition beyond_display (s : state) :=
  (requests s, conversionHistory s, conversionHistoryData s, appState s,
   exchangeRates s, currencies s, toAmount (dom s), historyList (dom s)).

(** What [loadCurrencies] leaves alone whatever happens: the history, its
    slot, the spinner and everything shown but the banner. *)
Definition outside_load (s : state) :=
  (conversionHistory s, conversionHistoryData s, isLoading (appState s),
   resultDisplay (dom s), toAmount (dom s), resultAmount (dom s),
   exchangeRate (dom s), historyList (dom s)).

(** What loading the history leaves alone. *)
Definition outside_history (s : state) :=
  (conversionHistoryData s, exchangeRates s, currencies s, appState s, requests s,
   errorMessage (dom s), resultDisplay (dom s), toAmount (dom s), resultAmount (dom s),
   exchangeRate (dom s)).

(** [pwp c Q p]: run from the page [p], [c] ends with a result and a page
    that satisfy [Q]. *)
Definition pwp {A} (c : P A) (Q : result A -> page -> Prop) (p : page) : Prop :=
  Q (fst (c p)) (snd (c p)).

(** What the Escape key leaves alone. *)
Definition beyond_amount (s : state) :=
  (exchangeRates s, currencies s, conversionHistory s, conversionHistoryData s,
   appState s, requests s, resultAmount (dom s), exchangeRate (dom s),
   historyList (dom s)).


(** * Sample hosts and states *)

(** A provider that answers every request in 120 ms with [body], on an
    engine for which text that is not numeric reads as [NaN] and text that is
    not an ISO instant reads as no date. *)
Definition host_answering (body : value) : Host :=
  {| StringToNumber := fun _ => NaN;
     object_text := fun v => match v with
                             | VObj _ => Some "[object Object]"
                             | _ => Some EmptyString
                             end;
     Date_parse_other := fun _ => None;
     now := 1730505600123;
     network := fun _ => Responds 120 {| ok := true; status := 200; json := Some body |} |}.

(** The table of the swap scenario: USD 1, IDR 15000. *)
Definition sample_rates : properties :=
  [("USD", VNum one); ("IDR", VNum (num_of_Z 15000))].

Definition sample_host : Host :=
  host_answering (VObj [("base", VStr "USD"); ("rates", VObj sample_rates)]).

(** The state after the table has been cached. *)
Definition cached_state : state := set_exchangeRates sample_rates initial_state.

(** A provider whose table has no IDR entry. *)
Definition host_without_IDR : Host :=
  host_answering (VObj [("base", VStr "USD");
                        ("rates", VObj [("EUR", VNum (num_div (num_of_Z 9) (num_of_Z 10)))])]).

(** A provider whose table gives USD as 2. *)
Definition host_with_USD_2 : Host :=
  host_answering (VObj [("base", VStr "USD");
                        ("rates", VObj [("USD", VNum (num_of_Z 2)); ("EUR", VNum one)])]).

(** One USD converted to IDR at the sample rate, at the sample instant. *)
Definition sample_record : value :=
  conversion_record one "USD" (num_of_Z 15000) "IDR" (VNum (num_of_Z 15000))
    (VDate (Some 1730505600123)).

(** A stored array whose only element has neither amounts nor currencies nor
    rate: [[{"from":{},"to":{},"timestamp":0}]]. *)
Definition odd_blob : stored :=
  Json (VArr [VObj [("from", VObj []); ("to", VObj []); ("timestamp", VNum zero)]]).

(** A stored array of two records, the second with a timestamp that is not a
    date. *)
Definition blob_with_bad_timestamp : stored :=
  Json (VArr [ to_json sample_record;
               conversion_record one "USD" one "USD" (VNum one) (VStr "not-a-date") ]).

(** The state at startup with [blob] in the persisted slot. *)
Definition startup_with (blob : stored) : state :=
  set_conversionHistoryData blob initial_state.

(** A provider that never answers. *)
Definition host_silent : Host :=
  {| StringToNumber := fun _ => NaN;
     object_text := fun _ => Some EmptyString;
     Date_parse_other := fun _ => None;
     now := 1730505600123;
     network := fun _ => NoReply |}.

(** A provider that answers every request in 80 ms with status 503. *)
Definition host_refusing : Host :=
  {| StringToNumber := fun _ => NaN;
     object_text := fun _ => Some EmptyString;
     Date_parse_other := fun _ => None;
     now := 1730505600123;
     network := fun _ => Responds 80 {| ok := false; status := 503; json := None |} |}.

(** A browser in a visible tab, online, whose user confirms; the amount
    field is a text field that reads as 100 unless it is empty. *)
Definition sample_browser : Browser :=
  {| parseFloat := fun amount => match amount with
                                 | EmptyString => NaN
                                 | _ => num_of_Z 100
                                 end;
     ToString_other := fun _ => Ok "1";
     sanitize := fun amount => amount;
     confirm := fun _ => true;
     document_hidden := false;
     navigator_onLine := true |}.

(** The form with USD and IDR chosen and the amount field empty. *)
Definition sample_form : controls :=
  {| fromAmount_value := EmptyString;
     fromCurrency_value := "USD";
     fromCurrency_options := [EmptyString; "IDR"; "USD"];
     toCurrency_value := "IDR";
     toCurrency_options := [EmptyString; "IDR"; "USD"];
     clearHistoryBtn_text := "Hapus Riwayat";
     clearHistoryBtn_disabled := false;
     pending_restores := [] |}.

Definition sample_page (s : state) : page := {| script := s; form := sample_form |}.

(** The same page with 100 in the amount field. *)
Definition filled_page (s : state) : page :=
  {| script := s; form := set_fromAmount_value "100" sample_form |}.


(** * Properties of numbers *)

Lemma iter_pos_nat {A} (f : A -> A) (p : positive) (x : A) :
  iter_pos f p x = Nat.iter (Pos.to_nat p) f x.
Proof.
  revert x. induction p as [p IH|p IH|]; intros x; simpl iter_pos.
  - rewrite !IH, Pos2Nat.inj_xI.
    replace (S (2 * Pos.to_nat p)) with (Pos.to_nat p + (Pos.to_nat p + 1))%nat by lia.
    rewrite !Nat.iter_add. reflexivity.
  - rewrite !IH, Pos2Nat.inj_xO.
    replace (2 * Pos.to_nat p)%nat with (Pos.to_nat p + Pos.to_nat p)%nat by lia.
    rewrite Nat.iter_add. reflexivity.
  - reflexivity.
Qed.

(** Shifting out [k] zero bits loses nothing. *)
Lemma shr_1_exact (k : nat) (m : positive) :
  Nat.iter k shr_1 (Build_shr_record (Zpos (Nat.iter k xO m)) false false)
  = Build_shr_record (Zpos m) false false.
Proof.
  induction k as [|k IH]; [reflexivity|].
  rewrite Nat.iter_succ_r. simpl. exact IH.
Qed.

Lemma mul_pow2 (m : positive) (k : nat) :
  (m * Nat.iter k xO 1)%positive = Nat.iter k xO m.
Proof.
  induction k as [|k IH]; simpl.
  - apply Pos.mul_1_r.
  - rewrite Pos.mul_xO_r. now rewrite IH.
Qed.

Lemma digits2_pos_iter (m : positive) (k : nat) :
  Zpos (digits2_pos (Nat.iter k xO m)) = Zpos (digits2_pos m) + Z.of_nat k.
Proof.
  induction k as [|k IH]; simpl Nat.iter.
  - simpl. lia.
  - cbn [digits2_pos]. rewrite Pos2Z.inj_succ, IH. lia.
Qed.

(** Multiplying a double by 1 is exact: the product has the mantissa of [a]
    followed by 52 zero bits, and rounding shifts exactly those out. *)
Lemma num_mul_one_r (a : number) : is_double a = true -> num_mul a one = a.
Proof.
  destruct a as [s|s| |s m e]; intros Hv; try reflexivity; try (destruct s; reflexivity).
  unfold is_double, valid_binary, bounded, canonical_mantissa in Hv.
  apply andb_true_iff in Hv as [Hc Hb].
  apply Z.eqb_eq in Hc.
  unfold num_mul, one, SFmul.
  change 4503599627370496%positive with (Nat.iter 52 xO 1%positive).
  rewrite mul_pow2, xorb_false_r.
  unfold binary_round_aux, shr_fexp, Zdigits2.
  rewrite digits2_pos_iter.
  replace (Z.pos (digits2_pos m) + Z.of_nat 52 + (e + -52)) with (Z.pos (digits2_pos m) + e) by lia.
  rewrite Hc.
  replace (e - (e + -52)) with (Zpos 52) by lia.
  unfold shr. rewrite iter_pos_nat.
  change (Pos.to_nat 52) with 52%nat.
  unfold shr_record_of_loc. rewrite shr_1_exact.
  cbn [shr_m loc_of_shr_record round_nearest_even].
  replace (e + -52 + 52) with e by lia.
  cbn [Zdigits2]. rewrite Hc, Z.sub_diag. cbn [shr_m].
  rewrite Hb. reflexivity.
Qed.

Lemma valid_amount_positive a : valid_amount a -> num_positive a = true.
Proof.
  intros (_ & H0 & H1). destruct a as [s|s| |s m e]; try discriminate.
  - destruct s; discriminate.
  - destruct s; [discriminate|reflexivity].
Qed.

Lemma num_positive_truthy a : num_positive a = true -> num_truthy a = true.
Proof. destruct a as [s|s| |[] m e]; simpl; congruence. Qed.

Lemma SFleb_not_ltb m1 e1 m2 e2 :
  SFleb (S754_finite false m1 e1) (S754_finite false m2 e2) = true ->
  SFltb (S754_finite false m2 e2) (S754_finite false m1 e1) = false.
Proof.
  unfold SFleb, SFltb. cbn [SFcompare].
  rewrite (Z.compare_antisym e1 e2).
  destruct (e1 ?= e2); cbn [CompOpp]; try reflexivity; try discriminate.
  assert (A : Pos.compare_cont Eq m2 m1 = CompOpp (Pos.compare_cont Eq m1 m2))
    by (symmetry; apply (Pos.compare_cont_antisym m1 m2 Eq)).
  rewrite A.
  destruct (Pos.compare_cont Eq m1 m2); cbn [CompOpp]; try reflexivity; discriminate.
Qed.

(** A valid amount passes the three checks of [performConversion]. *)
Lemma valid_amount_checks a :
  valid_amount a ->
  num_truthy a = true /\ num_leb a zero = false /\ num_ltb max_amount a = false.
Proof.
  intros H. pose proof (valid_amount_positive a H) as Hp.
  destruct H as (_ & _ & H1).
  destruct a as [s|s| |[] m e]; try discriminate.
  repeat split.
  unfold num_ltb, num_leb, max_amount in *. now apply SFleb_not_ltb.
Qed.

(** * Properties of dates *)

(** Floor division by constants, handed to [lia]. *)
Ltac zdiv := Z.div_mod_to_equations; lia.

Ltac case_ifs :=
  repeat match goal with |- context [if ?b then _ else _] => destruct b eqn:? end.

Ltac by_digit d :=
  let E := fresh in
  assert (E : d = 0 \/ d = 1 \/ d = 2 \/ d = 3 \/ d = 4 \/
              d = 5 \/ d = 6 \/ d = 7 \/ d = 8 \/ d = 9) by lia;
  repeat (destruct E as [E|E]; [subst d|]); [..|subst d].

Lemma YearFromDay_spec day :
  DayFromYear (YearFromDay day) <= day < DayFromYear (YearFromDay day + 1).
Proof.
  unfold YearFromDay, DayFromYear.
  case_ifs; zdiv.
Qed.

Lemma DaysInYear y : DayFromYear (y + 1) - DayFromYear y = 365 + InLeapYear y.
Proof.
  unfold DayFromYear, InLeapYear.
  destruct (((y mod 4 =? 0) && negb (y mod 100 =? 0)) || (y mod 400 =? 0)) eqn:E.
  - apply orb_true_iff in E.
    rewrite andb_true_iff, negb_true_iff, !Z.eqb_eq, Z.eqb_neq in E. zdiv.
  - apply orb_false_iff in E.
    rewrite andb_false_iff, negb_false_iff, !Z.eqb_eq, !Z.eqb_neq in E. zdiv.
Qed.

Lemma time_of_fields_of_time t : time_of_fields (fields_of_time t) = t.
Proof.
  unfold time_of_fields, fields_of_time, MakeDate, MakeDay, MakeTime, msPerDay.
  cbn [f_year f_month f_date f_hours f_minutes f_seconds f_ms]. zdiv.
Qed.

Lemma InLeapYear_range y : 0 <= InLeapYear y <= 1.
Proof. unfold InLeapYear. destruct (_ || _); lia. Qed.

Lemma fields_bounds t :
  valid_time t = true ->
  let f := fields_of_time t in
  -271821 <= f_year f <= 275760 /\ 0 <= f_month f <= 11 /\ 1 <= f_date f <= 31 /\
  0 <= f_hours f <= 23 /\ 0 <= f_minutes f <= 59 /\ 0 <= f_seconds f <= 59 /\
  0 <= f_ms f <= 999.
Proof.
  unfold valid_time, max_time. intros Hv. apply andb_true_iff in Hv as [H1 H2].
  apply Z.leb_le in H1, H2. cbn zeta.
  unfold fields_of_time; cbn [f_year f_month f_date f_hours f_minutes f_seconds f_ms].
  set (day := t / msPerDay). set (time := t mod msPerDay).
  assert (Hday : -100000000 <= day <= 100000000) by (unfold day, msPerDay; zdiv).
  assert (Htime : 0 <= time < 86400000) by (unfold time, msPerDay; zdiv).
  pose proof (YearFromDay_spec day) as Hy.
  pose proof (DaysInYear (YearFromDay day)) as Hd.
  pose proof (InLeapYear_range (YearFromDay day)) as HL.
  set (y := YearFromDay day) in *. set (L := InLeapYear y) in *.
  repeat split; try zdiv.
  - unfold DayFromYear in Hy. zdiv.
  - unfold DayFromYear in Hy. zdiv.
  - unfold MonthFromDay. case_ifs; lia.
  - unfold MonthFromDay. case_ifs; lia.
  - unfold MonthFromDay. case_ifs; cbn [month_start]; lia.
  - unfold MonthFromDay. case_ifs; cbn [month_start]; lia.
Qed.

Lemma char_digit_digit_char d : 0 <= d < 10 -> char_digit (digit_char d) = Some d.
Proof.
  intros H. by_digit d; reflexivity.
Qed.

Lemma digit_char_not_sign d : 0 <= d < 10 ->
  Ascii.eqb (digit_char d) "+" = false /\ Ascii.eqb (digit_char d) "-" = false.
Proof.
  intros H. by_digit d; split; reflexivity.
Qed.

Lemma length_digits k n : List.length (digits k n) = k.
Proof.
  revert n. induction k as [|k IH]; intros n; simpl; [reflexivity|].
  rewrite length_app, IH. simpl. lia.
Qed.

Lemma read_digits_app acc l c :
  read_digits acc (l ++ [c]) =
  obind (read_digits acc l) (fun a => obind (char_digit c) (fun d => Some (10 * a + d))).
Proof.
  revert acc. induction l as [|x l IH]; intros acc; simpl.
  - destruct (char_digit c); reflexivity.
  - destruct (char_digit x); [apply IH|reflexivity].
Qed.

Lemma read_digits_digits k n :
  0 <= n < 10 ^ Z.of_nat k -> read_digits 0 (digits k n) = Some n.
Proof.
  revert n. induction k as [|k IH]; intros n Hn.
  - simpl in *. f_equal. lia.
  - cbn [digits]. rewrite read_digits_app, IH.
    + cbn [obind]. rewrite char_digit_digit_char by zdiv.
      cbn [obind]. f_equal. zdiv.
    + rewrite Nat2Z.inj_succ, Z.pow_succ_r in Hn by lia. zdiv.
Qed.

Lemma take_number_digits k n r :
  0 <= n < 10 ^ Z.of_nat k -> take_number k (digits k n ++ r) = Some (n, r).
Proof.
  intros Hn. unfold take_number.
  rewrite firstn_app, length_digits, Nat.sub_diag, firstn_O, app_nil_r.
  rewrite firstn_all2 by (rewrite length_digits; lia).
  rewrite length_digits, Nat.eqb_refl, read_digits_digits by assumption.
  cbn [option_map]. rewrite skipn_app, length_digits, Nat.sub_diag.
  rewrite skipn_all2 by (rewrite length_digits; lia). reflexivity.
Qed.

Lemma digits_head k n :
  exists d l, 0 <= d < 10 /\ digits (S k) n = digit_char d :: l.
Proof.
  revert n. induction k as [|k IH]; intros n.
  - exists (n mod 10), []. split; [zdiv|reflexivity].
  - destruct (IH (n / 10)) as (d & l & Hd & E).
    exists d, (l ++ [digit_char (n mod 10)])%list. split; [exact Hd|].
    change (digits (S (S k)) n) with (digits (S k) (n / 10) ++ [digit_char (n mod 10)])%list.
    rewrite E. reflexivity.
Qed.

Lemma read_year_chars y r :
  -999999 <= y <= 999999 -> read_year (year_chars y ++ r) = Some (y, r).
Proof.
  intros Hy. unfold year_chars.
  destruct ((0 <=? y) && (y <=? 9999)) eqn:E.
  - apply andb_true_iff in E as [E1 E2]. apply Z.leb_le in E1, E2.
    pose proof (take_number_digits 4 y r) as T.
    destruct (digits_head 3 y) as (d & l & Hd & El).
    rewrite El in *. cbn [app read_year].
    destruct (digit_char_not_sign d Hd) as [-> ->].
    apply T. cbn. lia.
  - assert (Hn : 0 <= Z.abs y < 10 ^ Z.of_nat 6) by (cbn; lia).
    destruct (y <? 0) eqn:Hs; cbn [app read_year].
    + change (Ascii.eqb "-" "+") with false. change (Ascii.eqb "-" "-") with true. cbv iota.
      rewrite take_number_digits by assumption. cbn [obind].
      apply Z.ltb_lt in Hs. do 2 f_equal. lia.
    + change (Ascii.eqb "+" "+") with true. cbv iota.
      rewrite take_number_digits by assumption.
      apply Z.ltb_ge in Hs. do 2 f_equal. lia.
Qed.

Lemma read_iso_chars f :
  -999999 <= f_year f <= 999999 -> 0 <= f_month f <= 11 -> 0 <= f_date f <= 99 ->
  0 <= f_hours f <= 99 -> 0 <= f_minutes f <= 99 -> 0 <= f_seconds f <= 99 ->
  0 <= f_ms f <= 999 ->
  read_iso (iso_chars f) = Some f.
Proof.
  intros Hy Hm Hd Hh Hmi Hs Hms. unfold read_iso, iso_chars.
  rewrite read_year_chars by assumption. cbn [obind take_char Ascii.eqb Bool.eqb andb].
  repeat (rewrite take_number_digits by (cbn; lia);
          cbn [obind take_char Ascii.eqb Bool.eqb andb app]).
  destruct f; cbn in *. f_equal. f_equal. lia.
Qed.

Theorem Date_parse_toISOString other t :
  valid_time t = true -> Date_parse other (toISOString t) = Some t.
Proof.
  intros Hv. unfold Date_parse.
  unfold toISOString at 1. rewrite list_ascii_of_string_of_list_ascii.
  pose proof (fields_bounds t Hv) as B. cbn zeta in B.
  rewrite read_iso_chars by lia.
  rewrite time_of_fields_of_time, Hv, String.eqb_refl. reflexivity.
Qed.

(** * Rules for computations *)

Arguments num_mul : simpl never.
Arguments num_div : simpl never.
Arguments toISOString : simpl never.
Arguments Date_parse : simpl never.
Arguments firstn : simpl never.

Lemma wp_ret {A} (a : A) Q s : Q (Ok a) s -> wp (ret a) Q s.
Proof. exact (fun H => H). Qed.

Lemma wp_throw {A} e (Q : result A -> state -> Prop) s :
  Q (Throw e) s -> wp (throw e) Q s.
Proof. exact (fun H => H). Qed.

Lemma wp_lift {A} (r : result A) Q s : Q r s -> wp (lift r) Q s.
Proof. exact (fun H => H). Qed.

Lemma wp_gets {A} (f : state -> A) Q s : Q (Ok (f s)) s -> wp (gets f) Q s.
Proof. exact (fun H => H). Qed.

Lemma wp_modify f Q s : Q (Ok tt) (f s) -> wp (modify f) Q s.
Proof. exact (fun H => H). Qed.

Lemma wp_bind {A B} (c : M A) (k : A -> M B) Q s :
  wp c (fun r s' => match r with
                    | Ok a => wp (k a) Q s'
                    | Throw e => Q (Throw e) s'
                    end) s ->
  wp (bind c k) Q s.
Proof. unfold wp, bind. destruct (c s) as [[a|e] s']; exact (fun H => H). Qed.

Lemma wp_try_catch {A} (c : M A) handler Q s :
  wp c (fun r s' => match r with
                    | Ok a => Q (Ok a) s'
                    | Throw e => wp (handler e) Q s'
                    end) s ->
  wp (try_catch c handler) Q s.
Proof. unfold wp, try_catch. destruct (c s) as [[a|e] s']; exact (fun H => H). Qed.

Lemma wp_mono {A} (c : M A) (Q Q' : result A -> state -> Prop) s :
  wp c Q s -> (forall r s', Q r s' -> Q' r s') -> wp c Q' s.
Proof. unfold wp. auto. Qed.

Lemma keeps_ret {A B} (f : state -> B) (a : A) : keeps f (ret a).
Proof. intros s. reflexivity. Qed.

Lemma keeps_throw {A B} (f : state -> B) e : keeps f (@throw A e).
Proof. intros s. reflexivity. Qed.

Lemma keeps_lift {A B} (f : state -> B) (r : result A) : keeps f (lift r).
Proof. intros s. reflexivity. Qed.

Lemma keeps_gets {A B} (f : state -> B) (g : state -> A) : keeps f (gets g).
Proof. intros s. reflexivity. Qed.

Lemma keeps_modify {B} (f : state -> B) g :
  (forall s, f (g s) = f s) -> keeps f (modify g).
Proof. intros H s. apply H. Qed.

Lemma keeps_bind {A B C} (f : state -> C) (c : M A) (k : A -> M B) :
  keeps f c -> (forall a, keeps f (k a)) -> keeps f (bind c k).
Proof.
  intros Hc Hk s. unfold bind. specialize (Hc s).
  destruct (c s) as [[a|e] s']; cbn [snd] in *.
  - rewrite Hk. exact Hc.
  - exact Hc.
Qed.

Lemma keeps_try_catch {A C} (f : state -> C) (c : M A) handler :
  keeps f c -> (forall e, keeps f (handler e)) -> keeps f (try_catch c handler).
Proof.
  intros Hc Hh s. unfold try_catch. specialize (Hc s).
  destruct (c s) as [[a|e] s']; cbn [snd] in *.
  - exact Hc.
  - rewrite Hh. exact Hc.
Qed.

Lemma wp_keeps {A B} (f : state -> B) (c : M A) (Q : result A -> state -> Prop) s :
  keeps f c -> (forall r s', f s' = f s -> Q r s') -> wp c Q s.
Proof. intros Hk HQ. apply HQ, Hk. Qed.

Ltac keeps_step :=
  match goal with
  | |- keeps _ (bind _ _) => apply keeps_bind; [|intro]
  | |- keeps _ (try_catch _ _) => apply keeps_try_catch; [|intro]
  | |- keeps _ (ret _) => apply keeps_ret
  | |- keeps _ (throw _) => apply keeps_throw
  | |- keeps _ (lift _) => apply keeps_lift
  | |- keeps _ (gets _) => apply keeps_gets
  | |- keeps _ (modify _) => apply keeps_modify; intro; reflexivity
  | |- keeps _ (if ?b then _ else _) => destruct b
  | |- keeps _ (match ?x with Some _ => _ | None => _ end) => destruct x
  | |- keeps _ (match ?x with NoReply => _ | Rejects _ => _ | Responds _ _ => _ end) =>
      destruct x
  | |- keeps _ (match ?x with Absent => _ | Unparsable => _ | Json _ => _ end) =>
      destruct x
  | |- keeps _ (match ?x with nil => _ | cons _ _ => _ end) => destruct x
  end.

Ltac keeps_tac := repeat keeps_step.

Lemma wp_eq {A} (c : M A) (Q : result A -> state -> Prop) s r s' :
  c s = (r, s') -> Q r s' -> wp c Q s.
Proof. unfold wp. intros ->. exact (fun H => H). Qed.

Ltac wp_step :=
  match goal with
  | |- wp (bind _ _) _ _ => apply wp_bind
  | |- wp (try_catch _ _) _ _ => apply wp_try_catch
  | |- wp (ret _) _ _ => apply wp_ret
  | |- wp (throw _) _ _ => apply wp_throw
  | |- wp (lift _) _ _ => apply wp_lift
  | |- wp (gets _) _ _ => apply wp_gets
  | |- wp (modify _) _ _ => apply wp_modify
  | |- wp (if ?b then _ else _) _ _ => destruct b eqn:?
  | |- wp (match ?x with Some _ => _ | None => _ end) _ _ => destruct x eqn:?
  | |- wp (match ?x with NoReply => _ | Rejects _ => _ | Responds _ _ => _ end) _ _ =>
      destruct x eqn:?
  | |- wp (match ?x with Absent => _ | Unparsable => _ | Json _ => _ end) _ _ =>
      destruct x eqn:?
  | |- wp (match ?x with nil => _ | cons _ _ => _ end) _ _ => destruct x eqn:?
  | |- match ?r with Ok _ => _ | Throw _ => _ end => destruct r eqn:?
  end; cbv beta iota.

Ltac wp_run := repeat wp_step.

Create HintDb script.
#[export] Hint Unfold showResult hideResult showError hideError showLoading
  with_dom set_isLoading set_historyList count_apiCall set_lastUpdateTime
  push_error response_json saveHistoryToStorage updateHistoryDisplay
  addToHistory fetchWithTimeout : script.

Ltac frame := intros; autounfold with script; keeps_tac.

(** Step over a call that keeps the component [f]. *)
Ltac wp_frame f :=
  apply (wp_keeps f); [solve [frame] | intros [[]|?] ? ?; cbv beta iota].

Ltac wp_frames f := repeat (first [progress wp_run | wp_frame f]).


(** Take an equation between tuples of components apart. *)
Ltac split_views :=
  repeat match goal with
  | H : (_, _) = (_, _) |- _ =>
      let H1 := fresh H in let H2 := fresh H in
      pose proof (f_equal fst H) as H1; pose proof (f_equal snd H) as H2;
      clear H; cbn [fst snd] in H1, H2
  end.

(** Read components through the setters. *)
Ltac simpl_state :=
  cbn [exchangeRates currencies conversionHistory appState conversionHistoryData
       dom requests set_exchangeRates set_currencies set_conversionHistory
       set_appState set_conversionHistoryData set_dom set_requests
       errorMessage resultDisplay toAmount resultAmount exchangeRate historyList
       isLoading lastUpdateTime apiCallCount errors fst snd] in *.

(** * The history log *)

Section History.

Variable host : Host.

Lemma addToHistory_conversion_view c : keeps conversion_view (addToHistory host c).
Proof. frame. Qed.

Lemma addToHistory_display_view c : keeps display_view (addToHistory host c).
Proof. frame. Qed.

(** [addToHistory] puts the record in front and keeps the first 50. *)
Lemma addToHistory_history c s :
  conversionHistory (snd (addToHistory host c s)) = firstn 50 (c :: conversionHistory s).
Proof.
  change (wp (addToHistory host c)
            (fun _ s' => conversionHistory s' = firstn 50 (c :: conversionHistory s)) s).
  unfold addToHistory. wp_frames conversionHistory.
  all: cbn [conversionHistory set_conversionHistory] in *; try congruence.
  all: apply Nat.ltb_ge in Heqb; rewrite firstn_all2 by exact Heqb; congruence.
Qed.

(** The slot holds the serialized log after every append. *)
Lemma addToHistory_saved c s :
  let s' := snd (addToHistory host c s) in
  conversionHistoryData s' = JSON_stringify (VArr (conversionHistory s')).
Proof.
  change (wp (addToHistory host c)
            (fun _ s' => conversionHistoryData s'
                         = JSON_stringify (VArr (conversionHistory s'))) s).
  unfold addToHistory, saveHistoryToStorage.
  wp_frames (fun s => (conversionHistoryData s, conversionHistory s)).
  all: split_views; simpl_state; congruence.
Qed.

Lemma renderable_nil : renderable host [].
Proof. exists []. reflexivity. Qed.

Lemma renderable_cons c history :
  history_item host c = Ok tt -> renderable host history -> renderable host (c :: history).
Proof. intros Hc [us Hus]. exists (tt :: us). cbn. rewrite Hc. cbn. rewrite Hus. reflexivity. Qed.

Lemma renderable_inv c history :
  renderable host (c :: history) -> history_item host c = Ok tt /\ renderable host history.
Proof.
  intros [us Hus]. cbn in Hus.
  destruct (history_item host c) as [[]|e]; [|discriminate]. cbn in Hus.
  destruct (map_result (history_item host) history) as [us'|e] eqn:E; [|discriminate].
  split; [reflexivity|]. exists us'. exact E.
Qed.

Lemma renderable_firstn n history : renderable host history -> renderable host (firstn n history).
Proof.
  revert n. induction history as [|c history IH]; intros n H.
  - rewrite firstn_nil. exact H.
  - destruct n as [|n]; [apply renderable_nil|].
    rewrite firstn_cons. apply renderable_inv in H as [Hc H].
    apply renderable_cons; auto.
Qed.

Lemma updateHistoryDisplay_ok s :
  renderable host (conversionHistory s) -> fst (updateHistoryDisplay host s) = Ok tt.
Proof.
  intros [us Hus]. unfold updateHistoryDisplay, bind. cbn [gets].
  destruct (conversionHistory s) as [|c history]; [reflexivity|].
  unfold lift. rewrite Hus. reflexivity.
Qed.

Lemma updateHistoryDisplay_history : keeps conversionHistory (updateHistoryDisplay host).
Proof. frame. Qed.

(** Appending a record that renders to a log that renders leaves a log that
    renders. *)
Lemma addToHistory_renderable c s :
  history_item host c = Ok tt -> renderable host (conversionHistory s) ->
  renderable host (conversionHistory (snd (addToHistory host c s))).
Proof.
  intros Hc Hr. rewrite addToHistory_history.
  apply renderable_firstn, renderable_cons; assumption.
Qed.

(** An append succeeds when the record and the log render. *)
Lemma addToHistory_ok c s :
  history_item host c = Ok tt -> added_message host c = Ok tt ->
  renderable host (conversionHistory s) ->
  fst (addToHistory host c s) = Ok tt.
Proof.
  intros Hc Hm Hr.
  assert (R : renderable host (firstn 50 (c :: conversionHistory s))).
  { apply renderable_firstn, renderable_cons; assumption. }
  change (wp (addToHistory host c) (fun r _ => r = Ok tt) s).
  unfold addToHistory, saveHistoryToStorage. wp_run.
  - eapply wp_eq; [apply surjective_pairing|].
    rewrite updateHistoryDisplay_ok by exact R. wp_run. exact Hm.
  - apply Nat.ltb_ge in Heqb. rewrite firstn_all2 in R by exact Heqb.
    eapply wp_eq; [apply surjective_pairing|].
    rewrite updateHistoryDisplay_ok by exact R. wp_run. exact Hm.
Qed.

End History.

(** * Conversion *)

Section Conversion.

Variable host : Host.

(** Everything [addToHistory] does that a conversion relies on. *)
Lemma wp_addToHistory c (Q : result unit -> state -> Prop) s :
  (forall r s',
     conversion_view s' = conversion_view s ->
     display_view s' = display_view s ->
     conversionHistory s' = firstn 50 (c :: conversionHistory s) ->
     (history_item host c = Ok tt -> added_message host c = Ok tt ->
      renderable host (conversionHistory s) -> r = Ok tt) ->
     Q r s') ->
  wp (addToHistory host c) Q s.
Proof.
  intros H. apply H.
  - apply addToHistory_conversion_view.
  - apply addToHistory_display_view.
  - apply addToHistory_history.
  - apply addToHistory_ok.
Qed.

(** The record of a conversion renders. *)
Lemma conversion_record_renders a X conv Y rate t x :
  ToNumber host rate = Ok x ->
  history_item host (conversion_record a X conv Y rate (VDate (Some t))) = Ok tt /\
  added_message host (conversion_record a X conv Y rate (VDate (Some t))) = Ok tt.
Proof.
  intros Hr. split.
  - unfold history_item, conversion_record, formatCurrency, formatNumber.
    cbn. rewrite Hr. destruct (is_NaN a), (is_NaN conv); reflexivity.
  - reflexivity.
Qed.

(** What [performConversion] does with the rate it gets. *)
Lemma performConversion_rate a X Y s rate s1 conv :
  num_truthy a = true -> num_leb a zero = false -> num_ltb max_amount a = false ->
  str_truthy X = true -> str_truthy Y = true ->
  getExchangeRate host X Y (entering s) = (Ok rate, s1) ->
  js_mul host (VNum a) rate = Ok conv ->
  let s' := snd (performConversion host a X Y s) in
  toAmount (dom s') = Some conv /\
  resultAmount (dom s') = Some (conv, Y) /\
  exchangeRate (dom s') = Some (X, rate, Y) /\
  requests s' = requests s1 /\
  exchangeRates s' = exchangeRates s1 /\
  conversionHistory s' =
    firstn 50 (conversion_record a X conv Y rate (Date_now host) :: conversionHistory s1) /\
  (renderable host (conversionHistory s1) ->
   errorMessage (dom s') = errorMessage (dom s1) /\
   resultDisplay (dom s') = true /\
   isLoading (appState s') = false).
Proof.
  intros Ht Hle Hlt HX HY Hrate Hmul.
  match goal with |- let s' := snd (?c s) in @?P s' => change (wp c (fun _ s' => P s') s) end.
  cbv beta.
  unfold performConversion. rewrite Ht, HX, HY, Hle, Hlt. cbn [negb orb].
  unfold showLoading, hideError, showResult, with_dom, set_isLoading. wp_run.
  eapply wp_eq; [exact Hrate|]. cbv beta iota. wp_step. wp_step.
  rewrite Hmul. wp_run.
  assert (Hn : exists x, ToNumber host rate = Ok x).
  { unfold js_mul in Hmul. cbn [ToNumber ToPrimitive rbind] in Hmul.
    destruct (ToNumber host rate) as [x|e]; [eauto|discriminate]. }
  destruct Hn as [x Hn].
  destruct (conversion_record_renders a X conv Y rate (now host) x Hn) as [Hi Hm].
  apply wp_addToHistory. intros r s' Hv Hd Hh Hok.
  unfold conversion_view, display_view in Hv, Hd. split_views. simpl_state.
  destruct r as [[]|e]; cbv beta iota.
  - wp_run. simpl_state. repeat split; try congruence.
  - unfold showError, hideResult, with_dom. wp_run. simpl_state.
    repeat split; try congruence; exfalso;
      match goal with H : renderable _ _ |- _ => specialize (Hok Hi Hm H) end; discriminate.
Qed.

End Conversion.

(** * The conversion engine *)

Section Engine.

Variable host : Host.

Lemma supported_nonempty X : supported X = true -> str_truthy X = true.
Proof. destruct X; [discriminate|reflexivity]. Qed.

(** Same currency: the rate is 1, nothing is fetched, nothing changes. *)
Lemma getExchangeRate_same X s :
  getExchangeRate host X X s = (Ok (VNum one), s).
Proof. unfold getExchangeRate, try_catch. rewrite String.eqb_refl. reflexivity. Qed.

(** Both rates cached: the cross rate, nothing is fetched, nothing changes. *)
Lemma getExchangeRate_cached X Y rx ry s :
  X <> Y ->
  lookup X (exchangeRates s) = VNum rx -> num_truthy rx = true ->
  lookup Y (exchangeRates s) = VNum ry -> num_truthy ry = true ->
  getExchangeRate host X Y s = (Ok (VNum (num_div ry rx)), s).
Proof.
  intros Hne HX Hrx HY Hry. apply String.eqb_neq in Hne.
  unfold getExchangeRate, try_catch, bind. rewrite Hne. cbn [gets].
  rewrite HX, HY. cbn [truthy]. rewrite Hrx, Hry. reflexivity.
Qed.

(** ** C2 *)

(** C2.  Converting between a supported currency and itself shows the amount
    unchanged with an effective rate of exactly 1, and does not fetch: no
    request is issued and the cached table is left alone.  The conversion
    is recorded at the head of the history and, the history being
    renderable, the result is displayed with no error. *)
Theorem C2_same_currency_identity (a : number) (X : string) (s : state) :
  valid_amount a -> supported X = true ->
  let s' := snd (performConversion host a X X s) in
  toAmount (dom s') = Some a /\
  resultAmount (dom s') = Some (a, X) /\
  exchangeRate (dom s') = Some (X, VNum one, X) /\
  requests s' = requests s /\
  exchangeRates s' = exchangeRates s /\
  conversionHistory s' =
    firstn 50 (conversion_record a X a X (VNum one) (Date_now host) :: conversionHistory s) /\
  (renderable host (conversionHistory s) ->
   errorMessage (dom s') = None /\ resultDisplay (dom s') = true).
Proof.
  intros Ha HX.
  destruct (valid_amount_checks a Ha) as (Ht & Hle & Hlt).
  pose proof (supported_nonempty X HX) as HXe.
  assert (Hmul : js_mul host (VNum a) (VNum one) = Ok a).
  { unfold js_mul. cbn [ToNumber ToPrimitive rbind].
    rewrite num_mul_one_r by apply Ha. reflexivity. }
  pose proof (performConversion_rate host a X X s (VNum one) (entering s) a
                Ht Hle Hlt HXe HXe (getExchangeRate_same X (entering s)) Hmul) as H.
  cbv zeta in *. destruct H as (H1 & H2 & H3 & H4 & H5 & H6 & H7).
  repeat split; try assumption.
  - apply H7; assumption.
  - apply H7; assumption.
Qed.

(** ** C1 *)

(** C1.  For a valid amount and two distinct supported currencies whose
    rates are both in the cached table (positive numbers, as a rate table
    holds), the conversion shows [a * (cache[Y] / cache[X])] computed in
    binary64, with effective rate [cache[Y] / cache[X]], and does not
    fetch. *)
Theorem C1_cached_cross_rate (a : number) (X Y : string) (rx ry : number) (s : state) :
  valid_amount a -> X <> Y -> supported X = true -> supported Y = true ->
  lookup X (exchangeRates s) = VNum rx -> num_positive rx = true ->
  lookup Y (exchangeRates s) = VNum ry -> num_positive ry = true ->
  let s' := snd (performConversion host a X Y s) in
  let rate := num_div ry rx in
  toAmount (dom s') = Some (num_mul a rate) /\
  resultAmount (dom s') = Some (num_mul a rate, Y) /\
  exchangeRate (dom s') = Some (X, VNum rate, Y) /\
  requests s' = requests s /\
  exchangeRates s' = exchangeRates s /\
  conversionHistory s' =
    firstn 50 (conversion_record a X (num_mul a rate) Y (VNum rate) (Date_now host)
               :: conversionHistory s) /\
  (renderable host (conversionHistory s) ->
   errorMessage (dom s') = None /\ resultDisplay (dom s') = true).
Proof.
  intros Ha Hne HX HY Hx Hrx Hy Hry.
  destruct (valid_amount_checks a Ha) as (Ht & Hle & Hlt).
  pose proof (supported_nonempty X HX) as HXe.
  pose proof (supported_nonempty Y HY) as HYe.
  assert (Hrate : getExchangeRate host X Y (entering s)
                  = (Ok (VNum (num_div ry rx)), entering s)).
  { apply getExchangeRate_cached; auto using num_positive_truthy. }
  assert (Hmul : js_mul host (VNum a) (VNum (num_div ry rx)) = Ok (num_mul a (num_div ry rx)))
    by reflexivity.
  pose proof (performConversion_rate host a X Y s _ _ _ Ht Hle Hlt HXe HYe Hrate Hmul) as H.
  cbv zeta in *. destruct H as (H1 & H2 & H3 & H4 & H5 & H6 & H7).
  repeat split; try assumption.
  - apply H7; assumption.
  - apply H7; assumption.
Qed.

(** ** C3 *)

(** An amount of [-5] is rejected with the message of the positivity check,
    before anything is fetched. *)
Lemma negative_amount_rejected X Y s :
  supported X = true -> supported Y = true ->
  performConversion host (num_of_Z (-5)) X Y s
  = showError (Literal "Jumlah harus lebih besar dari 0") s.
Proof.
  intros HX HY. unfold performConversion.
  rewrite (supported_nonempty X HX), (supported_nonempty Y HY). reflexivity.
Qed.

(** One above the bound is rejected with the message of the bound check. *)
Lemma amount_above_bound_rejected X Y s :
  supported X = true -> supported Y = true ->
  performConversion host (num_of_Z 1000000001) X Y s
  = showError (Literal "Jumlah terlalu besar. Maksimal 1 miliar") s.
Proof.
  intros HX HY. unfold performConversion.
  rewrite (supported_nonempty X HX), (supported_nonempty Y HY). reflexivity.
Qed.

Lemma showError_requests message : keeps requests (showError message).
Proof. frame. Qed.

(** Neither rejection fetches. *)
Lemma rejected_amounts_fetch_nothing X Y s :
  supported X = true -> supported Y = true ->
  requests (snd (performConversion host (num_of_Z (-5)) X Y s)) = requests s /\
  requests (snd (performConversion host (num_of_Z 1000000001) X Y s)) = requests s.
Proof.
  intros HX HY.
  rewrite negative_amount_rejected, amount_above_bound_rejected by assumption.
  split; apply showError_requests.
Qed.

(** [performConversion] returns normally whatever happens: its handler
    catches every exception of the conversion and raises none. *)
Lemma performConversion_returns a X Y s :
  fst (performConversion host a X Y s) = Ok tt.
Proof.
  unfold performConversion.
  destruct (negb (num_truthy a) || negb (str_truthy X) || negb (str_truthy Y));
    [reflexivity|].
  destruct (num_leb a zero); [reflexivity|].
  destruct (num_ltb max_amount a); [reflexivity|].
  unfold try_catch.
  match goal with |- fst (match ?c with _ => _ end) = _ => destruct c as [[[]|e] s'] end;
    reflexivity.
Qed.

(** The bound itself is a valid amount. *)
Lemma max_amount_valid : valid_amount max_amount.
Proof. repeat split. Qed.

(** C3.  What the script does with an amount of 0: the first check of
    [performConversion] ([!fromAmount]) takes it, hides the result panel and
    returns.  No error is shown: the banner is as it was, whatever it was.
    Nothing is fetched. *)
Theorem C3_zero_amount_ignored (X Y : string) (s : state) :
  performConversion host zero X Y s = hideResult s /\
  errorMessage (dom (snd (performConversion host zero X Y s))) = errorMessage (dom s) /\
  requests (snd (performConversion host zero X Y s)) = requests s.
Proof. repeat split. Qed.

End Engine.

(** * History capacity *)

Section Capacity.

Variable host : Host.

Lemma firstn_app_firstn {A} (n : nat) (l l' : list A) :
  firstn n (l ++ firstn n l') = firstn n (l ++ l').
Proof.
  rewrite !firstn_app, firstn_firstn. do 2 f_equal. lia.
Qed.

(** After a non-empty sequence of appends the log is the 50 newest of the
    appended records followed by the old log. *)
Lemma append_all_history records s :
  records <> [] ->
  conversionHistory (append_all host records s) = firstn 50 (rev records ++ conversionHistory s).
Proof.
  revert s. induction records as [|r records IH]; intros s Hne; [congruence|].
  cbn [append_all fold_left].
  destruct records as [|r' records].
  - cbn [fold_left rev app]. apply addToHistory_history.
  - change (fold_left _ (r' :: records) ?x) with (append_all host (r' :: records) x).
    rewrite IH by discriminate. rewrite addToHistory_history.
    rewrite firstn_app_firstn. cbn [rev]. rewrite <- !app_assoc. reflexivity.
Qed.

(** ** C4 *)

(** C4.  Starting from a log of at most 50 records, after any sequence of
    appends the log has at most 50 records and is newest-first: it is the
    first 50 of the appended records, latest first, followed by the old
    log.  Appending 60 records to an empty log leaves exactly the 50
    appended last, latest first; when the 60 are distinct, none of the 10
    appended first is left. *)
Theorem C4_history_capacity (records : list value) (s : state) :
  (List.length (conversionHistory s) <= 50)%nat ->
  let log := conversionHistory (append_all host records s) in
  (List.length log <= 50)%nat /\
  log = firstn 50 (rev records ++ conversionHistory s) /\
  (conversionHistory s = [] -> List.length records = 60%nat ->
   log = rev (skipn 10 records) /\
   List.length log = 50%nat /\
   (NoDup records -> forall r, In r (firstn 10 records) -> ~ In r log)).
Proof.
  intros Hs log.
  assert (E : log = firstn 50 (rev records ++ conversionHistory s)).
  { subst log. destruct records as [|r records].
    - cbn. symmetry. now apply firstn_all2.
    - apply append_all_history. discriminate. }
  split; [rewrite E; apply firstn_le_length|].
  split; [exact E|].
  intros Hempty Hlen.
  assert (E' : log = rev (skipn 10 records)).
  { rewrite E, Hempty, app_nil_r, firstn_rev, Hlen. reflexivity. }
  split; [exact E'|]. split.
  - rewrite E', length_rev, length_skipn, Hlen. reflexivity.
  - intros Hnd r Hin Hlog. rewrite E' in Hlog. apply in_rev in Hlog.
    rewrite <- (firstn_skipn 10 records) in Hnd.
    revert Hnd Hin Hlog. generalize (firstn 10 records) (skipn 10 records).
    intros l1 l2 Hnd. induction l1 as [|x l1 IH]; intros Hin Hl2; [contradiction|].
    cbn in Hnd. inversion Hnd as [|? ? Hx Hnd']; subst.
    destruct Hin as [->|Hin].
    + apply Hx, in_or_app. now right.
    + now apply IH.
Qed.

End Capacity.

(** * The rate provider *)

Section Provider.

Variable host : Host.

Lemma getExchangeRate_exchangeRates X Y :
  keeps (fun s => (exchangeRates s, currencies s)) (getExchangeRate host X Y).
Proof. unfold getExchangeRate. frame. Qed.

(** ** C8 *)

(** C8.  For distinct supported currencies of which at least one has no
    entry in the cached table, [getExchangeRate] issues exactly one request, for the
    table based on the source currency, and leaves the cached table (and
    the currency list) unchanged whatever the outcome; when the provider
    answers in time with a table that has an entry for the target, that
    entry is the rate returned. *)
Theorem C8_fresh_fetch_keeps_cache (X Y : string) (s : state) :
  X <> Y -> supported X = true -> supported Y = true ->
  lookup X (exchangeRates s) = VUndefined \/ lookup Y (exchangeRates s) = VUndefined ->
  let r := fst (getExchangeRate host X Y s) in
  let s' := snd (getExchangeRate host X Y s) in
  requests s' = (baseURL ++ X)%string :: requests s /\
  exchangeRates s' = exchangeRates s /\
  currencies s' = currencies s /\
  (forall after response data table,
     network host (baseURL ++ X) = Responds after response -> after < timeout ->
     ok response = true -> json response = Some data ->
     get data "rates" = Ok table ->
     truthy (lookup Y (own_properties table)) = true ->
     r = Ok (lookup Y (own_properties table))).
Proof.
  intros Hne _ _ Habs r s'.
  pose proof (getExchangeRate_exchangeRates X Y s) as K.
  apply (f_equal fst) in K as K1. apply (f_equal snd) in K as K2. cbn [fst snd] in K1, K2.
  fold s' in K1, K2.
  assert (Hmiss : truthy (lookup X (exchangeRates s))
                  && truthy (lookup Y (exchangeRates s)) = false).
  { destruct Habs as [-> | ->]; cbn [truthy]; [reflexivity|apply andb_false_r]. }
  apply String.eqb_neq in Hne.
  assert (W : wp (getExchangeRate host X Y)
                (fun r s' =>
                   requests s' = (baseURL ++ X)%string :: requests s /\
                   (forall after response data table,
                      network host (baseURL ++ X) = Responds after response -> after < timeout ->
                      ok response = true -> json response = Some data ->
                      get data "rates" = Ok table ->
                      truthy (lookup Y (own_properties table)) = true ->
                      r = Ok (lookup Y (own_properties table)))) s).
  { unfold getExchangeRate. rewrite Hne. cbv iota.
    unfold fetchWithTimeout, response_json, count_apiCall, push_error.
    wp_step. wp_step. wp_step. rewrite Hmiss. cbv iota.
    wp_run; simpl_state; (split; [reflexivity|]);
      intros after' response' data' table' Hnet Hafter Hok Hjson Hget Hy;
      try discriminate Hnet; injection Hnet as -> ->;
      try (apply Z.ltb_lt in Hafter; congruence);
      try (rewrite Hok in *; discriminate);
      try congruence.
    rewrite Heqo in Hjson. injection Hjson as <-.
    rewrite Heqr1 in Hget. injection Hget as <-.
    rewrite Hy, orb_false_r in Heqb1. apply negb_true_iff in Heqb1.
    destruct a as [| | | |str| | |]; try discriminate; try (cbn in Hy; discriminate).
    destruct str; [cbn in Hy|]; discriminate. }
  destruct W as [W1 W2]. repeat split; assumption.
Qed.

(** What [performConversion] shows when no rate is obtained. *)
Lemma performConversion_no_rate a X Y s e s1 :
  num_truthy a = true -> num_leb a zero = false -> num_ltb max_amount a = false ->
  str_truthy X = true -> str_truthy Y = true ->
  getExchangeRate host X Y (entering s) = (Throw e, s1) ->
  let s' := snd (performConversion host a X Y s) in
  errorMessage (dom s') =
    Some (match message_of e with
          | Literal EmptyString => Literal "Gagal melakukan konversi mata uang"
          | message => message
          end) /\
  resultDisplay (dom s') = false /\
  conversionHistory s' = conversionHistory s1.
Proof.
  intros Ht Hle Hlt HX HY Hrate.
  match goal with |- let s' := snd (?c s) in @?P s' => change (wp c (fun _ s' => P s') s) end.
  cbv beta.
  unfold performConversion. rewrite Ht, HX, HY, Hle, Hlt. cbn [negb orb].
  unfold showLoading, hideError, showResult, with_dom, set_isLoading. wp_run.
  eapply wp_eq; [exact Hrate|]. cbv beta iota.
  unfold showError, hideResult, with_dom. wp_run. simpl_state. repeat split.
Qed.

(** ** C9 *)

(** C9 (amended).  For distinct supported currencies: when the provider
    answers in time but its table has no entry for the target currency, [getExchangeRate] records the specific
    message "Exchange rate not available for Y" in [appState.errors] and
    throws the generic error "Gagal mendapatkan nilai tukar mata uang"; for a
    valid amount, that generic message is what [performConversion] shows. *)
Theorem C9_missing_target_generic_error (X Y : string) (s : state)
    (after : Z) (response : response) (data table : value) :
  X <> Y -> supported X = true -> supported Y = true ->
  lookup X (exchangeRates s) = VUndefined \/ lookup Y (exchangeRates s) = VUndefined ->
  network host (baseURL ++ X) = Responds after response -> after < timeout ->
  ok response = true -> json response = Some data ->
  get data "rates" = Ok table ->
  truthy (lookup Y (own_properties table)) = false ->
  fst (getExchangeRate host X Y s)
    = Throw (Error "Gagal mendapatkan nilai tukar mata uang") /\
  errors (appState (snd (getExchangeRate host X Y s)))
    = (errors (appState s) ++
       [{| e_message := Literal ("Exchange rate not available for " ++ Y);
           e_timestamp := now host;
           e_function := "getExchangeRate";
           e_currencies := Some (X ++ "→" ++ Y)%string |}])%list /\
  (forall a, valid_amount a ->
     errorMessage (dom (snd (performConversion host a X Y s)))
       = Some (Literal "Gagal mendapatkan nilai tukar mata uang")).
Proof.
  intros Hne HX HY Habs Hnet Hafter Hok Hjson Hget Hy.
  assert (Hmiss : forall s0, exchangeRates s0 = exchangeRates s ->
            truthy (lookup X (exchangeRates s0)) && truthy (lookup Y (exchangeRates s0)) = false).
  { intros s0 ->. destruct Habs as [-> | ->]; cbn [truthy]; [reflexivity|apply andb_false_r]. }
  apply String.eqb_neq in Hne. apply Z.ltb_lt in Hafter.
  assert (W : forall s0, exchangeRates s0 = exchangeRates s ->
            wp (getExchangeRate host X Y)
              (fun r s' =>
                 r = Throw (Error "Gagal mendapatkan nilai tukar mata uang") /\
                 errors (appState s')
                 = (errors (appState s0) ++
                    [{| e_message := Literal ("Exchange rate not available for " ++ Y);
                        e_timestamp := now host;
                        e_function := "getExchangeRate";
                        e_currencies := Some (X ++ "→" ++ Y)%string |}])%list) s0).
  { intros s0 Hs0. unfold getExchangeRate. rewrite Hne. cbv iota.
    unfold fetchWithTimeout, response_json, count_apiCall, push_error.
    wp_step. wp_step. wp_step. rewrite (Hmiss s0 Hs0). cbv iota.
    wp_step. wp_step. wp_step. rewrite Hnet. cbv iota. rewrite Hafter. cbv iota.
    wp_step. rewrite Hok. cbn [negb]. cbv iota. rewrite Hjson.
    wp_step. wp_step. wp_step. wp_step. rewrite Hget. cbv iota.
    rewrite Hy. cbn [negb]. rewrite orb_true_r. cbv iota.
    wp_run. simpl_state. split; reflexivity. }
  split; [apply (W s eq_refl)|]. split; [apply (W s eq_refl)|].
  intros a Ha.
  destruct (valid_amount_checks a Ha) as (Ht & Hle & Hlt).
  pose proof (W (entering s) eq_refl) as [W1 _].
  pose proof (performConversion_no_rate a X Y s _ _ Ht Hle Hlt
                (supported_nonempty X HX) (supported_nonempty Y HY)
                (eq_trans (surjective_pairing _) (f_equal2 pair W1 eq_refl))) as H.
  apply H.
Qed.

(** ** C10 *)

Lemma existsb_insert_sorted f x l :
  existsb f (insert_sorted x l) = f x || existsb f l.
Proof.
  induction l as [|y l IH]; cbn; [reflexivity|].
  destruct (String.leb x y); cbn; [reflexivity|].
  rewrite IH. destruct (f x), (f y); reflexivity.
Qed.

Lemma existsb_sort f l : existsb f (sort l) = existsb f l.
Proof.
  induction l as [|x l IH]; cbn; [reflexivity|].
  unfold sort in *. rewrite existsb_insert_sorted, IH. reflexivity.
Qed.

Lemma lookup_assign k v o : lookup k (assign k v o) = v.
Proof.
  induction o as [|[k' v'] o IH]; cbn.
  - now rewrite String.eqb_refl.
  - destruct (String.eqb k k') eqn:E; cbn.
    + now rewrite String.eqb_refl.
    + now rewrite E.
Qed.

(** C10 (amended).  After every successful load the rate table is the
    provider's table, with an entry [USD = 1] added exactly when the
    provider's table has no USD entry: USD maps to exactly 1 when the
    provider left it out, and to whatever the provider gave otherwise. *)
Theorem C10_base_rate_after_load (s : state) :
  fst (loadCurrencies host s) = Ok tt ->
  exists after response data table,
    network host (baseURL ++ "USD") = Responds after response /\
    json response = Some data /\
    get data "rates" = Ok table /\
    let rates := exchangeRates (snd (loadCurrencies host s)) in
    if lists_USD table
    then rates = own_properties table
    else rates = assign "USD" (VNum one) (own_properties table) /\
         lookup "USD" rates = VNum one.
Proof.
  change (wp (loadCurrencies host)
    (fun r s' => r = Ok tt ->
       exists after response data table,
         network host (baseURL ++ "USD") = Responds after response /\
         json response = Some data /\
         get data "rates" = Ok table /\
         let rates := exchangeRates s' in
         if lists_USD table
         then rates = own_properties table
         else rates = assign "USD" (VNum one) (own_properties table) /\
              lookup "USD" rates = VNum one) s).
  unfold loadCurrencies.
  unfold fetchWithTimeout, response_json, count_apiCall, push_error, set_lastUpdateTime,
    hideError, with_dom.
  wp_run; simpl_state; intros Hr; try discriminate Hr.
  all: do 4 eexists; repeat (split; [eassumption || reflexivity|]); cbv zeta.
  all: unfold lists_USD; rewrite existsb_sort in *;
    match goal with H : existsb _ _ = _ |- _ => rewrite H end.
  - reflexivity.
  - split; [reflexivity|apply lookup_assign].
Qed.

End Provider.

(** * Persistence *)

Section Persistence.

Variable host : Host.

Lemma map_result_throw {A B} (f : A -> result B) l x e :
  In x l -> f x = Throw e -> exists e', map_result f l = Throw e'.
Proof.
  induction l as [|a l IH]; intros Hin Hx; [contradiction|].
  cbn [map_result]. destruct Hin as [->|Hin].
  - rewrite Hx. eexists. reflexivity.
  - destruct (f a) as [b|e0]; cbn [rbind]; [|eexists; reflexivity].
    destruct (IH Hin Hx) as [e' ->]. eexists. reflexivity.
Qed.

Lemma map_result_in {A B} (f : A -> result B) l l' x :
  map_result f l = Ok l' -> In x l -> exists y, f x = Ok y /\ In y l'.
Proof.
  revert l'. induction l as [|a l IH]; intros l' H Hin; [contradiction|].
  cbn [map_result] in H.
  destruct (f a) as [b|e] eqn:Ea; cbn [rbind] in H; [|discriminate].
  destruct (map_result f l) as [bs|e] eqn:El; cbn [rbind] in H; [|discriminate].
  injection H as <-. destruct Hin as [->|Hin].
  - exists b. split; [assumption|now left].
  - destruct (IH bs eq_refl Hin) as (y & Hy & Hin'). exists y. split; [assumption|now right].
Qed.

Lemma renderable_in history r :
  renderable host history -> In r history -> history_item host r = Ok tt.
Proof.
  intros [us Hus] Hin. destruct (map_result_in _ _ _ _ Hus Hin) as ([] & Hy & _). exact Hy.
Qed.

(** What loading does, whatever the slot holds: it returns normally; the
    log it leaves is renderable; it is empty, or (nothing stored) the log
    that was there, or the reconstituted elements of the stored array, all
    of them. *)
Lemma loadHistoryFromStorage_spec s0 :
  let r := fst (loadHistoryFromStorage host s0) in
  let s' := snd (loadHistoryFromStorage host s0) in
  r = Ok tt /\
  renderable host (conversionHistory s') /\
  (conversionHistory s' = [] \/
   (conversionHistoryData s0 = Absent /\ conversionHistory s' = conversionHistory s0) \/
   (exists parsed, conversionHistoryData s0 = Json parsed /\
                   array_map (revive host) parsed = Ok (conversionHistory s'))) /\
  (forall parsed history,
     conversionHistoryData s0 = Json parsed ->
     array_map (revive host) parsed = Ok history ->
     renderable host history -> conversionHistory s' = history).
Proof.
  change (wp (loadHistoryFromStorage host)
    (fun r s' =>
       r = Ok tt /\
       renderable host (conversionHistory s') /\
       (conversionHistory s' = [] \/
        (conversionHistoryData s0 = Absent /\ conversionHistory s' = conversionHistory s0) \/
        (exists parsed, conversionHistoryData s0 = Json parsed /\
                        array_map (revive host) parsed = Ok (conversionHistory s'))) /\
       (forall parsed history,
          conversionHistoryData s0 = Json parsed ->
          array_map (revive host) parsed = Ok history ->
          renderable host history -> conversionHistory s' = history)) s0).
  unfold loadHistoryFromStorage, updateHistoryDisplay, set_historyList, with_dom.
  wp_run; simpl_state.
  all: try match goal with H : ?a = [] |- _ => is_var a; subst a end.
  all: try match goal with H : ?a = _ :: _ |- _ => is_var a; subst a end.
  all: try match goal with H : conversionHistory _ = _ |- _ => rewrite H end.
  all: split; [reflexivity|].
  all: split; [first [apply renderable_nil | eexists; eassumption]|].
  all: split; [first [now left | right; left; split; reflexivity
                     | right; right; eexists; split; [reflexivity|eassumption] ]|].
  all: intros parsed history Hp Hm Hr; try discriminate Hp; injection Hp as <-.
  all: try congruence.
  all: destruct Hr as [us Hus];
    match goal with
    | H : array_map _ _ = Ok ?h |- _ =>
        assert (history = h) by congruence; subst history; congruence
    end.
Qed.

(** ** C5 *)

(** Serializing a well-formed record only turns its timestamp into the ISO
    string of the instant. *)
Lemma to_json_record fa fc ta tc rate t :
  num_positive fa = true -> num_positive ta = true -> num_positive rate = true ->
  valid_time t = true ->
  to_json (conversion_record fa fc ta tc (VNum rate) (VDate (Some t)))
  = conversion_record fa fc ta tc (VNum rate) (VStr (toISOString t)).
Proof.
  intros Hfa Hta Hrate Ht.
  destruct fa as [| | |[] ? ?]; try discriminate.
  destruct ta as [| | |[] ? ?]; try discriminate.
  destruct rate as [| | |[] ? ?]; try discriminate.
  cbn. rewrite Ht. reflexivity.
Qed.

(** Reconstituting it reads the instant back. *)
Lemma revive_record fa fc ta tc rate t :
  valid_time t = true ->
  revive host (conversion_record fa fc ta tc rate (VStr (toISOString t)))
  = Ok (conversion_record fa fc ta tc rate (VDate (Some t))).
Proof.
  intros Ht. unfold revive, conversion_record. cbn.
  rewrite Date_parse_toISOString by exact Ht. reflexivity.
Qed.

Lemma revive_serialized log :
  Forall well_formed_record log ->
  map_result (revive host) (map to_json log) = Ok log.
Proof.
  induction 1 as [|r log Hr _ IH]; [reflexivity|].
  destruct Hr as (fa & fc & ta & tc & rate & t & -> & Hfa & _ & Hta & _ & Hrate & Ht).
  cbn [map map_result]. rewrite to_json_record, revive_record by assumption.
  cbn [rbind]. rewrite IH. reflexivity.
Qed.

Lemma well_formed_renderable log :
  Forall well_formed_record log -> renderable host log.
Proof.
  induction 1 as [|r log Hr _ IH]; [apply renderable_nil|].
  destruct Hr as (fa & fc & ta & tc & rate & t & -> & _).
  apply renderable_cons; [|exact IH].
  now apply (conversion_record_renders host fa fc ta tc (VNum rate) t rate).
Qed.

(** C5.  A log of well-formed records that [saveHistoryToStorage] has
    serialized is reproduced by [loadHistoryFromStorage]: the same records
    in the same order, every timestamp the same instant to the
    millisecond. *)
Theorem C5_history_round_trip (log : list value) (s s0 : state) :
  Forall well_formed_record log ->
  conversionHistory s = log ->
  conversionHistoryData s0 = conversionHistoryData (snd (saveHistoryToStorage s)) ->
  fst (loadHistoryFromStorage host s0) = Ok tt /\
  conversionHistory (snd (loadHistoryFromStorage host s0)) = log.
Proof.
  intros Hwf Hlog Hdata.
  destruct (loadHistoryFromStorage_spec s0) as (Hr & _ & _ & Hload).
  split; [exact Hr|].
  apply (Hload (VArr (map to_json log))).
  - rewrite Hdata. unfold saveHistoryToStorage, try_catch, bind. cbn [gets modify snd].
    simpl_state. rewrite Hlog. reflexivity.
  - apply revive_serialized, Hwf.
  - apply well_formed_renderable, Hwf.
Qed.

(** ** C6 and C7 *)

Lemma lookup_assign_other k k' v o :
  String.eqb k k' = false -> lookup k (assign k' v o) = lookup k o.
Proof.
  intros Hk. induction o as [|[k0 v0] o IH]; cbn.
  - now rewrite Hk.
  - destruct (String.eqb k' k0) eqn:E; cbn.
    + apply String.eqb_eq in E. subst k0. now rewrite Hk.
    + now rewrite IH.
Qed.

(** What rendering an item requires of it. *)
Lemma history_item_ok props u :
  history_item host (VObj props) = Ok u ->
  ~ missing (lookup "from" props) /\ ~ missing (lookup "to" props) /\
  lookup "timestamp" props <> VDate None.
Proof.
  unfold history_item. cbn [get own_properties rbind]. intros H.
  assert (Hf : ~ missing (lookup "from" props)).
  { intros [E|E]; rewrite E in H; discriminate. }
  assert (Hfrom : exists c, get (lookup "from" props) "currency" = Ok c).
  { destruct (lookup "from" props); try (eexists; reflexivity); exfalso; apply Hf;
      [now left|now right]. }
  destruct Hfrom as [c Hc]. rewrite Hc in H. cbn [rbind] in H.
  destruct (ToPrimitive host c); [|discriminate]. cbn [rbind] in H.
  assert (Ht : ~ missing (lookup "to" props)).
  { intros [E|E]; rewrite E in H; discriminate. }
  assert (Hto : exists c', get (lookup "to" props) "currency" = Ok c').
  { destruct (lookup "to" props); try (eexists; reflexivity); exfalso; apply Ht;
      [now left|now right]. }
  destruct Hto as [c' Hc']. rewrite Hc' in H. cbn [rbind] in H.
  repeat split; try assumption.
  intros E. rewrite E in H. cbn [formatDateTime rbind] in H.
  repeat match type of H with
         | rbind ?x _ = Ok _ => destruct x; cbn [rbind] in H; [|discriminate]
         end.
  discriminate.
Qed.

(** An unusable element is never part of a log that loads. *)
Lemma unusable_blocks item r :
  unusable host item -> revive host item = Ok r -> history_item host r = Ok tt -> False.
Proof.
  intros Hu Hrev Hitem. unfold revive in Hrev.
  destruct Hu as [Hm|Hu].
  { destruct Hm as [-> | ->]; discriminate. }
  assert (Hget : get item "timestamp" = Ok (lookup "timestamp" (own_properties item))).
  { destruct item; try reflexivity; discriminate. }
  rewrite Hget in Hrev. cbn [rbind] in Hrev.
  destruct (new_Date host (lookup "timestamp" (own_properties item))) as [d|e] eqn:Hd;
    [|discriminate].
  cbn [rbind] in Hrev. injection Hrev as <-.
  apply history_item_ok in Hitem as (Hf & Ht & Hts).
  rewrite lookup_assign_other in Hf, Ht by reflexivity.
  rewrite lookup_assign in Hts.
  destruct Hu as [Hu|[Hu|[Hu|[e Hu]]]]; try contradiction; congruence.
Qed.

Lemma unusable_empties items s0 :
  conversionHistoryData s0 = Json (VArr items) ->
  (exists item, In item items /\ unusable host item) ->
  conversionHistory (snd (loadHistoryFromStorage host s0)) = [].
Proof.
  intros Hdata (item & Hin & Hu).
  destruct (loadHistoryFromStorage_spec s0) as (_ & Hr & [H|[[H _]|(parsed & Hp & Hm)]] & _).
  - exact H.
  - congruence.
  - exfalso. rewrite Hdata in Hp. injection Hp as <-. cbn [array_map] in Hm.
    destruct (map_result_in _ _ _ _ Hm Hin) as (r & Hrev & Hin').
    exact (unusable_blocks item r Hu Hrev (renderable_in _ _ Hr Hin')).
Qed.

(** C6 (amended).  Loading never raises.  The log it leaves at startup is
    empty when nothing is stored, when the stored text is not JSON, and when
    it is JSON for something that is not an array.  A stored array is
    loaded, every element reconstituted, in order, exactly when every
    element can be reconstituted and the log they make can be rendered;
    otherwise the log is left empty.  In particular it is empty when an
    element is null, has no [from] or [to], or has a timestamp that is not a
    valid date. *)
Theorem C6_load_fails_soft (s0 : state) :
  conversionHistory s0 = [] ->
  let s' := snd (loadHistoryFromStorage host s0) in
  fst (loadHistoryFromStorage host s0) = Ok tt /\
  match conversionHistoryData s0 with
  | Absent | Unparsable => conversionHistory s' = []
  | Json (VArr items) =>
      ((exists item, In item items /\ unusable host item) -> conversionHistory s' = []) /\
      (forall history,
         map_result (revive host) items = Ok history -> renderable host history ->
         conversionHistory s' = history) /\
      ((forall history,
          map_result (revive host) items = Ok history -> ~ renderable host history) ->
       conversionHistory s' = [])
  | Json _ => conversionHistory s' = []
  end.
Proof.
  intros Hstart s'.
  destruct (loadHistoryFromStorage_spec s0) as (Hr & Hrend & Hcases & Hload).
  fold s' in Hrend, Hcases, Hload. split; [exact Hr|].
  destruct (conversionHistoryData s0) as [| |parsed] eqn:Hdata.
  - destruct Hcases as [H|[[_ H]|(p & Hp & _)]]; congruence.
  - destruct Hcases as [H|[[H _]|(p & Hp & _)]]; congruence.
  - destruct parsed as [| | | | | |items|props];
      try (destruct Hcases as [H|[[H _]|(p & Hp & Hm)]]; try congruence;
           injection Hp as <-; discriminate).
    split; [now apply unusable_empties|]. split.
    + intros history Hm Hh. exact (Hload (VArr items) history eq_refl Hm Hh).
    + intros Hnone. destruct Hcases as [H|[[H _]|(p & Hp & Hm)]]; try congruence.
      injection Hp as <-. cbn [array_map] in Hm.
      exfalso. exact (Hnone _ Hm Hrend).
Qed.

(** C7 (amended).  Loading drops no record on its own: the log it leaves is
    either empty or every element of the stored array, reconstituted, in
    order.  When the serialized timestamp of some record does not parse
    (it reconstitutes to the Invalid Date), the whole load is given up and
    the log is empty. *)
Theorem C7_invalid_timestamp_empties_log (items : list value) (s0 : state) :
  conversionHistoryData s0 = Json (VArr items) ->
  let s' := snd (loadHistoryFromStorage host s0) in
  (conversionHistory s' = [] \/
   map_result (revive host) items = Ok (conversionHistory s')) /\
  (forall item timestamp,
     In item items -> get item "timestamp" = Ok timestamp ->
     new_Date host timestamp = Ok (VDate None) ->
     conversionHistory s' = []).
Proof.
  intros Hdata s'. split.
  - destruct (loadHistoryFromStorage_spec s0) as (_ & _ & [H|[[H _]|(p & Hp & Hm)]] & _).
    + now left.
    + congruence.
    + right. rewrite Hdata in Hp. injection Hp as <-. exact Hm.
  - intros item timestamp Hin Hget Hdate.
    apply (unusable_empties items s0 Hdata). exists item. split; [exact Hin|].
    right. right. right. left.
    destruct item; try discriminate; cbn [get] in Hget; injection Hget as <-; exact Hdate.
Qed.

End Persistence.

(** * The claims on the sample scenarios *)

(** Sixty distinct records, oldest first. *)
Definition sixty_records : list value :=
  map (fun n => conversion_record (num_of_Z (Z.of_nat n)) "USD"
                  (num_of_Z (Z.of_nat n)) "USD" (VNum one)
                  (VDate (Some (Z.of_nat n))))
      (seq 1 60).

(** C1 on the swap scenario: with USD 1 and IDR 15000 cached, 1 USD shows as
    15000 IDR. *)
Lemma C1_cached_cross_rate_witness :
  toAmount (dom (snd (performConversion sample_host one "USD" "IDR" cached_state)))
  = Some (num_of_Z 15000).
Proof.
  refine (proj1 (C1_cached_cross_rate sample_host one "USD" "IDR" one (num_of_Z 15000)
                   cached_state _ _ _ _ _ _ _ _));
    [repeat split | apply String.eqb_neq; reflexivity | reflexivity ..].
Defined.

(** C2 on one US dollar. *)
Lemma C2_same_currency_identity_witness :
  toAmount (dom (snd (performConversion sample_host one "USD" "USD" initial_state)))
  = Some one.
Proof.
  refine (proj1 (C2_same_currency_identity sample_host one "USD" initial_state _ _));
    [repeat split | reflexivity].
Defined.

(** C4 on sixty records appended to the empty log. *)
Lemma C4_history_capacity_witness :
  conversionHistory (append_all sample_host sixty_records initial_state)
  = rev (skipn 10 sixty_records).
Proof.
  refine (proj1 (proj2 (proj2 (C4_history_capacity sample_host sixty_records
                                 initial_state _)) _ _));
    [cbn; lia | reflexivity | reflexivity].
Defined.

(** C5 on a log of one record. *)
Lemma C5_history_round_trip_witness :
  conversionHistory
    (snd (loadHistoryFromStorage sample_host
            (startup_with
               (conversionHistoryData
                  (snd (saveHistoryToStorage
                          (set_conversionHistory [sample_record] initial_state)))))))
  = [sample_record].
Proof.
  refine (proj2 (C5_history_round_trip sample_host [sample_record]
                   (set_conversionHistory [sample_record] initial_state)
                   (startup_with _) _ _ _));
    [|reflexivity|reflexivity].
  constructor; [|constructor].
  exists one, "USD", (num_of_Z 15000), "IDR", (num_of_Z 15000), 1730505600123.
  repeat split.
Defined.

(** C6 on a stored text that is not JSON. *)
Lemma C6_load_fails_soft_witness :
  fst (loadHistoryFromStorage sample_host (startup_with Unparsable)) = Ok tt /\
  conversionHistory (snd (loadHistoryFromStorage sample_host (startup_with Unparsable))) = [].
Proof.
  refine (C6_load_fails_soft sample_host (startup_with Unparsable) _). reflexivity.
Defined.

(** C7 on two stored records, the second with a timestamp that is not a
    date. *)
Lemma C7_invalid_timestamp_empties_log_witness :
  conversionHistory
    (snd (loadHistoryFromStorage sample_host (startup_with blob_with_bad_timestamp))) = [].
Proof.
  refine (proj2 (C7_invalid_timestamp_empties_log sample_host
                   [ to_json sample_record;
                     conversion_record one "USD" one "USD" (VNum one) (VStr "not-a-date") ]
                   (startup_with blob_with_bad_timestamp) _)
                (conversion_record one "USD" one "USD" (VNum one) (VStr "not-a-date"))
                (VStr "not-a-date") _ _ _);
    [reflexivity | right; left; reflexivity | reflexivity | reflexivity].
Defined.

(** C8 on EUR to IDR with an empty cache: one request, for the EUR table;
    the IDR entry of the answer is the rate. *)
Lemma C8_fresh_fetch_keeps_cache_witness :
  requests (snd (getExchangeRate sample_host "EUR" "IDR" initial_state))
  = [(baseURL ++ "EUR")%string] /\
  exchangeRates (snd (getExchangeRate sample_host "EUR" "IDR" initial_state)) = [] /\
  fst (getExchangeRate sample_host "EUR" "IDR" initial_state) = Ok (VNum (num_of_Z 15000)).
Proof.
  pose proof (C8_fresh_fetch_keeps_cache sample_host "EUR" "IDR" initial_state) as H.
  cbv zeta in H.
  destruct H as (H1 & H2 & _ & H4);
    [apply String.eqb_neq; reflexivity | reflexivity | reflexivity | left; reflexivity |].
  split; [exact H1|]. split; [exact H2|].
  refine (H4 120 {| ok := true; status := 200;
                    json := Some (VObj [("base", VStr "USD"); ("rates", VObj sample_rates)]) |}
             (VObj [("base", VStr "USD"); ("rates", VObj sample_rates)])
             (VObj sample_rates) _ _ _ _ _ _);
    reflexivity.
Defined.

(** C9 on USD to IDR against a provider without IDR. *)
Lemma C9_missing_target_generic_error_witness :
  fst (getExchangeRate host_without_IDR "USD" "IDR" initial_state)
  = Throw (Error "Gagal mendapatkan nilai tukar mata uang").
Proof.
  refine (proj1 (C9_missing_target_generic_error host_without_IDR "USD" "IDR" initial_state
                   120 {| ok := true; status := 200; json := Some _ |} _
                   (VObj [("EUR", VNum (num_div (num_of_Z 9) (num_of_Z 10)))])
                   _ _ _ _ _ _ _ _ _ _));
    [apply String.eqb_neq; reflexivity | reflexivity | reflexivity | left; reflexivity
    | reflexivity ..].
Defined.

(** C10 on the sample provider. *)
Lemma C10_base_rate_after_load_witness :
  exists after response data table,
    network sample_host (baseURL ++ "USD") = Responds after response /\
    json response = Some data /\
    get data "rates" = Ok table /\
    let rates := exchangeRates (snd (loadCurrencies sample_host initial_state)) in
    if lists_USD table
    then rates = own_properties table
    else rates = assign "USD" (VNum one) (own_properties table) /\
         lookup "USD" rates = VNum one.
Proof.
  refine (C10_base_rate_after_load sample_host initial_state _). reflexivity.
Defined.

(** C6 as stated fails on [[{"from":{},"to":{},"timestamp":0}]]: the text
    is the serialization of no log of well-formed records, and loading it
    leaves a log of one record. *)
Lemma C6_counterexample :
  (~ exists log, Forall well_formed_record log /\ odd_blob = JSON_stringify (VArr log)) /\
  conversionHistory (snd (loadHistoryFromStorage sample_host (startup_with odd_blob))) <> [].
Proof.
  split.
  - intros (log & Hwf & E). unfold odd_blob, JSON_stringify in E. injection E as E.
    destruct Hwf as [|r log Hr Hwf]; [discriminate|].
    destruct Hr as (fa & fc & ta & tc & rate & t & -> & Hfa & _ & Hta & _ & Hrate & Ht).
    cbn in E. discriminate.
  - intros E. vm_compute in E. discriminate.
Qed.

(** C7 as stated fails on two stored records of which the second has the
    timestamp "not-a-date": the first is well-formed, and the claim has it
    loaded, but the log is left empty. *)
Lemma C7_counterexample :
  well_formed_record sample_record /\
  conversionHistory
    (snd (loadHistoryFromStorage sample_host (startup_with blob_with_bad_timestamp)))
  <> [sample_record].
Proof.
  split.
  - exists one, "USD", (num_of_Z 15000), "IDR", (num_of_Z 15000), 1730505600123.
    repeat split.
  - intros E. vm_compute in E. discriminate.
Qed.

(** C9 as stated fails against a provider that answers without an IDR
    entry: what [getExchangeRate] throws, and what [performConversion] shows,
    is not the message naming the currency. *)
Lemma C9_counterexample :
  fst (getExchangeRate host_without_IDR "USD" "IDR" initial_state)
  <> Throw (Error "Exchange rate not available for IDR") /\
  errorMessage (dom (snd (performConversion host_without_IDR one "USD" "IDR" initial_state)))
  <> Some (Literal "Exchange rate not available for IDR").
Proof.
  split; intros E; vm_compute in E; discriminate.
Qed.

(** C10 as stated fails against a provider whose table gives USD as 2: the
    load succeeds and USD maps to 2. *)
Lemma C10_counterexample :
  fst (loadCurrencies host_with_USD_2 initial_state) = Ok tt /\
  lookup "USD" (exchangeRates (snd (loadCurrencies host_with_USD_2 initial_state)))
  <> VNum one.
Proof.
  split; [reflexivity|]. intros E. vm_compute in E. discriminate.
Qed.


(** * More on the rate provider *)

Section ProviderMore.

Variable host : Host.

Lemma In_insert_sorted x y l : In x (insert_sorted y l) <-> x = y \/ In x l.
Proof.
  induction l as [|z l IH]; cbn; [intuition|].
  destruct (String.leb y z); cbn; [intuition|]. rewrite IH. intuition.
Qed.

Lemma In_sort x l : In x (sort l) <-> In x l.
Proof.
  induction l as [|y l IH]; cbn; [reflexivity|].
  unfold sort in *. rewrite In_insert_sorted, IH. intuition.
Qed.

Lemma existsb_eqb_In x l : existsb (String.eqb x) l = true <-> In x l.
Proof.
  rewrite existsb_exists. split.
  - intros (y & Hy & E). apply String.eqb_eq in E. now subst.
  - intros H. exists x. split; [exact H|apply String.eqb_refl].
Qed.

Lemma keys_assign_new k v o :
  ~ In k (map fst o) -> map fst (assign k v o) = (map fst o ++ [k])%list.
Proof.
  induction o as [|[k' v'] o IH]; cbn; intros H; [reflexivity|].
  destruct (String.eqb k k') eqn:E.
  - apply String.eqb_eq in E. exfalso. apply H. now left.
  - cbn. rewrite IH by tauto. reflexivity.
Qed.

Lemma loadCurrencies_outside_load : keeps outside_load (loadCurrencies host).
Proof. unfold loadCurrencies. frame. Qed.

(** Whether a load succeeds is up to the host alone. *)
Lemma loadCurrencies_result s s0 :
  fst (loadCurrencies host s) = fst (loadCurrencies host s0).
Proof.
  cbv beta iota delta [loadCurrencies try_catch bind fetchWithTimeout response_json
    count_apiCall push_error set_lastUpdateTime hideError with_dom gets modify lift ret
    throw].
  destruct (network host (baseURL ++ "USD")) as [|after|after r]; [reflexivity| |].
  - destruct (after <? timeout); reflexivity.
  - destruct (after <? timeout); [|reflexivity].
    destruct (negb (ok r)); [reflexivity|].
    destruct (json r) as [data|]; [|reflexivity].
    destruct (get data "rates") as [rates|]; [|reflexivity].
    destruct (negb (truthy rates) || negb (typeof_object rates)); [reflexivity|].
    cbn [fst snd currencies set_currencies set_exchangeRates].
    destruct (existsb (String.eqb "USD") (sort (map fst (own_properties rates))));
      reflexivity.
Qed.

(** One request, to the USD table, whatever happens. *)
Lemma loadCurrencies_requests s :
  requests (snd (loadCurrencies host s)) = (baseURL ++ "USD")%string :: requests s.
Proof.
  change (wp (loadCurrencies host)
            (fun _ s' => requests s' = (baseURL ++ "USD")%string :: requests s) s).
  unfold loadCurrencies.
  unfold fetchWithTimeout, response_json, count_apiCall, push_error, set_lastUpdateTime,
    hideError, with_dom.
  wp_run; simpl_state; reflexivity.
Qed.

Lemma loadCurrencies_throws s e :
  fst (loadCurrencies host s) = Throw e ->
  let s' := snd (loadCurrencies host s) in
  e = Error "Gagal memuat data mata uang dari server" /\
  exchangeRates s' = exchangeRates s /\
  currencies s' = currencies s /\
  dom s' = dom s /\
  conversionHistory s' = conversionHistory s /\
  apiCallCount (appState s') = apiCallCount (appState s) /\
  lastUpdateTime (appState s') = lastUpdateTime (appState s) /\
  exists cause, errors (appState s') = (errors (appState s) ++ [load_failure host cause])%list.
Proof.
  change (wp (loadCurrencies host)
    (fun r s' => r = Throw e ->
       e = Error "Gagal memuat data mata uang dari server" /\
       exchangeRates s' = exchangeRates s /\
       currencies s' = currencies s /\
       dom s' = dom s /\
       conversionHistory s' = conversionHistory s /\
       apiCallCount (appState s') = apiCallCount (appState s) /\
       lastUpdateTime (appState s') = lastUpdateTime (appState s) /\
       exists cause,
         errors (appState s') = (errors (appState s) ++ [load_failure host cause])%list) s).
  unfold loadCurrencies.
  unfold fetchWithTimeout, response_json, count_apiCall, push_error, set_lastUpdateTime,
    hideError, with_dom.
  wp_run; simpl_state; intros Hr; try discriminate Hr.
  all: injection Hr as <-; repeat (split; [reflexivity|]); eexists; reflexivity.
Qed.

Lemma loadCurrencies_returns s :
  fst (loadCurrencies host s) = Ok tt ->
  let s' := snd (loadCurrencies host s) in
  (forall code, In code (currencies s') <->
                supported code = true /\ In code (map fst (exchangeRates s'))) /\
  In "USD" (currencies s') /\
  lastUpdateTime (appState s') = Some (now host) /\
  apiCallCount (appState s') = apiCallCount (appState s) + 1 /\
  errors (appState s') = errors (appState s) /\
  errorMessage (dom s') = None.
Proof.
  change (wp (loadCurrencies host)
    (fun r s' => r = Ok tt ->
       (forall code, In code (currencies s') <->
                     supported code = true /\ In code (map fst (exchangeRates s'))) /\
       In "USD" (currencies s') /\
       lastUpdateTime (appState s') = Some (now host) /\
       apiCallCount (appState s') = apiCallCount (appState s) + 1 /\
       errors (appState s') = errors (appState s) /\
       errorMessage (dom s') = None) s).
  unfold loadCurrencies.
  unfold fetchWithTimeout, response_json, count_apiCall, push_error, set_lastUpdateTime,
    hideError, with_dom.
  wp_run; simpl_state; intros Hr; try discriminate Hr.
  - match goal with H : existsb _ _ = true |- _ =>
      rewrite existsb_sort in H; apply existsb_eqb_In in H; rename H into Hin end.
    assert (Hall : forall code, In code (filter supported (sort (map fst (own_properties a)))) <->
                  supported code = true /\ In code (map fst (own_properties a))).
    { intros code. rewrite filter_In, In_sort. tauto. }
    split; [exact Hall|]. split; [|repeat split].
    apply Hall. split; [reflexivity|exact Hin].
  - match goal with H : existsb _ _ = false |- _ =>
      rewrite existsb_sort in H; rename H into Hout end.
    assert (Hnot : ~ In "USD" (map fst (own_properties a))).
    { intros H. apply existsb_eqb_In in H. congruence. }
    assert (Hall : forall code,
              In code (filter supported ("USD" :: sort (map fst (own_properties a)))) <->
              supported code = true /\
              In code (map fst (assign "USD" (VNum one) (own_properties a)))).
    { intros code. rewrite filter_In, keys_assign_new by exact Hnot.
      rewrite in_app_iff. cbn [In]. rewrite In_sort. intuition. }
    split; [exact Hall|]. split; [|repeat split].
    apply Hall. split; [reflexivity|]. rewrite keys_assign_new by exact Hnot.
    apply in_or_app. right. now left.
Qed.

(** A load that fails throws the generic error, logs its cause, and leaves
    the cached table, the currency list, the counters, the history and the
    display as they were: stale rates stay usable.  The request it made is
    recorded. *)
Theorem loadCurrencies_failure_keeps_cache (s : state) (e : exn) :
  fst (loadCurrencies host s) = Throw e ->
  let s' := snd (loadCurrencies host s) in
  e = Error "Gagal memuat data mata uang dari server" /\
  exchangeRates s' = exchangeRates s /\
  currencies s' = currencies s /\
  dom s' = dom s /\
  conversionHistory s' = conversionHistory s /\
  apiCallCount (appState s') = apiCallCount (appState s) /\
  lastUpdateTime (appState s') = lastUpdateTime (appState s) /\
  requests s' = (baseURL ++ "USD")%string :: requests s /\
  exists cause, errors (appState s') = (errors (appState s) ++ [load_failure host cause])%list.
Proof.
  intros He. cbv zeta.
  destruct (loadCurrencies_throws s e He) as (H1 & H2 & H3 & H4 & H5 & H6 & H7 & H8).
  repeat (split; [assumption|]). split; [apply loadCurrencies_requests|exact H8].
Qed.

(** After a load that succeeds, every supported code that has an entry in
    the rate table is in the currency list, every code in the list has an
    entry in the table, and USD is in the list; the time of the load is
    recorded, the call counted, the error log untouched and the error banner
    hidden; the history and the result panel are not touched. *)
Theorem loadCurrencies_lists_supported_entries (s : state) :
  fst (loadCurrencies host s) = Ok tt ->
  let s' := snd (loadCurrencies host s) in
  (forall code, supported code = true ->
     (In code (currencies s') <-> In code (map fst (exchangeRates s')))) /\
  (forall code, In code (currencies s') -> In code (map fst (exchangeRates s'))) /\
  In "USD" (currencies s') /\
  lastUpdateTime (appState s') = Some (now host) /\
  apiCallCount (appState s') = apiCallCount (appState s) + 1 /\
  errors (appState s') = errors (appState s) /\
  errorMessage (dom s') = None /\
  conversionHistory s' = conversionHistory s /\
  resultDisplay (dom s') = resultDisplay (dom s).
Proof.
  intros Hok. cbv zeta.
  destruct (loadCurrencies_returns s Hok) as (H1 & H2 & H3 & H4 & H5 & H6).
  pose proof (loadCurrencies_outside_load s) as Hk. unfold outside_load in Hk. split_views.
  split.
  { intros code Hs. rewrite H1. tauto. }
  split.
  { intros code Hin. now apply H1 in Hin. }
  repeat (split; [assumption|]). assumption.
Qed.

End ProviderMore.


(** * More on [getExchangeRate] *)

Section RatesMore.

Variable host : Host.

(** The only error [getExchangeRate] lets out. *)
Lemma getExchangeRate_error X Y s e :
  fst (getExchangeRate host X Y s) = Throw e ->
  e = Error "Gagal mendapatkan nilai tukar mata uang".
Proof.
  unfold getExchangeRate, try_catch.
  match goal with |- fst (match ?c with _ => _ end) = _ -> _ => destruct c as [[v|e0] s1] end.
  - discriminate.
  - cbn. intros H. injection H as <-. reflexivity.
Qed.

(** Whatever goes wrong in [getExchangeRate], its caller sees one and the
    same error, and the cause is appended to the error log; when nothing
    goes wrong the log is untouched.  The call counter moves, by one, only
    when a fetched rate is returned: requests that fail are not counted. *)
Theorem getExchangeRate_outcomes (X Y : string) (s : state) :
  let r := fst (getExchangeRate host X Y s) in
  let s' := snd (getExchangeRate host X Y s) in
  match r with
  | Ok _ =>
      errors (appState s') = errors (appState s) /\
      (requests s' = requests s /\
       apiCallCount (appState s') = apiCallCount (appState s) \/
       requests s' = (baseURL ++ X)%string :: requests s /\
       apiCallCount (appState s') = apiCallCount (appState s) + 1)
  | Throw e =>
      e = Error "Gagal mendapatkan nilai tukar mata uang" /\
      apiCallCount (appState s') = apiCallCount (appState s) /\
      exists cause,
        errors (appState s') = (errors (appState s) ++ [rate_failure host X Y cause])%list
  end.
Proof.
  change (wp (getExchangeRate host X Y)
    (fun r s' =>
       match r with
       | Ok _ =>
           errors (appState s') = errors (appState s) /\
           (requests s' = requests s /\
            apiCallCount (appState s') = apiCallCount (appState s) \/
            requests s' = (baseURL ++ X)%string :: requests s /\
            apiCallCount (appState s') = apiCallCount (appState s) + 1)
       | Throw e =>
           e = Error "Gagal mendapatkan nilai tukar mata uang" /\
           apiCallCount (appState s') = apiCallCount (appState s) /\
           exists cause,
             errors (appState s') = (errors (appState s) ++ [rate_failure host X Y cause])%list
       end) s).
  unfold getExchangeRate.
  unfold fetchWithTimeout, response_json, count_apiCall, push_error.
  wp_run; simpl_state.
  all: first [ split; [reflexivity|]; first [left; split; reflexivity | right; split; reflexivity]
             | split; [reflexivity|]; split; [reflexivity|]; eexists; reflexivity ].
Qed.

(** When the provider does not answer within the timeout, a conversion
    between distinct supported currencies that are not both cached fails,
    and the log names the timeout as the cause. *)
Theorem getExchangeRate_timeout (X Y : string) (s : state) :
  X <> Y -> supported X = true -> supported Y = true ->
  truthy (lookup X (exchangeRates s)) && truthy (lookup Y (exchangeRates s)) = false ->
  times_out host (baseURL ++ X) ->
  let s' := snd (getExchangeRate host X Y s) in
  fst (getExchangeRate host X Y s) = Throw (Error "Gagal mendapatkan nilai tukar mata uang") /\
  errors (appState s')
  = (errors (appState s) ++
     [rate_failure host X Y (Literal "Request timeout - server tidak merespons")])%list /\
  requests s' = (baseURL ++ X)%string :: requests s.
Proof.
  intros Hne _ _ Hmiss Hlate. apply String.eqb_neq in Hne.
  change (wp (getExchangeRate host X Y)
    (fun r s' =>
       r = Throw (Error "Gagal mendapatkan nilai tukar mata uang") /\
       errors (appState s')
       = (errors (appState s) ++
          [rate_failure host X Y (Literal "Request timeout - server tidak merespons")])%list /\
       requests s' = (baseURL ++ X)%string :: requests s) s).
  unfold getExchangeRate. rewrite Hne. cbv iota.
  unfold fetchWithTimeout, response_json, count_apiCall, push_error.
  wp_step. wp_step. wp_step. rewrite Hmiss. cbv iota.
  unfold times_out in Hlate.
  wp_step. wp_step. wp_step.
  destruct (network host (baseURL ++ X)) as [|after|after response].
  - wp_run. simpl_state. repeat split.
  - assert (E : (after <? timeout) = false) by now apply Z.ltb_ge.
    rewrite E. wp_run. simpl_state. repeat split.
  - assert (E : (after <? timeout) = false) by now apply Z.ltb_ge.
    rewrite E. wp_run. simpl_state. repeat split.
Qed.

(** When the provider answers in time with a status that is not ok, the
    body is not read: the conversion, between distinct supported currencies
    that are not both cached, fails and the log carries the status. *)
Theorem getExchangeRate_http_error (X Y : string) (s : state) (after : Z) (response : response) :
  X <> Y -> supported X = true -> supported Y = true ->
  truthy (lookup X (exchangeRates s)) && truthy (lookup Y (exchangeRates s)) = false ->
  network host (baseURL ++ X) = Responds after response -> after < timeout ->
  ok response = false ->
  let s' := snd (getExchangeRate host X Y s) in
  fst (getExchangeRate host X Y s) = Throw (Error "Gagal mendapatkan nilai tukar mata uang") /\
  errors (appState s')
  = (errors (appState s) ++
     [rate_failure host X Y (Literal ("HTTP error! status: " ++ string_of_Z (status response)))])%list /\
  apiCallCount (appState s') = apiCallCount (appState s).
Proof.
  intros Hne _ _ Hmiss Hnet Hafter Hok. apply String.eqb_neq in Hne. apply Z.ltb_lt in Hafter.
  change (wp (getExchangeRate host X Y)
    (fun r s' =>
       r = Throw (Error "Gagal mendapatkan nilai tukar mata uang") /\
       errors (appState s')
       = (errors (appState s) ++
          [rate_failure host X Y
             (Literal ("HTTP error! status: " ++ string_of_Z (status response)))])%list /\
       apiCallCount (appState s') = apiCallCount (appState s)) s).
  unfold getExchangeRate. rewrite Hne. cbv iota.
  unfold fetchWithTimeout, response_json, count_apiCall, push_error.
  wp_step. wp_step. wp_step. rewrite Hmiss. cbv iota.
  wp_step. wp_step. wp_step. rewrite Hnet. cbv iota. rewrite Hafter. cbv iota.
  wp_step. rewrite Hok. cbn [negb]. cbv iota.
  wp_run. simpl_state. repeat split.
Qed.

End RatesMore.


(** * More on [performConversion] *)

Section ConversionMore.

Variable host : Host.

Lemma getExchangeRate_outside_rates X Y : keeps outside_rates (getExchangeRate host X Y).
Proof. unfold getExchangeRate. frame. Qed.

(** The rate obtained depends on the cached table and the host only. *)
Lemma getExchangeRate_result_cache X Y s s0 :
  exchangeRates s = exchangeRates s0 ->
  fst (getExchangeRate host X Y s) = fst (getExchangeRate host X Y s0).
Proof.
  intros E.
  unfold getExchangeRate, try_catch, bind, fetchWithTimeout, response_json, count_apiCall,
    push_error, gets, modify, lift, ret, throw, bind.
  destruct (String.eqb X Y); [reflexivity|]. rewrite E.
  destruct (truthy (lookup X (exchangeRates s0)) && truthy (lookup Y (exchangeRates s0))).
  - destruct (js_div host _ _); reflexivity.
  - destruct (network host (baseURL ++ X)) as [|after|after r]; [reflexivity| |].
    + destruct (after <? timeout); reflexivity.
    + destruct (after <? timeout); [|reflexivity].
      destruct (negb (ok r)); [reflexivity|].
      destruct (json r) as [data|]; [|reflexivity].
      destruct (get data "rates") as [rates|]; [|reflexivity].
      destruct (negb (truthy rates) || negb (truthy (lookup Y (own_properties rates))));
        reflexivity.
Qed.

Lemma SFltb_not_leb m1 e1 m2 e2 :
  SFltb (S754_finite false m2 e2) (S754_finite false m1 e1) = false ->
  SFleb (S754_finite false m1 e1) (S754_finite false m2 e2) = true.
Proof.
  unfold SFleb, SFltb. cbn [SFcompare].
  rewrite (Z.compare_antisym e1 e2).
  destruct (e1 ?= e2); cbn [CompOpp]; try reflexivity; try discriminate.
  assert (A : Pos.compare_cont Eq m2 m1 = CompOpp (Pos.compare_cont Eq m1 m2))
    by (symmetry; apply (Pos.compare_cont_antisym m1 m2 Eq)).
  rewrite A.
  destruct (Pos.compare_cont Eq m1 m2); cbn [CompOpp]; try reflexivity; discriminate.
Qed.

(** The amounts that pass the three checks are exactly those strictly above
    0 and at most one billion: zero, NaN, negative and infinite amounts do
    not pass. *)
Lemma checks_pass_iff a :
  num_truthy a = true /\ num_leb a zero = false /\ num_ltb max_amount a = false <->
  num_ltb zero a = true /\ num_leb a max_amount = true.
Proof.
  split.
  - intros (Ht & Hle & Hlt).
    destruct a as [sg|[]| |[] m e]; try discriminate.
    split; [reflexivity|]. unfold num_ltb, num_leb, max_amount in *.
    now apply SFltb_not_leb.
  - intros (H0 & H1).
    destruct a as [sg|[]| |[] m e]; try discriminate; try (destruct sg; discriminate).
    repeat split. unfold num_ltb, num_leb, max_amount in *. now apply SFleb_not_ltb.
Qed.

(** Unless the amount is strictly above 0 and at most one billion and both
    currencies are chosen, [performConversion] fetches nothing and records
    nothing: only the banner and the panel can change. *)
Theorem performConversion_invalid_input_no_effect (a : number) (X Y : string) (s : state) :
  ~ (num_ltb zero a = true /\ num_leb a max_amount = true /\
     str_truthy X = true /\ str_truthy Y = true) ->
  beyond_display (snd (performConversion host a X Y s)) = beyond_display s /\
  resultDisplay (dom (snd (performConversion host a X Y s))) = false.
Proof.
  intros Hbad. unfold performConversion.
  destruct (negb (num_truthy a) || negb (str_truthy X) || negb (str_truthy Y)) eqn:E1;
    [split; reflexivity|].
  destruct (num_leb a zero) eqn:E2; [split; reflexivity|].
  destruct (num_ltb max_amount a) eqn:E3; [split; reflexivity|].
  exfalso. apply Hbad.
  apply orb_false_iff in E1 as [E1 EY]. apply orb_false_iff in E1 as [Ea EX].
  apply negb_false_iff in Ea, EX, EY.
  destruct (proj1 (checks_pass_iff a) (conj Ea (conj E2 E3))) as [H0 H1].
  repeat split; assumption.
Qed.

(** With nothing running during the wait, [performConversion] is its part
    before the [await] followed by [performConversion_resumes]. *)
Lemma performConversion_split a X Y s :
  num_truthy a = true -> num_leb a zero = false -> num_ltb max_amount a = false ->
  str_truthy X = true -> str_truthy Y = true ->
  performConversion host a X Y s
  = performConversion_resumes host a X Y
      (fst (getExchangeRate host X Y (entering s)))
      (snd (getExchangeRate host X Y (entering s))).
Proof.
  intros Ht Hle Hlt HX HY.
  unfold performConversion. rewrite Ht, HX, HY, Hle, Hlt. cbn [negb orb].
  unfold performConversion_resumes, entering.
  cbv beta iota delta [try_catch bind modify lift showLoading set_isLoading with_dom
                       showResult hideError fst snd].
  destruct (getExchangeRate host X Y _) as [[rate|e] s1]; reflexivity.
Qed.

(** When the rate a conversion waits for settles, then whatever other
    handlers have done to the page in the meantime, the conversion ends
    without raising and with the spinner flag off.  If no banner is up when
    it resumes, exactly one of the banner and the result panel is shown at
    its end.  A banner put up during the wait is not taken down: when the
    conversion succeeds it stays, beside the result panel.  With nothing
    running during the wait, this is [performConversion]. *)
Theorem performConversion_display_after_await
    (a : number) (X Y : string) (outcome : result value) (s1 : state) :
  let s' := snd (performConversion_resumes host a X Y outcome s1) in
  (forall s, num_ltb zero a = true -> num_leb a max_amount = true ->
             str_truthy X = true -> str_truthy Y = true ->
             performConversion host a X Y s
             = performConversion_resumes host a X Y
                 (fst (getExchangeRate host X Y (entering s)))
                 (snd (getExchangeRate host X Y (entering s)))) /\
  fst (performConversion_resumes host a X Y outcome s1) = Ok tt /\
  isLoading (appState s') = false /\
  (errorMessage (dom s1) = None ->
   (errorMessage (dom s') = None <-> resultDisplay (dom s') = true)) /\
  (forall m rate conv,
     errorMessage (dom s1) = Some m -> outcome = Ok rate ->
     js_mul host (VNum a) rate = Ok conv -> renderable host (conversionHistory s1) ->
     errorMessage (dom s') = Some m /\ resultDisplay (dom s') = true).
Proof.
  cbv zeta. split.
  { intros s H0 H1 HX HY.
    destruct (proj2 (checks_pass_iff a) (conj H0 H1)) as (Ht & Hle & Hlt).
    now apply performConversion_split. }
  change (wp (performConversion_resumes host a X Y outcome)
    (fun r s' =>
       r = Ok tt /\
       isLoading (appState s') = false /\
       (errorMessage (dom s1) = None ->
        (errorMessage (dom s') = None <-> resultDisplay (dom s') = true)) /\
       (forall m rate conv,
          errorMessage (dom s1) = Some m -> outcome = Ok rate ->
          js_mul host (VNum a) rate = Ok conv -> renderable host (conversionHistory s1) ->
          errorMessage (dom s') = Some m /\ resultDisplay (dom s') = true)) s1).
  unfold performConversion_resumes.
  unfold showLoading, showResult, showError, hideResult, with_dom, set_isLoading.
  wp_step. wp_step. wp_step.
  destruct outcome as [rate|e]; cbv beta iota.
  - wp_step. wp_step. destruct (js_mul host (VNum a) rate) as [conv|e] eqn:Hmul; cbv beta iota.
    + wp_run. apply wp_addToHistory. intros r s2 Hv Hd Hh Hok.
      unfold conversion_view, display_view in Hv, Hd. split_views. simpl_state.
      destruct r as [[]|e]; cbv beta iota.
      * wp_run. simpl_state. split; [reflexivity|]. split; [reflexivity|].
        rewrite Hd2, Hd3. split.
        -- intros ->. split; reflexivity.
        -- intros m rate' conv' Hm _ _ _. split; [exact Hm|reflexivity].
      * wp_run. simpl_state. split; [reflexivity|]. split; [reflexivity|]. split.
        -- intros _. split; discriminate.
        -- intros m rate' conv' _ Hrate Hconv Hrend. exfalso.
           injection Hrate as <-.
           assert (Hn : exists x, ToNumber host rate = Ok x).
           { unfold js_mul in Hmul. cbn [ToNumber ToPrimitive rbind] in Hmul.
             destruct (ToNumber host rate) as [x|e0]; [eauto|discriminate]. }
           destruct Hn as [x Hn].
           destruct (conversion_record_renders host a X conv Y rate (now host) x Hn)
             as [Hi Ha].
           discriminate (Hok Hi Ha Hrend).
    + wp_run. simpl_state. split; [reflexivity|]. split; [reflexivity|]. split.
      * intros _. split; discriminate.
      * intros m rate' conv' _ Hrate Hconv _. injection Hrate as <-. congruence.
  - wp_run. simpl_state. split; [reflexivity|]. split; [reflexivity|]. split.
    + intros _. split; discriminate.
    + intros m rate' conv' _ Hrate. discriminate Hrate.
Qed.

(** When no rate can be had, a conversion of a valid amount records
    nothing: the history, its stored copy and the rendered list are as
    before, the target field keeps its value, the cached table is untouched,
    and the banner shows the generic message of [getExchangeRate]. *)
Theorem performConversion_failed_rate_records_nothing
  (a : number) (X Y : string) (s : state) (e : exn) :
  num_ltb zero a = true -> num_leb a max_amount = true ->
  str_truthy X = true -> str_truthy Y = true ->
  fst (getExchangeRate host X Y s) = Throw e ->
  let s' := snd (performConversion host a X Y s) in
  conversionHistory s' = conversionHistory s /\
  conversionHistoryData s' = conversionHistoryData s /\
  historyList (dom s') = historyList (dom s) /\
  toAmount (dom s') = toAmount (dom s) /\
  exchangeRates s' = exchangeRates s /\
  errorMessage (dom s') = Some (Literal "Gagal mendapatkan nilai tukar mata uang") /\
  resultDisplay (dom s') = false.
Proof.
  intros H0 H1 HX HY He.
  destruct (proj2 (checks_pass_iff a) (conj H0 H1)) as (Ht & Hle & Hlt).
  rewrite (getExchangeRate_result_cache X Y s (entering s) eq_refl) in He.
  pose proof (getExchangeRate_error host X Y (entering s) e He) as ->.
  pose proof (getExchangeRate_outside_rates X Y (entering s)) as Hk.
  match goal with |- let s' := snd (?c s) in @?P s' => change (wp c (fun _ s' => P s') s) end.
  cbv beta.
  destruct (getExchangeRate host X Y (entering s)) as [r s1] eqn:Hrate.
  cbn [fst snd] in He, Hk. subst r.
  unfold outside_rates in Hk. split_views.
  unfold performConversion. rewrite Ht, HX, HY, Hle, Hlt. cbn [negb orb].
  unfold showLoading, hideError, showResult, with_dom, set_isLoading. wp_run.
  eapply wp_eq; [exact Hrate|]. cbv beta iota.
  unfold showError, hideResult, with_dom. wp_run. simpl_state.
  rewrite Hk6, Hk5, Hk4, Hk0. simpl_state. repeat split.
Qed.

End ConversionMore.


(** * More on persistence *)

Section PersistenceMore.

Variable host : Host.

(** What [loadHistoryFromStorage] leaves alone. *)
Lemma loadHistoryFromStorage_outside_history :
  keeps outside_history (loadHistoryFromStorage host).
Proof. unfold loadHistoryFromStorage. frame. Qed.

Lemma loadHistoryFromStorage_list s0 :
  let s' := snd (loadHistoryFromStorage host s0) in
  historyList (dom s') = conversionHistory s' \/
  conversionHistory s' = [] /\ historyList (dom s') = historyList (dom s0).
Proof.
  change (wp (loadHistoryFromStorage host)
    (fun _ s' =>
       historyList (dom s') = conversionHistory s' \/
       conversionHistory s' = [] /\ historyList (dom s') = historyList (dom s0)) s0).
  unfold loadHistoryFromStorage, updateHistoryDisplay, set_historyList, with_dom.
  wp_run; simpl_state.
  all: try match goal with H : ?a = [] |- _ => is_var a; subst a end.
  all: try match goal with H : ?a = _ :: _ |- _ => is_var a; subst a end.
  all: first [ left; congruence | right; split; reflexivity ].
Qed.

Lemma Forall_firstn {A} (Q : A -> Prop) n l : Forall Q l -> Forall Q (firstn n l).
Proof.
  intros H. revert n. induction H as [|x l Hx _ IH]; intros n.
  - rewrite firstn_nil. constructor.
  - destruct n as [|n]; [constructor|]. rewrite firstn_cons. constructor; auto.
Qed.

(** Loading never writes the slot and touches nothing but the log and the
    rendered list.  The list it leaves shows the log it leaves, except
    when the load is given up: then the log is empty and the list is the
    one that was on the page. *)
Theorem loadHistoryFromStorage_list_or_gives_up (s0 : state) :
  let s' := snd (loadHistoryFromStorage host s0) in
  outside_history s' = outside_history s0 /\
  (historyList (dom s') = conversionHistory s' \/
   conversionHistory s' = [] /\ historyList (dom s') = historyList (dom s0)).
Proof.
  split; [apply loadHistoryFromStorage_outside_history|apply loadHistoryFromStorage_list].
Qed.

(** What is appended in one session is there in the next: after a
    well-formed record has been appended to a log of well-formed records, a
    page that starts from the slot loads the record in front of the log, cut
    to 50, and shows it. *)
Theorem addToHistory_then_reload (c : value) (s s0 : state) :
  well_formed_record c -> Forall well_formed_record (conversionHistory s) ->
  conversionHistoryData s0 = conversionHistoryData (snd (addToHistory host c s)) ->
  let s' := snd (loadHistoryFromStorage host s0) in
  conversionHistory s' = firstn 50 (c :: conversionHistory s) /\
  historyList (dom s') = firstn 50 (c :: conversionHistory s).
Proof.
  intros Hc Hlog Hdata. cbv zeta.
  assert (Hwf : Forall well_formed_record (firstn 50 (c :: conversionHistory s))).
  { apply Forall_firstn. constructor; assumption. }
  pose proof (addToHistory_saved host c s) as Hsaved. cbv zeta in Hsaved.
  rewrite addToHistory_history in Hsaved. rewrite Hsaved in Hdata.
  destruct (loadHistoryFromStorage_spec host s0) as (_ & _ & _ & Hload).
  assert (H : conversionHistory (snd (loadHistoryFromStorage host s0))
              = firstn 50 (c :: conversionHistory s)).
  { apply (Hload (VArr (map to_json (firstn 50 (c :: conversionHistory s))))).
    - exact Hdata.
    - apply revive_serialized, Hwf.
    - apply well_formed_renderable, Hwf. }
  split; [exact H|].
  destruct (loadHistoryFromStorage_list s0) as [Hl|[He _]]; cbv zeta in *.
  - congruence.
  - rewrite He in H. change 50%nat with (S 49) in H. rewrite firstn_cons in H.
    discriminate H.
Qed.

End PersistenceMore.


(** * The form and the event handlers *)

Section PageProperties.

Variable host : Host.
Variable browser : Browser.

Lemma select_value_in options v : In v options -> select_value options v = v.
Proof.
  intros H. unfold select_value.
  replace (existsb (String.eqb v) options) with true; [reflexivity|].
  symmetry. apply existsb_eqb_In. exact H.
Qed.

(** Read the controls through their setters. *)
Ltac simpl_form :=
  unfold set_fromAmount_value, set_fromCurrency_value, set_toCurrency_value, set_options,
    set_clearHistoryBtn, set_pending_restores in *;
  cbn [form script fst snd fromAmount_value fromCurrency_value toCurrency_value
       fromCurrency_options toCurrency_options clearHistoryBtn_text
       clearHistoryBtn_disabled pending_restores] in *.

Ltac unfold_page :=
  unfold pbind, ptry_catch, reads, with_form, spawn, pret, plift, run in *.

Lemma pwp_pret {A} (a : A) Q p : Q (Ok a) p -> pwp (pret a) Q p.
Proof. exact (fun H => H). Qed.

Lemma pwp_plift {A} (r : result A) Q p : Q r p -> pwp (plift r) Q p.
Proof. exact (fun H => H). Qed.

Lemma pwp_reads {A} (g : controls -> A) Q p : Q (Ok (g (form p))) p -> pwp (reads g) Q p.
Proof. exact (fun H => H). Qed.

Lemma pwp_with_form g Q p :
  Q (Ok tt) {| script := script p; form := g (form p) |} -> pwp (with_form g) Q p.
Proof. exact (fun H => H). Qed.

Lemma pwp_run {A} (c : M A) Q p :
  wp c (fun r s' => Q r {| script := s'; form := form p |}) (script p) -> pwp (run c) Q p.
Proof. exact (fun H => H). Qed.

Lemma pwp_spawn {A} (c : P A) Q p :
  pwp c (fun _ p' => Q (Ok tt) p') p -> pwp (spawn c) Q p.
Proof. exact (fun H => H). Qed.

Lemma pwp_bind {A B} (c : P A) (k : A -> P B) Q p :
  pwp c (fun r p' => match r with
                     | Ok a => pwp (k a) Q p'
                     | Throw e => Q (Throw e) p'
                     end) p ->
  pwp (pbind c k) Q p.
Proof. unfold pwp, pbind. destruct (c p) as [[a|e] p']; exact (fun H => H). Qed.

Lemma pwp_try_catch {A} (c : P A) handler Q p :
  pwp c (fun r p' => match r with
                     | Ok a => Q (Ok a) p'
                     | Throw e => pwp (handler e) Q p'
                     end) p ->
  pwp (ptry_catch c handler) Q p.
Proof. unfold pwp, ptry_catch. destruct (c p) as [[a|e] p']; exact (fun H => H). Qed.

(** A computation whose result is known. *)
Lemma wp_result {A} (c : M A) (Q : result A -> state -> Prop) s r :
  fst (c s) = r -> Q r (snd (c s)) -> wp c Q s.
Proof. unfold wp. intros ->. exact (fun H => H). Qed.

(** State a goal about the result and the final page of a handler as a
    [pwp]. *)
Ltac page_goal :=
  match goal with
  | |- let p' := snd (?c ?p) in fst (?c ?p) = ?v /\ @?G p' =>
      change (pwp c (fun r p' => r = v /\ G p') p); cbv beta
  end.

Ltac pwp_step :=
  match goal with
  | |- pwp (pbind _ _) _ _ => apply pwp_bind
  | |- pwp (ptry_catch _ _) _ _ => apply pwp_try_catch
  | |- pwp (pret _) _ _ => apply pwp_pret
  | |- pwp (plift _) _ _ => apply pwp_plift
  | |- pwp (reads _) _ _ => apply pwp_reads
  | |- pwp (with_form _) _ _ => apply pwp_with_form
  | |- pwp (spawn _) _ _ => apply pwp_spawn
  | |- pwp (run _) _ _ => apply pwp_run
  | |- pwp (if ?b then _ else _) _ _ => destruct b eqn:?
  end; cbv beta iota; cbn [form script].

Ltac page_run := repeat first [pwp_step | wp_step].

(** [swapCurrencies] does nothing at all unless both selects have a chosen
    currency.  When they have, and each select offers the currency chosen in
    the other, the two choices are exchanged; then, with an empty amount
    field nothing else happens, and otherwise the conversion is run on the
    exchanged choices. *)
Theorem swapCurrencies_exchanges (p : page) :
  let X := fromCurrency_value (form p) in
  let Y := toCurrency_value (form p) in
  let p' := snd (swapCurrencies host browser p) in
  fst (swapCurrencies host browser p) = Ok tt /\
  (str_truthy X && str_truthy Y = false -> p' = p) /\
  (str_truthy X = true -> str_truthy Y = true ->
   In Y (fromCurrency_options (form p)) -> In X (toCurrency_options (form p)) ->
   fromCurrency_value (form p') = Y /\ toCurrency_value (form p') = X /\
   fromAmount_value (form p') = fromAmount_value (form p) /\
   script p' =
     if str_truthy (fromAmount_value (form p))
     then snd (performConversion host (parseFloat browser (fromAmount_value (form p))) Y X
                 (script p))
     else script p).
Proof.
  destruct p as [s f]. cbv zeta. cbn [form script].
  unfold swapCurrencies, performConversion_form. unfold_page. simpl_form.
  destruct (str_truthy (fromCurrency_value f) && str_truthy (toCurrency_value f)) eqn:E.
  - simpl_form.
    destruct (str_truthy (fromAmount_value f)) eqn:Ea; simpl_form.
    + split; [reflexivity|]. split; [discriminate|].
      intros _ _ HY HX. rewrite (select_value_in _ _ HY), (select_value_in _ _ HX).
      repeat split.
    + split; [reflexivity|]. split; [discriminate|].
      intros _ _ HY HX. rewrite (select_value_in _ _ HY), (select_value_in _ _ HX).
      repeat split.
  - split; [reflexivity|]. split; [reflexivity|].
    intros HX HY. rewrite HX, HY in E. discriminate.
Qed.

(** With an empty amount field and two selects that both offer the two
    chosen currencies, swapping twice gives the page back. *)
Theorem swapCurrencies_twice (p : page) :
  let X := fromCurrency_value (form p) in
  let Y := toCurrency_value (form p) in
  fromAmount_value (form p) = EmptyString ->
  In X (fromCurrency_options (form p)) -> In Y (fromCurrency_options (form p)) ->
  In X (toCurrency_options (form p)) -> In Y (toCurrency_options (form p)) ->
  snd (swapCurrencies host browser (snd (swapCurrencies host browser p))) = p.
Proof.
  destruct p as [s f]. destruct f as [a X Xs Y Ys label disabled pending].
  simpl_form. intros -> HXX HYX HXY HYY.
  unfold swapCurrencies, performConversion_form. unfold_page. simpl_form.
  destruct (str_truthy X && str_truthy Y) eqn:E; simpl_form; cbn [str_truthy]; simpl_form.
  - rewrite (select_value_in _ _ HYX), (select_value_in _ _ HXY).
    rewrite andb_comm, E. simpl_form.
    rewrite (select_value_in _ _ HXX), (select_value_in _ _ HYY). reflexivity.
  - rewrite E. reflexivity.
Qed.

(** What [loadCurrencies] does, for its callers. *)
Lemma wp_loadCurrencies (Q : result unit -> state -> Prop) s :
  (forall r s',
     r = fst (loadCurrencies host s) ->
     outside_load s' = outside_load s ->
     requests s' = (baseURL ++ "USD")%string :: requests s ->
     (r = Ok tt ->
      (forall code, In code (currencies s') <->
                    supported code = true /\ In code (map fst (exchangeRates s'))) /\
      In "USD" (currencies s') /\
      lastUpdateTime (appState s') = Some (now host) /\
      apiCallCount (appState s') = apiCallCount (appState s) + 1 /\
      errors (appState s') = errors (appState s) /\
      errorMessage (dom s') = None) ->
     (forall e, r = Throw e ->
      exchangeRates s' = exchangeRates s /\
      currencies s' = currencies s /\
      dom s' = dom s /\
      apiCallCount (appState s') = apiCallCount (appState s) /\
      lastUpdateTime (appState s') = lastUpdateTime (appState s) /\
      exists cause,
        errors (appState s') = (errors (appState s) ++ [load_failure host cause])%list) ->
     Q r s') ->
  wp (loadCurrencies host) Q s.
Proof.
  intros H. apply H.
  - reflexivity.
  - apply loadCurrencies_outside_load.
  - apply loadCurrencies_requests.
  - intros Hr. apply (loadCurrencies_returns host s Hr).
  - intros e Hr.
    destruct (loadCurrencies_throws host s e Hr) as (_ & H2 & H3 & H4 & _ & H6 & H7 & H8).
    repeat (split; [assumption|]). exact H8.
Qed.

(** When the rates cannot be loaded, [initializeApp] gives up at once: it
    shows its own message and stops the spinner, but the selects are not
    populated, no default is chosen and the stored history is not loaded.
    The cause is in the error log. *)
Theorem initializeApp_failure (p : page) (e : exn) :
  fst (loadCurrencies host (script p)) = Throw e ->
  let p' := snd (initializeApp host p) in
  fst (initializeApp host p) = Ok tt /\
  errorMessage (dom (script p')) =
    Some (Literal "Gagal memuat aplikasi. Silakan refresh halaman.") /\
  resultDisplay (dom (script p')) = false /\
  isLoading (appState (script p')) = false /\
  form p' = form p /\
  conversionHistory (script p') = conversionHistory (script p) /\
  historyList (dom (script p')) = historyList (dom (script p)) /\
  exchangeRates (script p') = exchangeRates (script p) /\
  currencies (script p') = currencies (script p) /\
  exists cause,
    errors (appState (script p')) =
    (errors (appState (script p)) ++ [load_failure host cause])%list.
Proof.
  intros He.
  page_goal.
  unfold initializeApp. pwp_step. pwp_step. pwp_step.
  unfold showLoading, showResult, showError, hideResult, with_dom, set_isLoading.
  wp_run. pwp_step. pwp_step.
  apply wp_loadCurrencies. intros r s' Hr Hout Hreq _ Hthrow.
  rewrite (loadCurrencies_result host _ (script p)), He in Hr. subst r.
  destruct (Hthrow e eq_refl) as (H2 & H3 & H4 & H5 & H6 & cause & H7).
  unfold outside_load in Hout. split_views. simpl_state.
  pwp_step. pwp_step. wp_run. pwp_step. wp_run. simpl_state.
  rewrite H2, H3, H4, H7, Hout0. simpl_state.
  repeat (split; [reflexivity|]). exists cause. reflexivity.
Qed.

Lemma wp_loadHistoryFromStorage (Q : result unit -> state -> Prop) s :
  (forall s', outside_history s' = outside_history s -> Q (Ok tt) s') ->
  wp (loadHistoryFromStorage host) Q s.
Proof.
  intros H. unfold wp.
  destruct (loadHistoryFromStorage_spec host s) as (-> & _).
  apply H, loadHistoryFromStorage_outside_history.
Qed.

Lemma filter_all {A} (f : A -> bool) l : (forall x, In x l -> f x = true) -> filter f l = l.
Proof.
  induction l as [|a l IH]; intros H; [reflexivity|].
  cbn. rewrite (H a) by now left. rewrite IH; [reflexivity|].
  intros x Hx. apply H. now right.
Qed.

(** When the rates load, [initializeApp] fills both selects with the
    placeholder and the currency list, chooses USD as the source and IDR as
    the target --- or no target at all when the provider's table has no
    IDR ---, leaves the amount field alone, and ends with no banner and the
    spinner stopped.  The result panel stays open on the placeholder the
    spinner put there. *)
Theorem initializeApp_success (p : page) :
  fst (loadCurrencies host (script p)) = Ok tt ->
  let p' := snd (initializeApp host p) in
  fst (initializeApp host p) = Ok tt /\
  fromCurrency_options (form p') = EmptyString :: currencies (script p') /\
  toCurrency_options (form p') = EmptyString :: currencies (script p') /\
  fromCurrency_value (form p') = "USD" /\
  toCurrency_value (form p') =
    (if existsb (String.eqb "IDR") (currencies (script p')) then "IDR" else EmptyString) /\
  fromAmount_value (form p') = fromAmount_value (form p) /\
  errorMessage (dom (script p')) = None /\
  isLoading (appState (script p')) = false /\
  resultDisplay (dom (script p')) = true /\
  resultAmount (dom (script p')) = None.
Proof.
  intros He. page_goal.
  unfold initializeApp. pwp_step. pwp_step. pwp_step.
  unfold showLoading, showResult, showError, hideResult, with_dom, set_isLoading.
  wp_run. pwp_step. pwp_step.
  apply wp_loadCurrencies. intros r s1 Hr Hout Hreq Hok _.
  rewrite (loadCurrencies_result host _ (script p)), He in Hr. subst r.
  destruct (Hok eq_refl) as (Hall & HUSD & _ & _ & _ & Hbanner).
  unfold outside_load in Hout. split_views. simpl_state.
  unfold populateCurrencySelects, setDefaultCurrencies, setupEventListeners.
  pwp_step. pwp_step. pwp_step. wp_run. pwp_step. pwp_step. pwp_step. pwp_step.
  pwp_step. pwp_step. pwp_step.
  apply wp_loadHistoryFromStorage. intros s2 Hkeep. cbv beta iota.
  unfold outside_history in Hkeep. split_views.
  pwp_step. pwp_step. pwp_step. wp_run. simpl_state. simpl_form.
  assert (Hf : filter supported (currencies s1) = currencies s1).
  { apply filter_all. intros x Hx. now apply Hall in Hx. }
  rewrite Hf.
  assert (HU : select_value (EmptyString :: currencies s1) "USD" = "USD").
  { apply select_value_in. now right. }
  rewrite HU, Hkeep9, Hkeep6, Hkeep5, Hkeep3.
  repeat (split; [first [reflexivity | assumption]|]). assumption.
Qed.

(** Requests are only ever added. *)
Lemma getExchangeRate_requests X Y s :
  exists more, requests (snd (getExchangeRate host X Y s)) = (more ++ requests s)%list.
Proof.
  change (wp (getExchangeRate host X Y)
            (fun _ s' => exists more, requests s' = (more ++ requests s)%list) s).
  unfold getExchangeRate.
  unfold fetchWithTimeout, response_json, count_apiCall, push_error.
  wp_run; simpl_state.
  all: first [ exists []; reflexivity | exists [(baseURL ++ X)%string]; reflexivity ].
Qed.

Lemma performConversion_requests a X Y s :
  exists more, requests (snd (performConversion host a X Y s)) = (more ++ requests s)%list.
Proof.
  change (wp (performConversion host a X Y)
            (fun _ s' => exists more, requests s' = (more ++ requests s)%list) s).
  unfold performConversion.
  destruct (negb (num_truthy a) || negb (str_truthy X) || negb (str_truthy Y));
    [exists []; reflexivity|].
  destruct (num_leb a zero); [exists []; reflexivity|].
  destruct (num_ltb max_amount a); [exists []; reflexivity|].
  unfold showLoading, hideError, showResult, showError, hideResult, with_dom, set_isLoading.
  wp_run.
  match goal with |- wp _ _ ?s0 =>
    destruct (getExchangeRate_requests X Y s0) as [more Hmore];
    apply (wp_result _ _ _ _ eq_refl);
    generalize dependent (snd (getExchangeRate host X Y s0));
    generalize (fst (getExchangeRate host X Y s0))
  end.
  intros [rate|e] s1 Hmore; cbv beta iota; simpl_state.
  - wp_run.
    + apply (wp_keeps conversion_view); [apply addToHistory_conversion_view|].
      intros [[]|e] s2 Hv; cbv beta iota; unfold conversion_view in Hv; split_views;
        simpl_state; wp_run; simpl_state; exists more; congruence.
    + simpl_state. exists more. exact Hmore.
  - wp_run. simpl_state. exists more. exact Hmore.
Qed.

Lemma wp_performConversion a X Y (Q : result unit -> state -> Prop) s :
  (forall s', (exists more, requests s' = (more ++ requests s)%list) -> Q (Ok tt) s') ->
  wp (performConversion host a X Y) Q s.
Proof.
  intros H. unfold wp. rewrite performConversion_returns.
  apply H, performConversion_requests.
Qed.

(** [refreshExchangeRates] never raises and never touches the form; it
    makes the request for the USD table, and at most what a conversion
    asks for besides. *)
Lemma refreshExchangeRates_returns p :
  let p' := snd (refreshExchangeRates host browser p) in
  fst (refreshExchangeRates host browser p) = Ok tt /\
  form p' = form p /\
  exists more,
    requests (script p')
    = (more ++ (baseURL ++ "USD")%string :: requests (script p))%list.
Proof.
  page_goal. unfold refreshExchangeRates, performConversion_form.
  pwp_step. pwp_step. pwp_step.
  apply wp_loadCurrencies. intros r s1 Hr _ Hreq _ _.
  destruct r as [[]|e]; cbv beta iota; cbn [form script].
  - pwp_step. pwp_step. pwp_step. pwp_step. pwp_step. pwp_step. pwp_step.
    + pwp_step. pwp_step. pwp_step. pwp_step. pwp_step. pwp_step. pwp_step.
      apply wp_performConversion. intros s2 [more Hmore]. cbn [form script].
      split; [reflexivity|]. split; [reflexivity|]. exists more. congruence.
    + pwp_step. split; [reflexivity|]. split; [reflexivity|]. exists []. exact Hreq.
  - pwp_step. unfold showError, hideResult, with_dom. wp_run. simpl_state.
    split; [reflexivity|]. split; [reflexivity|]. exists []. exact Hreq.
Qed.

(** When the rates cannot be loaded, [refreshExchangeRates] shows its own
    message and stops there: no conversion is attempted, the cached table,
    the currency list, the history and the form are as before, and the cause
    is in the error log. *)
Theorem refreshExchangeRates_failure (p : page) (e : exn) :
  fst (loadCurrencies host (script p)) = Throw e ->
  let p' := snd (refreshExchangeRates host browser p) in
  fst (refreshExchangeRates host browser p) = Ok tt /\
  errorMessage (dom (script p')) = Some (Literal "Gagal memperbarui nilai tukar") /\
  resultDisplay (dom (script p')) = false /\
  form p' = form p /\
  exchangeRates (script p') = exchangeRates (script p) /\
  currencies (script p') = currencies (script p) /\
  conversionHistory (script p') = conversionHistory (script p) /\
  toAmount (dom (script p')) = toAmount (dom (script p)) /\
  requests (script p') = (baseURL ++ "USD")%string :: requests (script p) /\
  exists cause,
    errors (appState (script p')) =
    (errors (appState (script p)) ++ [load_failure host cause])%list.
Proof.
  intros He. page_goal. unfold refreshExchangeRates.
  pwp_step. pwp_step. pwp_step.
  apply wp_loadCurrencies. intros r s1 Hr Hout Hreq _ Hthrow.
  rewrite He in Hr. subst r.
  destruct (Hthrow e eq_refl) as (H2 & H3 & H4 & H5 & H6 & cause & H7).
  unfold outside_load in Hout. split_views. cbv beta iota. cbn [form script].
  pwp_step. unfold showError, hideResult, with_dom. wp_run. simpl_state.
  rewrite H2, H3, H4, H7, Hout0, Hreq. simpl_state.
  repeat (split; [reflexivity|]). exists cause. reflexivity.
Qed.


(** [clearHistory] clears nothing without the user's word.  On an empty
    history it shows a message and leaves the form and the stored slot
    alone; on a history the user declines to clear, it leaves the whole page
    as it is. *)
Theorem clearHistory_needs_consent (p : page) :
  let p' := snd (clearHistory host browser p) in
  fst (clearHistory host browser p) = Ok tt /\
  (conversionHistory (script p) = [] ->
   errorMessage (dom (script p')) = Some (Literal "Tidak ada riwayat untuk dihapus") /\
   resultDisplay (dom (script p')) = false /\
   form p' = form p /\
   conversionHistoryData (script p') = conversionHistoryData (script p) /\
   historyList (dom (script p')) = historyList (dom (script p))) /\
  (conversionHistory (script p) <> [] ->
   confirm browser "Apakah Anda yakin ingin menghapus semua riwayat konversi?" = false ->
   p' = p).
Proof.
  page_goal. unfold clearHistory, setTimeout_restore.
  pwp_step. pwp_step. wp_run.
  destruct (conversionHistory (script p)) as [|c history] eqn:Hh.
  - pwp_step. unfold showError, hideResult, with_dom. wp_run. simpl_state.
    split; [reflexivity|]. split; [repeat split|]. intros H. now contradiction H.
  - unfold saveHistoryToStorage, updateHistoryDisplay, set_historyList, with_dom.
    page_run; simpl_state; try discriminate.
    + split; [reflexivity|]. split; [discriminate|]. intros _ H. discriminate H.
    + split; [reflexivity|]. split; [discriminate|]. intros _ _.
      destruct p. reflexivity.
Qed.

(** Once the user has confirmed, the log, the stored slot and the rendered
    list are all empty, so that a page starting from the slot loads an
    empty history; rates, counters and the display are untouched.  The
    button is disabled under its confirmation label until its timer fires,
    which gives the form back as it was. *)
Theorem clearHistory_confirmed (p : page) (s0 : state) :
  conversionHistory (script p) <> [] ->
  confirm browser "Apakah Anda yakin ingin menghapus semua riwayat konversi?" = true ->
  pending_restores (form p) = [] ->
  clearHistoryBtn_disabled (form p) = false ->
  conversionHistoryData s0 = conversionHistoryData (script (snd (clearHistory host browser p))) ->
  let p' := snd (clearHistory host browser p) in
  fst (clearHistory host browser p) = Ok tt /\
  conversionHistory (script p') = [] /\
  conversionHistoryData (script p') = Json (VArr []) /\
  historyList (dom (script p')) = [] /\
  conversion_view (script p') = conversion_view (script p) /\
  display_view (script p') = display_view (script p) /\
  clearHistoryBtn_text (form p') = "✅ Terhapus" /\
  clearHistoryBtn_disabled (form p') = true /\
  conversionHistory (snd (loadHistoryFromStorage host s0)) = [] /\
  form (snd (timer_fires p')) = form p.
Proof.
  intros Hh Hyes Hpending Henabled. revert s0.
  match goal with
  | |- forall s0, @?H s0 -> let p' := snd (?c p) in fst (?c p) = ?v /\ @?G s0 p' =>
      change (pwp c (fun r p' => forall s0, conversionHistoryData s0
                                            = conversionHistoryData (script p') ->
                                            r = v /\ G s0 p') p)
  end.
  cbv beta.
  unfold clearHistory, setTimeout_restore.
  pwp_step. pwp_step. wp_run.
  destruct (conversionHistory (script p)) as [|c history] eqn:Hc; [now contradiction Hh|].
  rewrite Hyes.
  unfold saveHistoryToStorage, updateHistoryDisplay, set_historyList, with_dom.
  page_run; simpl_state; try discriminate.
  intros s0 Hslot.
  repeat (split; [reflexivity|]).
  split.
  - destruct (loadHistoryFromStorage_spec host s0) as (_ & _ & _ & Hload).
    apply (Hload (VArr []) []); [exact Hslot|reflexivity|apply renderable_nil].
  - unfold timer_fires, restore_clearHistoryBtn. unfold_page. simpl_form.
    rewrite Hpending. simpl_form. destruct p as [s f]. destruct f. simpl_form.
    subst. reflexivity.
Qed.

(** The shortcuts are Ctrl or Cmd with a lower-case [s] or [r], and Escape:
    any other key, and [s] or [r] without a modifier, leave the page as it
    is.  Escape, with or without a modifier, empties both amount fields and
    hides the banner and the result panel; it leaves the chosen currencies,
    the history and the rates alone. *)
Theorem handleKeyboardShortcuts_keys (e : KeyboardEvent) (p : page) :
  let p' := snd (handleKeyboardShortcuts host browser e p) in
  (key e <> "Escape" ->
   ctrlKey e || metaKey e = false \/ key e <> "s" /\ key e <> "r" ->
   handleKeyboardShortcuts host browser e p = (Ok tt, p)) /\
  (key e = "Escape" ->
   fst (handleKeyboardShortcuts host browser e p) = Ok tt /\
   form p' = set_fromAmount_value (sanitize browser EmptyString) (form p) /\
   toAmount (dom (script p')) = None /\
   errorMessage (dom (script p')) = None /\
   resultDisplay (dom (script p')) = false /\
   beyond_amount (script p') = beyond_amount (script p)).
Proof.
  cbv zeta. split.
  - intros Hesc Hkeys. unfold handleKeyboardShortcuts.
    apply String.eqb_neq in Hesc. rewrite Hesc.
    destruct Hkeys as [->|[Hs Hr]]; [reflexivity|].
    apply String.eqb_neq in Hs, Hr. rewrite Hs, Hr, !andb_false_r. reflexivity.
  - intros Hesc. unfold handleKeyboardShortcuts. rewrite Hesc.
    cbn [String.eqb Ascii.eqb Bool.eqb andb]. rewrite !andb_false_r.
    repeat split.
Qed.

(** Coming back to the tab refreshes the rates only when they were loaded
    more than five minutes ago.  While the tab is hidden, when the rates were
    never loaded, or when they are five minutes old at most, nothing happens
    at all. *)
Theorem handleVisibilityChange_refreshes_stale (p : page) :
  let p' := snd (handleVisibilityChange host browser p) in
  fst (handleVisibilityChange host browser p) = Ok tt /\
  form p' = form p /\
  (document_hidden browser = true \/
   lastUpdateTime (appState (script p)) = None \/
   (exists t, lastUpdateTime (appState (script p)) = Some t /\ now host - t <= 300000) ->
   p' = p) /\
  (document_hidden browser = false ->
   forall t, lastUpdateTime (appState (script p)) = Some t -> 300000 < now host - t ->
   exists more,
     requests (script p')
     = (more ++ (baseURL ++ "USD")%string :: requests (script p))%list).
Proof.
  destruct p as [s f]. page_goal. cbn [script form].
  destruct (refreshExchangeRates_returns {| script := s; form := f |}) as (Hr & Hf & Hq).
  cbn [script form] in Hf, Hq.
  unfold handleVisibilityChange. pwp_step. pwp_step. wp_run.
  destruct (lastUpdateTime (appState s)) as [t|] eqn:Ht.
  - destruct (document_hidden browser) eqn:Hh; cbn [negb andb].
    + pwp_step. repeat split; try discriminate.
    + destruct (5 * 60 * 1000 <? now host - t) eqn:Hlt.
      * pwp_step. unfold pwp.
        apply Z.ltb_lt in Hlt. split; [reflexivity|]. split; [exact Hf|]. split.
        -- intros [H|[H|(t' & H & Hle)]]; try discriminate.
           injection H as <-. lia.
        -- intros _ t' H _. exact Hq.
      * pwp_step. apply Z.ltb_ge in Hlt. repeat split. intros _ t' H Hgt.
        injection H as <-. lia.
  - pwp_step. repeat split. intros _ t H. discriminate H.
Qed.

(** When the connection comes back the banner is hidden, and the rates are
    refreshed when they were never loaded or were loaded more than a minute
    ago; otherwise hiding the banner is all that happens. *)
Theorem handleOnlineStatus_refreshes_stale (p : page) :
  let p' := snd (handleOnlineStatus host browser p) in
  fst (handleOnlineStatus host browser p) = Ok tt /\
  form p' = form p /\
  (forall t, lastUpdateTime (appState (script p)) = Some t -> now host - t <= 60000 ->
   script p' = snd (hideError (script p))) /\
  (lastUpdateTime (appState (script p)) = None \/
   (exists t, lastUpdateTime (appState (script p)) = Some t /\ 60000 < now host - t) ->
   exists more,
     requests (script p')
     = (more ++ (baseURL ++ "USD")%string :: requests (script p))%list).
Proof.
  destruct p as [s f]. page_goal. cbn [script form].
  destruct (refreshExchangeRates_returns
              {| script := snd (hideError s); form := f |}) as (Hr & Hf & Hq).
  cbn [script form] in Hf, Hq.
  change (requests (snd (hideError s))) with (requests s) in Hq.
  unfold handleOnlineStatus. pwp_step. pwp_step.
  apply wp_result with (r := Ok tt); [reflexivity|]. cbv beta iota. cbn [script form].
  pwp_step. pwp_step. wp_run.
  change (lastUpdateTime (appState (snd (hideError s))))
    with (lastUpdateTime (appState s)).
  destruct (lastUpdateTime (appState s)) as [t|] eqn:Ht.
  - destruct (60000 <? now host - t) eqn:Hlt.
    + pwp_step. unfold pwp.
      apply Z.ltb_lt in Hlt. split; [reflexivity|]. split; [exact Hf|]. split.
      * intros t' H Hle. injection H as <-. lia.
      * intros _. exact Hq.
    + pwp_step. apply Z.ltb_ge in Hlt. repeat split.
      intros [H|(t' & H & Hgt)]; [discriminate|]. injection H as <-. lia.
  - pwp_step. unfold pwp. split; [reflexivity|]. split; [exact Hf|]. split.
    + intros t H. discriminate H.
    + intros _. exact Hq.
Qed.

(** Losing the connection and getting it back while the rates are fresh
    changes one thing for good: the result panel, closed by the offline
    banner, is not opened again when the banner goes. *)
Theorem offline_then_online (p : page) (t : Z) :
  lastUpdateTime (appState (script p)) = Some t -> now host - t <= 60000 ->
  let p' := snd (handleOnlineStatus host browser (snd (handleOfflineStatus p))) in
  errorMessage (dom (script p')) = None /\
  resultDisplay (dom (script p')) = false /\
  resultAmount (dom (script p')) = resultAmount (dom (script p)) /\
  exchangeRate (dom (script p')) = exchangeRate (dom (script p)) /\
  beyond_display (script p') = beyond_display (script p) /\
  form p' = form p.
Proof.
  intros Ht Hle. cbv zeta.
  assert (Hoff : handleOfflineStatus p
                 = (Ok tt, {| script := snd (showError (Literal
                      "Koneksi internet terputus. Menggunakan nilai tukar terakhir yang tersimpan.")
                      (script p)); form := form p |})) by reflexivity.
  rewrite Hoff. cbn [snd].
  match goal with |- context [snd (?c ?q)] =>
    match c with handleOnlineStatus _ _ =>
      change (pwp c (fun _ p' =>
        errorMessage (dom (script p')) = None /\
        resultDisplay (dom (script p')) = false /\
        resultAmount (dom (script p')) = resultAmount (dom (script p)) /\
        exchangeRate (dom (script p')) = exchangeRate (dom (script p)) /\
        beyond_display (script p') = beyond_display (script p) /\
        form p' = form p) q)
    end
  end.
  unfold handleOnlineStatus. pwp_step. pwp_step.
  apply wp_result with (r := Ok tt); [reflexivity|]. cbv beta iota. cbn [script form].
  pwp_step. pwp_step. wp_run.
  match goal with |- context [lastUpdateTime (appState ?s0)] =>
    change (lastUpdateTime (appState s0)) with (lastUpdateTime (appState (script p)))
  end.
  rewrite Ht. apply Z.ltb_ge in Hle. rewrite Hle. pwp_step.
  repeat split.
Qed.

(** The five-minute tick is silent: it never raises and never shows an
    error, whatever the provider does; it leaves the form, the history and
    the result panel alone.  It does nothing at all while the tab is hidden
    or the browser is offline; otherwise it makes one request. *)
Theorem startAutoRefresh_tick_silent (p : page) :
  let p' := snd (startAutoRefresh_tick host browser p) in
  fst (startAutoRefresh_tick host browser p) = Ok tt /\
  form p' = form p /\
  outside_load (script p') = outside_load (script p) /\
  (errorMessage (dom (script p')) = None \/
   errorMessage (dom (script p')) = errorMessage (dom (script p))) /\
  (document_hidden browser = true \/ navigator_onLine browser = false -> p' = p) /\
  (document_hidden browser = false -> navigator_onLine browser = true ->
   requests (script p') = (baseURL ++ "USD")%string :: requests (script p)).
Proof.
  page_goal. unfold startAutoRefresh_tick. pwp_step.
  destruct (document_hidden browser) eqn:Hh; cbn [negb andb].
  - pwp_step. destruct p. repeat split; auto; discriminate.
  - destruct (navigator_onLine browser) eqn:Ho.
    + pwp_step. apply wp_loadCurrencies. intros r s1 Hr Hout Hreq Hok Hthrow.
      destruct r as [[]|e]; cbv beta iota; cbn [form script].
      * destruct (Hok eq_refl) as (_ & _ & _ & _ & _ & Hb).
        repeat split; auto; intros [H|H]; discriminate H.
      * pwp_step. destruct (Hthrow e eq_refl) as (_ & _ & Hd & _).
        repeat split; auto; try (intros [H|H]; discriminate H).
        right. now rewrite Hd.
    + pwp_step. destruct p. repeat split; auto; discriminate.
Qed.

(** Clicking a history item only fills the form: the amount field gets the
    text of the source amount, each select gets the currency of the record
    if it offers it (and no choice otherwise), and no conversion is run ---
    rates, history and display are untouched.  An index past the end of the
    history does nothing. *)
Theorem useHistoryItem_fills_form (index : nat) (p : page) :
  let p' := snd (useHistoryItem browser index p) in
  (nth_error (conversionHistory (script p)) index = None ->
   useHistoryItem browser index p = (Ok tt, p)) /\
  (forall fa fc ta tc rate timestamp amount_text,
     nth_error (conversionHistory (script p)) index
     = Some (conversion_record fa fc ta tc rate timestamp) ->
     field_text browser (VNum fa) = Ok amount_text ->
     fst (useHistoryItem browser index p) = Ok tt /\
     script p' = script p /\
     fromAmount_value (form p') = sanitize browser amount_text /\
     fromCurrency_value (form p') = select_value (fromCurrency_options (form p)) fc /\
     toCurrency_value (form p') = select_value (toCurrency_options (form p)) tc /\
     fromCurrency_options (form p') = fromCurrency_options (form p) /\
     toCurrency_options (form p') = toCurrency_options (form p)).
Proof.
  cbv zeta. destruct p as [s f]. cbn [script form]. split.
  - intros Hnone. unfold useHistoryItem. unfold_page. cbn [fst snd script form gets].
    rewrite Hnone. reflexivity.
  - intros fa fc ta tc rate timestamp amount_text Hsome Htext.
    unfold useHistoryItem. unfold_page. cbn [fst snd script form gets].
    rewrite Hsome. unfold conversion_record. cbn [field_text ToString] in Htext.
    cbn [truthy negb get lookup own_properties String.eqb Ascii.eqb Bool.eqb
         field_text ToString fst snd script form].
    rewrite Htext. cbn [fst snd script form]. simpl_form.
    repeat split.
Qed.

End PageProperties.


(** * The further properties on the sample scenarios *)

(** A load that times out leaves the cached table. *)
Lemma loadCurrencies_failure_keeps_cache_witness :
  exchangeRates (snd (loadCurrencies host_silent cached_state)) = sample_rates.
Proof.
  refine (proj1 (proj2 (loadCurrencies_failure_keeps_cache host_silent cached_state
                          (Error "Gagal memuat data mata uang dari server") _))).
  reflexivity.
Defined.

(** The sample provider's table lists USD. *)
Lemma loadCurrencies_lists_supported_entries_witness :
  In "USD" (currencies (snd (loadCurrencies sample_host initial_state))).
Proof.
  refine (proj1 (proj2 (proj2 (loadCurrencies_lists_supported_entries sample_host
                                 initial_state _)))).
  reflexivity.
Defined.

(** USD to IDR against a provider that never answers. *)
Lemma getExchangeRate_timeout_witness :
  fst (getExchangeRate host_silent "USD" "IDR" initial_state)
  = Throw (Error "Gagal mendapatkan nilai tukar mata uang").
Proof.
  refine (proj1 (getExchangeRate_timeout host_silent "USD" "IDR" initial_state _ _ _ _ _));
    [apply String.eqb_neq; reflexivity | reflexivity | reflexivity | reflexivity | exact I].
Defined.

(** USD to IDR against a provider that answers 503. *)
Lemma getExchangeRate_http_error_witness :
  errors (appState (snd (getExchangeRate host_refusing "USD" "IDR" initial_state)))
  = [rate_failure host_refusing "USD" "IDR" (Literal "HTTP error! status: 503")].
Proof.
  refine (proj1 (proj2 (getExchangeRate_http_error host_refusing "USD" "IDR" initial_state
                          80 {| ok := false; status := 503; json := None |}
                          _ _ _ _ _ _ _)));
    [apply String.eqb_neq; reflexivity | reflexivity ..].
Defined.

(** An amount of -5 fetches nothing and records nothing. *)
Lemma performConversion_invalid_input_no_effect_witness :
  beyond_display (snd (performConversion sample_host (num_of_Z (-5)) "USD" "IDR" initial_state))
  = beyond_display initial_state.
Proof.
  refine (proj1 (performConversion_invalid_input_no_effect sample_host (num_of_Z (-5))
                   "USD" "IDR" initial_state _)).
  intros [H _]. vm_compute in H. discriminate H.
Defined.

(** One USD to IDR against a provider that never answers. *)
Lemma performConversion_failed_rate_records_nothing_witness :
  conversionHistory (snd (performConversion host_silent one "USD" "IDR" initial_state)) = [].
Proof.
  refine (proj1 (performConversion_failed_rate_records_nothing host_silent one "USD" "IDR"
                   initial_state (Error "Gagal mendapatkan nilai tukar mata uang")
                   _ _ _ _ _));
    reflexivity.
Defined.

(** The sample record, appended to the empty log and loaded back. *)
Lemma addToHistory_then_reload_witness :
  conversionHistory
    (snd (loadHistoryFromStorage sample_host
            (startup_with
               (conversionHistoryData
                  (snd (addToHistory sample_host sample_record initial_state))))))
  = [sample_record].
Proof.
  refine (proj1 (addToHistory_then_reload sample_host sample_record initial_state
                   (startup_with _) _ _ _));
    [|constructor|reflexivity].
  exists one, "USD", (num_of_Z 15000), "IDR", (num_of_Z 15000), 1730505600123.
  repeat split.
Defined.

(** USD and IDR swapped twice. *)
Lemma swapCurrencies_twice_witness :
  snd (swapCurrencies sample_host sample_browser
         (snd (swapCurrencies sample_host sample_browser (sample_page initial_state))))
  = sample_page initial_state.
Proof.
  refine (swapCurrencies_twice sample_host sample_browser (sample_page initial_state)
            _ _ _ _ _);
    [reflexivity | simpl; tauto ..].
Defined.

(** Startup against a provider that never answers. *)
Lemma initializeApp_failure_witness :
  errorMessage (dom (script (snd (initializeApp host_silent (sample_page initial_state)))))
  = Some (Literal "Gagal memuat aplikasi. Silakan refresh halaman.").
Proof.
  refine (proj1 (proj2 (initializeApp_failure host_silent (sample_page initial_state)
                          (Error "Gagal memuat data mata uang dari server") _))).
  reflexivity.
Defined.

(** Startup against the sample provider. *)
Lemma initializeApp_success_witness :
  fromCurrency_value (form (snd (initializeApp sample_host (sample_page initial_state))))
  = "USD".
Proof.
  refine (proj1 (proj2 (proj2 (proj2 (initializeApp_success sample_host
                                        (sample_page initial_state) _))))).
  reflexivity.
Defined.

(** A refresh against a provider that never answers. *)
Lemma refreshExchangeRates_failure_witness :
  exchangeRates (script (snd (refreshExchangeRates host_silent sample_browser
                                (filled_page cached_state))))
  = sample_rates.
Proof.
  refine (proj1 (proj2 (proj2 (proj2 (proj2
            (refreshExchangeRates_failure host_silent sample_browser (filled_page cached_state)
               (Error "Gagal memuat data mata uang dari server") _)))))).
  reflexivity.
Defined.


(** Clearing a history of one record. *)
Lemma clearHistory_confirmed_witness :
  conversionHistoryData
    (script (snd (clearHistory sample_host sample_browser
                    (sample_page (set_conversionHistory [sample_record] initial_state)))))
  = Json (VArr []).
Proof.
  refine (proj1 (proj2 (proj2
            (clearHistory_confirmed sample_host sample_browser
               (sample_page (set_conversionHistory [sample_record] initial_state))
               (startup_with (Json (VArr []))) _ _ _ _ _))));
    [discriminate | reflexivity ..].
Defined.

(** Offline and back online just after the rates were loaded. *)
Lemma offline_then_online_witness :
  resultDisplay
    (dom (script (snd (handleOnlineStatus sample_host sample_browser
                         (snd (handleOfflineStatus
                                 (sample_page (snd (loadCurrencies sample_host
                                                      initial_state)))))))))
  = false.
Proof.
  refine (proj1 (proj2 (offline_then_online sample_host sample_browser
                          (sample_page (snd (loadCurrencies sample_host initial_state)))
                          1730505600123 _ _)));
    [reflexivity | vm_compute; discriminate].
Defined.
